(** * KSBA core: AlgorithmIdentifier parsing, key-info codec, CMS outer
      parser and certificate accessors

    A shallow embedding of [src/keyinfo.c], [src/cms-parser.c] and
    [src/cert.c].

    Conventions.
    - A buffer [(der, derlen)] is a [list byte]; the C cursor [der] is the
      not yet consumed suffix and [derlen] its length.  A pointer difference
      [der - start] is the difference of the two suffix lengths.
    - [unsigned long] values that the code lets wrap around ([len] while it
      is shifted, [seqlen] while it is decremented) are reduced modulo
      [ULONG_MOD].
    - Functions that [return] an error code from the middle of their body
      are written in an error monad; the out-parameters of a failed call are
      not part of the result.
    - Memory allocation ([xtrymalloc], the string buffer) succeeds, except
      where a collaborator reports failure itself ([ksba_oid_to_str]
      returning NULL is [None]).
    - Collaborators whose sources are in other files of the library
      (OID printing, the BER helpers, the reader, the node finder, the time
      converter) are operations of a type class; the functions of the three
      files are defined for every implementation of them. *)

From Stdlib Require Import ZArith List String Ascii Bool Lia.
From Stdlib.Strings Require Import Byte.
From Stdlib Require Import DecimalString.
Import ListNotations.
Local Open Scope Z_scope.

(** ** Error codes and the error monad *)

(** The codes named in the three files.  [keyinfo.c] uses the [GPG_ERR_]
    codes, [cms-parser.c] and [cert.c] the [KSBA_] ones; both are plain
    integers for the C compiler and travel through the same [return]s.
    [Other_Error n] is a code given as a number ([read_buffer] returns -1). *)
Inductive error_code : Type :=
| GPG_ERR_INV_KEYINFO
| GPG_ERR_UNEXPECTED_TAG
| GPG_ERR_NOT_DER_ENCODED
| GPG_ERR_BAD_BER
| GPG_ERR_INV_BER
| GPG_ERR_ENOMEM
| GPG_ERR_INV_OBJ
| GPG_ERR_FALSE
| GPG_ERR_UNKNOWN_ALGORITHM
| GPG_ERR_UNSUPPORTED_ALGORITHM
| KSBA_Out_Of_Core
| KSBA_Invalid_Value
| KSBA_Conflict
| KSBA_Read_Error
| KSBA_BER_Error
| KSBA_Invalid_CMS_Object
| KSBA_No_CMS_Object
| KSBA_Object_Too_Short
| KSBA_Object_Too_Large
| KSBA_Unsupported_CMS_Object
| KSBA_Unsupported_CMS_Version
| KSBA_Unsupported_Encoding
| KSBA_Unknown_Algorithm
| KSBA_No_Value
| KSBA_No_Data
| Other_Error (n : Z).

Definition gpg_error_t := error_code.
Definition KsbaError := error_code.

Definition error_code_eq_dec (a b : error_code) : {a = b} + {a <> b}.
Proof. decide equality. apply Z.eq_dec. Defined.

Definition error_code_eqb (a b : error_code) : bool :=
  if error_code_eq_dec a b then true else false.

Inductive result (A : Type) : Type :=
| Ok (a : A)
| Err (e : error_code).
Arguments Ok {A} a.
Arguments Err {A} e.

Definition rbind {A B} (m : result A) (k : A -> result B) : result B :=
  match m with
  | Ok a => k a
  | Err e => Err e
  end.

Declare Scope result_scope.
Delimit Scope result_scope with result.
Notation "x <- m ;; k" := (rbind m (fun x => k))
  (at level 61, m at next level, right associativity) : result_scope.
Notation "' pat <- m ;; k" := (rbind m (fun x => match x with pat => k end))
  (at level 61, pat pattern, m at next level, right associativity)
  : result_scope.
Local Open Scope result_scope.

(** ** Bytes and machine integers *)

Definition byte_val (b : byte) : Z := Z.of_N (Byte.to_N b).

Definition derlen (der : list byte) : Z := Z.of_nat (List.length der).

(** [der - start], for a cursor [der] inside the buffer that starts at
    [start]. *)
Definition ptrdiff (start der : list byte) : Z := derlen start - derlen der.

(** [der += n]. *)
Definition advance (n : Z) (der : list byte) : list byte :=
  skipn (Z.to_nat n) der.

(** The [len] bytes at offset [off] of [der]. *)
Definition sub_buffer (der : list byte) (off len : Z) : list byte :=
  firstn (Z.to_nat len) (skipn (Z.to_nat off) der).

(** [unsigned long] and [size_t] have [ULONG_BITS] bits: 64 on an LP64
    platform (they have 32 on a 32-bit one; the properties below use only
    that the modulus is positive and that the buffer length is below it). *)
Definition ULONG_BITS : Z := 64.
Definition ULONG_MOD : Z := 2 ^ ULONG_BITS.
Definition wrap_ulong (x : Z) : Z := x mod ULONG_MOD.

(** [unsigned int] has 32 bits. *)
Definition wrap_uint (x : Z) : Z := x mod 2 ^ 32.

(** Universal tag numbers of [asn1-func.h]. *)
Definition TYPE_INTEGER : Z := 2.
Definition TYPE_OCTET_STRING : Z := 4.
Definition TYPE_NULL : Z := 5.
Definition TYPE_OBJECT_ID : Z := 6.
Definition TYPE_SEQUENCE : Z := 16.
Definition TYPE_SET : Z := 17.
Definition TYPE_UTC_TIME : Z := 23.
Definition TYPE_GENERALIZED_TIME : Z := 24.

(** [n] in decimal ASCII. *)
Definition decimal_string (n : Z) : string :=
  NilZero.string_of_uint (N.to_uint (Z.to_N n)).

(** ** keyinfo.c: the TLV_LENGTH macro (lines 331-357) *)

(** The [for (len=0; count; count--)] loop of the long form. *)
Fixpoint tlv_length_long (count : nat) (len : Z) (der : list byte)
  : result (Z * list byte) :=
  match count with
  | O => Ok (len, der)
  | S count' =>
      let len := wrap_ulong (Z.shiftl len 8) in
      match der with
      | [] => Err GPG_ERR_BAD_BER
      | c :: der' =>
          tlv_length_long count' (Z.lor len (Z.land (byte_val c) 255)) der'
      end
  end.

(** [TLV_LENGTH(der)]: on success the length and the cursor behind the
    length octets; an [Err] is the macro's [return]. *)
Definition TLV_LENGTH (der : list byte) : result (Z * list byte) :=
  match der with
  | [] => Err GPG_ERR_INV_KEYINFO
  | b :: der' =>
      let c := byte_val b in
      if c =? 128 then Err GPG_ERR_NOT_DER_ENCODED
      else if c =? 255 then Err GPG_ERR_BAD_BER
      else
        '(len, der'') <-
          (if Z.land c 128 =? 0 then Ok (c, der')
           else tlv_length_long (Z.to_nat (Z.land c 127)) 0 der') ;;
        if len >? derlen der'' then Err GPG_ERR_INV_KEYINFO
        else Ok (len, der'')
  end.

(** [if (!derlen) return INV_KEYINFO; c = *der++; derlen--;] *)
Definition next_octet (der : list byte) : result (Z * list byte) :=
  match der with
  | [] => Err GPG_ERR_INV_KEYINFO
  | b :: der' => Ok (byte_val b, der')
  end.

(** ** keyinfo.c: get_algorithm (lines 407-540) *)

Record algo_pos : Type := {
  r_nread : Z;
  r_pos : Z;
  r_len : Z;
  r_bitstr : bool;
  r_parm_pos : Z;
  r_parm_len : Z;
  r_parm_type : Z
}.

(** The state after the optional parameter (line 517): the cursor, what is
    left of [seqlen], the OID range and the parameter triple. *)
Record algo_seq : Type := {
  as_der : list byte;
  as_seqlen : Z;
  as_pos : Z;
  as_len : Z;
  as_parm_pos : Z;
  as_parm_len : Z;
  as_parm_type : Z
}.

(** The branch for a parameter that is skipped or recorded (lines 468-516):
    [record] says how the triple is filled from (offset behind the header,
    offset of the tag, header length, value length). *)
Definition get_algorithm_parm_tlv (start startparm der : list byte)
    (seqlen pos oidlen : Z) (record : Z -> Z -> Z -> Z -> Z * Z * Z)
  : result algo_seq :=
  '(len, der) <- TLV_LENGTH der ;;
  let '(ppos, plen, ptype) :=
    record (ptrdiff start der) (ptrdiff start startparm)
           (ptrdiff startparm der) len in
  let seqlen := wrap_ulong (seqlen - ptrdiff startparm der) in
  let der := advance len der in
  let seqlen := wrap_ulong (seqlen - len) in
  Ok {| as_der := der; as_seqlen := seqlen; as_pos := pos; as_len := oidlen;
        as_parm_pos := ppos; as_parm_len := plen; as_parm_type := ptype |}.

(** Lines 417-517.  [with_parm] says that [r_parm_pos], [r_parm_len] and
    [r_parm_type] are given (the callers pass all three or none). *)
Definition get_algorithm_seq (with_parm : bool) (start : list byte)
  : result algo_seq :=
  '(c, der) <- next_octet start ;;
  if negb (c =? 48) then Err GPG_ERR_UNEXPECTED_TAG else
  '(len, der) <- TLV_LENGTH der ;;
  let seqlen := len in
  let startseq := der in
  '(c, der) <- next_octet der ;;
  if negb (c =? 6) then Err GPG_ERR_UNEXPECTED_TAG else
  '(len, der) <- TLV_LENGTH der ;;
  let pos := ptrdiff start der in
  let oidlen := len in
  let der := advance len der in
  let seqlen := wrap_ulong (seqlen - ptrdiff startseq der) in
  if seqlen =? 0 then
    Ok {| as_der := der; as_seqlen := seqlen; as_pos := pos;
          as_len := oidlen;
          as_parm_pos := 0; as_parm_len := 0; as_parm_type := 0 |}
  else
    let startparm := der in
    '(c, der) <- next_octet der ;;
    if c =? 5 then
      '(c, der) <- next_octet der ;;
      if negb (c =? 0) then Err GPG_ERR_BAD_BER else
      Ok {| as_der := der; as_seqlen := wrap_ulong (seqlen - 2);
            as_pos := pos; as_len := oidlen;
            as_parm_pos := 0; as_parm_len := 0; as_parm_type := 0 |}
    else if with_parm && (c =? 4) then
      get_algorithm_parm_tlv start startparm der seqlen pos oidlen
        (fun value_off _ _ len => (value_off, len, TYPE_OCTET_STRING))
    else if with_parm && (c =? 6) then
      get_algorithm_parm_tlv start startparm der seqlen pos oidlen
        (fun value_off _ _ len => (value_off, len, TYPE_OBJECT_ID))
    else if with_parm && (c =? 48) then
      get_algorithm_parm_tlv start startparm der seqlen pos oidlen
        (fun _ tag_off nhdr len => (tag_off, len + nhdr, TYPE_SEQUENCE))
    else
      get_algorithm_parm_tlv start startparm der seqlen pos oidlen
        (fun _ _ _ _ => (0, 0, 0)).

(** Lines 519-539. *)
Definition get_algorithm_tail (mode : Z) (start : list byte) (s : algo_seq)
  : result algo_pos :=
  if negb (as_seqlen s =? 0) then Err GPG_ERR_INV_KEYINFO else
  '(der, bitstr) <-
    (if mode =? 0 then Ok (as_der s, false)
     else
       '(c, der) <- next_octet (as_der s) ;;
       if negb ((c =? 3) || (c =? 4)) then Err GPG_ERR_UNEXPECTED_TAG else
       '(_, der) <- TLV_LENGTH der ;;
       Ok (der, c =? 3)) ;;
  Ok {| r_nread := ptrdiff start der; r_pos := as_pos s; r_len := as_len s;
        r_bitstr := bitstr;
        r_parm_pos := as_parm_pos s; r_parm_len := as_parm_len s;
        r_parm_type := as_parm_type s |}.

Definition get_algorithm (mode : Z) (with_parm : bool) (der : list byte)
  : result algo_pos :=
  s <- get_algorithm_seq with_parm der ;;
  get_algorithm_tail mode der s.

(** ** keyinfo.c: _ksba_parse_algorithm_identifier2 (lines 553-626) *)

(** [oid.c]: the dotted string of DER OID bytes; [None] is the NULL of a
    failed allocation. *)
Class OidOps : Type := {
  ksba_oid_to_str : list byte -> option string
}.

Record algo_ident : Type := {
  ai_nread : Z;
  ai_oid : string;
  ai_parm : option (list byte);
  ai_parmlen : Z
}.

Section AlgorithmIdentifier.
Context {oid_ops : OidOps}.

(** Lines 605-625; [want_parm] says that [r_parm] and [r_parmlen] are
    given. *)
Definition algorithm_identifier_result (want_parm : bool)
    (der : list byte) (nread : Z) (oid : string) (off2 len2 : Z)
  : algo_ident :=
  if want_parm && (negb (off2 =? 0) && negb (len2 =? 0)) then
    {| ai_nread := nread; ai_oid := oid;
       ai_parm := Some (sub_buffer der off2 len2); ai_parmlen := len2 |}
  else
    {| ai_nread := nread; ai_oid := oid;
       ai_parm := None; ai_parmlen := 0 |}.

Definition _ksba_parse_algorithm_identifier2 (want_parm : bool)
    (der : list byte) : result algo_ident :=
  a <- get_algorithm 0 true der ;;
  let nread := r_nread a in
  match ksba_oid_to_str (sub_buffer der (r_pos a) (r_len a)) with
  | None => Err GPG_ERR_ENOMEM
  | Some oid =>
      let off2 := r_parm_pos a in
      let len2 := r_parm_len a in
      if negb (off2 =? 0) && negb (len2 =? 0)
         && (r_parm_type a =? TYPE_SEQUENCE)
         && String.eqb oid "1.2.840.10045.4.3"%string
      then
        b <- get_algorithm 0 false (sub_buffer der off2 len2) ;;
        match ksba_oid_to_str
                (sub_buffer der (off2 + r_pos b) (r_len b)) with
        | None => Err GPG_ERR_ENOMEM
        | Some oid' =>
            Ok (algorithm_identifier_result want_parm der nread oid' 0 0)
        end
      else
        Ok (algorithm_identifier_result want_parm der nread oid off2 len2)
  end.

Definition _ksba_parse_algorithm_identifier (der : list byte)
  : result algo_ident :=
  _ksba_parse_algorithm_identifier2 false der.

End AlgorithmIdentifier.

(** ** keyinfo.c: the algorithm tables (lines 50-273) *)

Inductive pkalgo_t : Type :=
| PKALGO_RSA
| PKALGO_DSA
| PKALGO_ECC
| PKALGO_X25519
| PKALGO_X448
| PKALGO_ED25519
| PKALGO_ED448.

Definition pkalgo_is_ecc (p : pkalgo_t) : bool :=
  match p with
  | PKALGO_ECC => true
  | _ => false
  end.

(** [struct algo_table_s]; a trailing field the initializer leaves out is
    NULL ([None]). *)
Record algo_table_s : Type := mk_algo {
  oidstring : string;
  oid : list byte;
  oidlen : Z;
  supported : Z;
  pkalgo : pkalgo_t;
  algo_string : string;
  elem_string : string;
  ctrl_string : list byte;
  parmelem_string : option string;
  parmctrl_string : option (list byte);
  digest_string : option string
}.

Definition SUPPORTED_RSAPSS : Z := 2.

Definition pk_algo_table : list algo_table_s :=
  [
    mk_algo "1.2.840.113549.1.1.1"%string
      [x2a; x86; x48; x86; xf7; x0d; x01; x01; x01] 9
      1 PKALGO_RSA "rsa"%string "-ne"%string [x30; x02; x02]
      None None None ;
    mk_algo "1.2.840.113549.1.1.7"%string
      [x2a; x86; x48; x86; xf7; x0d; x01; x01; x07] 9
      0 PKALGO_RSA "rsa"%string "-ne"%string [x30; x02; x02]
      None None None ;
    mk_algo "1.2.840.113549.1.1.10"%string
      [x2a; x86; x48; x86; xf7; x0d; x01; x01; x0a] 9
      SUPPORTED_RSAPSS PKALGO_RSA "rsa"%string "-ne"%string [x30; x02; x02]
      None None None ;
    mk_algo "2.5.8.1.1"%string
      [x55; x08; x01; x01] 4
      1 PKALGO_RSA "ambiguous-rsa"%string "-ne"%string [x30; x02; x02]
      None None None ;
    mk_algo "1.2.840.10040.4.1"%string
      [x2a; x86; x48; xce; x38; x04; x01] 7
      1 PKALGO_DSA "dsa"%string "y"%string [x02]
      (Some "-pqg"%string) (Some [x30; x02; x02; x02]) None ;
    mk_algo "1.2.840.10045.2.1"%string
      [x2a; x86; x48; xce; x3d; x02; x01] 7
      1 PKALGO_ECC "ecc"%string "q"%string [x80]
      None None None ;
    mk_algo "1.3.101.110"%string
      [x2b; x65; x6e] 3
      1 PKALGO_X25519 "ecc"%string "q"%string [x80]
      None None None ;
    mk_algo "1.3.101.111"%string
      [x2b; x65; x6f] 3
      1 PKALGO_X448 "ecc"%string "q"%string [x80]
      None None None ;
    mk_algo "1.3.101.112"%string
      [x2b; x65; x70] 3
      1 PKALGO_ED25519 "ecc"%string "q"%string [x80]
      None None None ;
    mk_algo "1.3.101.113"%string
      [x2b; x65; x71] 3
      1 PKALGO_ED448 "ecc"%string "q"%string [x80]
      None None None
  ].

Definition sig_algo_table : list algo_table_s :=
  [
    mk_algo "1.2.840.113549.1.1.5"%string
      [x2a; x86; x48; x86; xf7; x0d; x01; x01; x05] 9
      1 PKALGO_RSA "rsa"%string "s"%string [x82]
      None None (Some "sha1"%string) ;
    mk_algo "1.2.840.113549.1.1.4"%string
      [x2a; x86; x48; x86; xf7; x0d; x01; x01; x04] 9
      1 PKALGO_RSA "rsa"%string "s"%string [x82]
      None None (Some "md5"%string) ;
    mk_algo "1.2.840.113549.1.1.2"%string
      [x2a; x86; x48; x86; xf7; x0d; x01; x01; x02] 9
      0 PKALGO_RSA "rsa"%string "s"%string [x82]
      None None (Some "md2"%string) ;
    mk_algo "1.2.840.10040.4.3"%string
      [x2a; x86; x48; xce; x38; x04; x01] 7
      1 PKALGO_DSA "dsa"%string "-rs"%string [x30; x02; x02]
      None None None ;
    mk_algo "1.2.840.10040.4.3"%string
      [x2a; x86; x48; xce; x38; x04; x03] 7
      1 PKALGO_DSA "dsa"%string "-rs"%string [x30; x02; x02]
      None None (Some "sha1"%string) ;
    mk_algo "1.3.36.8.5.1.2.2"%string
      [x2b; x24; x08; x05; x01; x02; x02] 7
      1 PKALGO_DSA "dsa"%string "-rs"%string [x30; x02; x02]
      None None (Some "rmd160"%string) ;
    mk_algo "2.16.840.1.101.3.4.3.1"%string
      [x06; x09; x60; x86; x48; x01; x65; x03; x04; x03; x01] 11
      1 PKALGO_DSA "dsa"%string "-rs"%string [x30; x02; x02]
      None None (Some "sha224"%string) ;
    mk_algo "2.16.840.1.101.3.4.3.2"%string
      [x06; x09; x60; x86; x48; x01; x65; x03; x04; x03; x01] 11
      1 PKALGO_DSA "dsa"%string "-rs"%string [x30; x02; x02]
      None None (Some "sha256"%string) ;
    mk_algo "1.2.840.10045.4.1"%string
      [x2a; x86; x48; xce; x3d; x04; x01] 7
      1 PKALGO_ECC "ecdsa"%string "-rs"%string [x30; x02; x02]
      None None (Some "sha1"%string) ;
    mk_algo "1.2.840.10045.4.3"%string
      [x2a; x86; x48; xce; x3d; x04; x03] 7
      1 PKALGO_ECC "ecdsa"%string "-rs"%string [x30; x02; x02]
      None None None ;
    mk_algo "1.2.840.10045.4.3.1"%string
      [x2a; x86; x48; xce; x3d; x04; x03; x01] 8
      1 PKALGO_ECC "ecdsa"%string "-rs"%string [x30; x02; x02]
      None None (Some "sha224"%string) ;
    mk_algo "1.2.840.10045.4.3.2"%string
      [x2a; x86; x48; xce; x3d; x04; x03; x02] 8
      1 PKALGO_ECC "ecdsa"%string "-rs"%string [x30; x02; x02]
      None None (Some "sha256"%string) ;
    mk_algo "1.2.840.10045.4.3.3"%string
      [x2a; x86; x48; xce; x3d; x04; x03; x03] 8
      1 PKALGO_ECC "ecdsa"%string "-rs"%string [x30; x02; x02]
      None None (Some "sha384"%string) ;
    mk_algo "1.2.840.10045.4.3.4"%string
      [x2a; x86; x48; xce; x3d; x04; x03; x04] 8
      1 PKALGO_ECC "ecdsa"%string "-rs"%string [x30; x02; x02]
      None None (Some "sha512"%string) ;
    mk_algo "1.2.840.113549.1.1.1"%string
      [x2a; x86; x48; x86; xf7; x0d; x01; x01; x01] 9
      1 PKALGO_RSA "rsa"%string "s"%string [x82]
      None None None ;
    mk_algo "1.3.14.3.2.26"%string
      [x2b; x0e; x03; x02; x1a] 5
      0 PKALGO_RSA "sha-1"%string ""%string []
      None None (Some "sha1"%string) ;
    mk_algo "1.3.36.3.3.1.2"%string
      [x2b; x24; x03; x03; x01; x02] 6
      1 PKALGO_RSA "rsa"%string "s"%string [x82]
      None None (Some "rmd160"%string) ;
    mk_algo "1.3.14.3.2.29"%string
      [x2b; x0e; x03; x02; x1d] 5
      1 PKALGO_RSA "rsa"%string "s"%string [x82]
      None None (Some "sha1"%string) ;
    mk_algo "1.2.840.113549.1.1.11"%string
      [x2a; x86; x48; x86; xf7; x0d; x01; x01; x0b] 9
      1 PKALGO_RSA "rsa"%string "s"%string [x82]
      None None (Some "sha256"%string) ;
    mk_algo "1.2.840.113549.1.1.12"%string
      [x2a; x86; x48; x86; xf7; x0d; x01; x01; x0c] 9
      1 PKALGO_RSA "rsa"%string "s"%string [x82]
      None None (Some "sha384"%string) ;
    mk_algo "1.2.840.113549.1.1.13"%string
      [x2a; x86; x48; x86; xf7; x0d; x01; x01; x0d] 9
      1 PKALGO_RSA "rsa"%string "s"%string [x82]
      None None (Some "sha512"%string) ;
    mk_algo "1.2.840.113549.1.1.10"%string
      [x2a; x86; x48; x86; xf7; x0d; x01; x01; x0a] 9
      SUPPORTED_RSAPSS PKALGO_RSA "rsa"%string "s"%string [x82]
      None None None ;
    mk_algo "1.3.36.3.4.3.2.2"%string
      [x2b; x24; x03; x04; x03; x02; x02] 7
      0 PKALGO_RSA "rsa"%string "s"%string [x82]
      None None (Some "rmd160"%string) ;
    mk_algo "1.3.101.112"%string
      [x2b; x65; x70] 3
      1 PKALGO_ED25519 "eddsa"%string "-rs"%string [x80]
      None None None ;
    mk_algo "1.3.101.113"%string
      [x2b; x65; x71] 3
      1 PKALGO_ED448 "eddsa"%string "-rs"%string [x80]
      None None None
  ].

Definition enc_algo_table : list algo_table_s :=
  [
    mk_algo "1.2.840.113549.1.1.1"%string
      [x2a; x86; x48; x86; xf7; x0d; x01; x01; x01] 9
      1 PKALGO_RSA "rsa"%string "a"%string [x82]
      None None None ;
    mk_algo "1.2.840.10045.2.1"%string
      [x2a; x86; x48; xce; x3d; x02; x01] 7
      1 PKALGO_ECC "ecdh"%string "e"%string [x80]
      None None None
  ].

Definition bytes_eqb (a b : list byte) : bool :=
  if list_eq_dec Byte.byte_eq_dec a b then true else false.

(** [for (algoidx=0; table[algoidx].oid; algoidx++) if (len == oidlen &&
    !memcmp (der+off, oid, len)) break;] with the entry found, or [None]
    at the terminating [{NULL}]. *)
Fixpoint lookup_algo (table : list algo_table_s) (oid_der : list byte)
    (len : Z) : option algo_table_s :=
  match table with
  | [] => None
  | entry :: table' =>
      if (len =? oidlen entry) && bytes_eqb oid_der (oid entry)
      then Some entry
      else lookup_algo table' oid_der len
  end.

(** ** The string buffer *)

Definition stringbuf := list byte.

(** Modelled from the spec: [put_stringbuf] of [stringbuf.h], which is
    not among the sources: the text is appended to the buffer. *)
Definition put_stringbuf (sb : stringbuf) (text : string) : stringbuf :=
  sb ++ list_byte_of_string text.

(** Modelled from the spec: [put_stringbuf_mem_sexp] of [stringbuf.h],
    which is not among the sources.  The S-expressions are canonical: a
    byte string is its length in decimal ASCII, a colon and the bytes. *)
Definition put_stringbuf_mem_sexp (sb : stringbuf) (mem : list byte)
  : stringbuf :=
  sb ++ list_byte_of_string (decimal_string (derlen mem))
     ++ list_byte_of_string ":" ++ mem.

(** Modelled from the spec: [put_stringbuf_sexp] of [stringbuf.h]: the
    canonical form of a C string. *)
Definition put_stringbuf_sexp (sb : stringbuf) (text : string) : stringbuf :=
  put_stringbuf_mem_sexp sb (list_byte_of_string text).

(** Modelled from the spec: [put_stringbuf_uint] of [stringbuf.h]: the
    canonical form of the number in decimal ASCII. *)
Definition put_stringbuf_uint (sb : stringbuf) (value : Z) : stringbuf :=
  put_stringbuf_sexp sb (decimal_string value).

(** ** keyinfo.c: the element loop

    [for (; *elem; ctrl++, elem++)] of [_ksba_keyinfo_to_sexp] (lines
    741-779 over the parameters, 787-825 over the key) and of
    [cryptval_to_sexp] (lines 1825-1856); the three copies differ in the
    buffer they walk.  [hd x00 ctrl] behind the last byte of the control
    string is its terminating NUL.  A control string with two bytes fewer
    than the element string has elements (the eddsa entries of the
    signature table, "-rs" with the one byte 0x80) lets the code read
    behind the NUL, outside the literal, on the third pass: the model reads
    0 there as well, and nothing below is stated about such a pass. *)
Fixpoint walk_elements (elem : string) (ctrl : list byte)
    (der : list byte) (sb : stringbuf) : result (list byte * stringbuf) :=
  match elem with
  | EmptyString => Ok (der, sb)
  | String e elem' =>
      let ctrl_c := byte_val (hd x00 ctrl) in
      '(is_int, len, der) <-
        (if negb (Z.land ctrl_c 128 =? 0) && (String.length elem' =? 0)%nat
         then Ok (true, derlen der, der)
         else
           '(c, der) <- next_octet der ;;
           if negb (c =? ctrl_c) then Err GPG_ERR_UNEXPECTED_TAG else
           '(len, der) <- TLV_LENGTH der ;;
           Ok (c =? 2, len, der)) ;;
      if is_int && negb (Ascii.eqb e "-")
      then
        let sb := put_stringbuf sb "(" in
        let sb := put_stringbuf_sexp sb (String e EmptyString) in
        let sb := put_stringbuf_mem_sexp sb (sub_buffer der 0 len) in
        let sb := put_stringbuf sb ")" in
        walk_elements elem' (tl ctrl) (advance len der) sb
      else
        walk_elements elem' (tl ctrl) der sb
  end.

(** ** ber-help.h: tag information and the buffer helpers *)

Inductive tag_class : Type :=
| CLASS_UNIVERSAL
| CLASS_APPLICATION
| CLASS_CONTEXT
| CLASS_PRIVATE.

Definition tag_class_eqb (a b : tag_class) : bool :=
  match a, b with
  | CLASS_UNIVERSAL, CLASS_UNIVERSAL
  | CLASS_APPLICATION, CLASS_APPLICATION
  | CLASS_CONTEXT, CLASS_CONTEXT
  | CLASS_PRIVATE, CLASS_PRIVATE => true
  | _, _ => false
  end.

Record tag_info : Type := {
  ti_class : tag_class;
  ti_tag : Z;
  ti_is_constructed : bool;
  ti_length : Z;
  ti_ndef : bool;
  ti_nhdr : Z;
  ti_buf : list byte
}.

(** [ber-help.c]: the helpers that parse one header at the cursor
    [(der, derlen)] and advance it.  A result is the error code, or the
    tag information (the string, for an OID) with the advanced cursor. *)
Class BerHelpOps : Type := {
  parse_sequence : list byte -> result (tag_info * list byte);
  parse_context_tag : list byte -> Z -> result (tag_info * list byte);
  parse_object_id_into_str : list byte -> result (string * list byte);
  parse_optional_null : list byte -> result (list byte);
  parse_integer : list byte -> result (tag_info * list byte)
}.

(** ** keyinfo.c: _ksba_keyinfo_get_pss_info (lines 1641-1731) *)

(** What the caller sees: the returned code ([None] is 0) and the two
    out-parameters. *)
Record pss_info : Type := {
  pss_err : option error_code;
  r_psshash : option string;
  r_saltlen : Z
}.

(** [if (err) goto unknown_parms;] replaces the code by INV_OBJ, where
    [if (err) goto leave;] keeps it. *)
Definition unknown_parms {A} (m : result A) : result A :=
  match m with
  | Ok a => Ok a
  | Err _ => Err GPG_ERR_INV_OBJ
  end.

(** [for (saltlen=0; ti.length; ti.length--)] (lines 1709-1714); the
    INTEGER helper has checked that the value lies in the buffer. *)
Fixpoint pss_saltlen_loop (length : nat) (saltlen : Z) (der : list byte)
  : Z :=
  match length with
  | O => saltlen
  | S length' =>
      let saltlen := wrap_uint (Z.shiftl saltlen 8) in
      let saltlen := Z.lor saltlen (Z.land (byte_val (hd x00 der)) 255) in
      pss_saltlen_loop length' saltlen (tl der)
  end.

Section PssInfo.
Context {ber_ops : BerHelpOps}.

(** Lines 1654-1715, with the hash OID and the salt length of a
    successful run. *)
Definition pss_info_body (der : list byte) : result (string * Z) :=
  '(_, der) <- parse_sequence der ;;
  '(_, der) <- unknown_parms (parse_context_tag der 0) ;;
  '(_, der) <- unknown_parms (parse_sequence der) ;;
  '(psshash, der) <- unknown_parms (parse_object_id_into_str der) ;;
  der <- unknown_parms (parse_optional_null der) ;;
  '(_, der) <- unknown_parms (parse_context_tag der 1) ;;
  '(_, der) <- parse_sequence der ;;
  '(tmpoid, der) <- unknown_parms (parse_object_id_into_str der) ;;
  if negb (String.eqb tmpoid "1.2.840.113549.1.1.8")
  then Err GPG_ERR_INV_OBJ else
  '(_, der) <- parse_sequence der ;;
  '(tmpoid, der) <- unknown_parms (parse_object_id_into_str der) ;;
  if negb (String.eqb tmpoid psshash) then Err GPG_ERR_INV_OBJ else
  der <- unknown_parms (parse_optional_null der) ;;
  saltlen <-
    match parse_context_tag der 2 with
    | Err e =>
        if error_code_eqb e GPG_ERR_INV_OBJ
           || error_code_eqb e GPG_ERR_FALSE
        then Ok 20
        else Err GPG_ERR_INV_OBJ
    | Ok (_, der) =>
        '(ti, der) <- parse_integer der ;;
        Ok (pss_saltlen_loop (Z.to_nat (ti_length ti)) 0 der)
    end ;;
  Ok (psshash, saltlen).

Definition _ksba_keyinfo_get_pss_info (der : list byte) : pss_info :=
  match pss_info_body der with
  | Ok (psshash, saltlen) =>
      {| pss_err := None; r_psshash := Some psshash;
         r_saltlen := saltlen |}
  | Err e =>
      {| pss_err := Some e; r_psshash := None; r_saltlen := 0 |}
  end.

End PssInfo.

(** ** keyinfo.c: cryptval_to_sexp (lines 1740-1897) *)

Section CryptVal.
Context {ber_ops : BerHelpOps}.

(** Lines 1786-1798: the hash and the salt length of rsaPSS parameters. *)
Definition cryptval_pss (entry : algo_table_s) (der : list byte)
    (a : algo_pos) : result (option string * Z) :=
  if (r_parm_type a =? TYPE_SEQUENCE)
     && (supported entry =? SUPPORTED_RSAPSS)
  then
    let info :=
      _ksba_keyinfo_get_pss_info
        (sub_buffer der (r_parm_pos a) (r_parm_len a)) in
    match pss_err info with
    | Some e =>
        if error_code_eqb e GPG_ERR_INV_OBJ
        then Ok (r_psshash info, r_saltlen info)
        else Err e
    | None => Ok (r_psshash info, r_saltlen info)
    end
  else Ok (None, 0).

(** [if (is_bitstr)]: the octet with the number of unused bits (lines
    700-712 and 1804-1813). *)
Definition skip_unused_bits (is_bitstr : bool) (der : list byte)
  : result (list byte) :=
  if is_bitstr then '(_, der) <- next_octet der ;; Ok der else Ok der.

(** Lines 1801-1896: the S-expression, once the algorithm and the
    rsaPSS parameters are known. *)
Definition cryptval_emit (mode : Z) (entry : algo_table_s)
    (der : list byte) (a : algo_pos) (pss_hash : option string)
    (salt_length : Z) (keyencralgo keywrapalgo : string)
    (encrkey : list byte) : result stringbuf :=
  let der := advance (r_nread a) der in
  der <- skip_unused_bits (r_bitstr a) der ;;
  let sb :=
    put_stringbuf [] (if mode =? 0 then "(7:sig-val(" else "(7:enc-val(")
  in
  let sb := put_stringbuf_sexp sb (algo_string entry) in
  '(_, sb) <-
    walk_elements (elem_string entry) (ctrl_string entry) der sb ;;
  let sb :=
    if mode =? 2
    then put_stringbuf
           (put_stringbuf_mem_sexp (put_stringbuf sb "(1:s") encrkey)
           ")"
    else sb in
  let sb := put_stringbuf sb ")" in
  let sb :=
    match digest_string entry with
    | Some digest =>
        if mode =? 0
        then put_stringbuf
               (put_stringbuf_sexp (put_stringbuf sb "(4:hash") digest)
               ")"
        else sb
    | None => sb
    end in
  let sb :=
    match pss_hash with
    | Some hash =>
        if mode =? 0
        then
          let sb := put_stringbuf sb "(5:flags3:pss)" in
          let sb := put_stringbuf sb "(9:hash-algo" in
          let sb := put_stringbuf_sexp sb hash in
          let sb := put_stringbuf sb ")" in
          let sb := put_stringbuf sb "(11:salt-length" in
          let sb := put_stringbuf_uint sb salt_length in
          put_stringbuf sb ")"
        else sb
    | None => sb
    end in
  let sb :=
    if mode =? 2
    then
      let sb := put_stringbuf sb "(9:encr-algo" in
      let sb := put_stringbuf_sexp sb keyencralgo in
      let sb := put_stringbuf sb ")(9:wrap-algo" in
      let sb := put_stringbuf_sexp sb keywrapalgo in
      put_stringbuf sb ")"
    else sb in
  Ok (put_stringbuf sb ")").

Definition cryptval_to_sexp (mode : Z) (der : list byte)
    (keyencralgo keywrapalgo : string) (encrkey : list byte)
  : result stringbuf :=
  let algo_table := if mode =? 0 then sig_algo_table else enc_algo_table in
  a <- get_algorithm 1 true der ;;
  match lookup_algo algo_table (sub_buffer der (r_pos a) (r_len a))
          (r_len a) with
  | None => Err GPG_ERR_UNKNOWN_ALGORITHM
  | Some entry =>
      if supported entry =? 0 then Err GPG_ERR_UNSUPPORTED_ALGORITHM else
      '(pss_hash, salt_length) <- cryptval_pss entry der a ;;
      cryptval_emit mode entry der a pss_hash salt_length
        keyencralgo keywrapalgo encrkey
  end.

Definition _ksba_sigval_to_sexp (der : list byte) : result stringbuf :=
  cryptval_to_sexp 0 der ""%string ""%string [].

Definition _ksba_encval_to_sexp (der : list byte) : result stringbuf :=
  cryptval_to_sexp 1 der ""%string ""%string [].

End CryptVal.

(** ** keyinfo.c: _ksba_keyinfo_to_sexp (lines 645-834) *)

Section KeyInfoToSexp.
Context {oid_ops : OidOps}.

Definition _ksba_keyinfo_to_sexp (der : list byte) : result stringbuf :=
  '(c, der) <- next_octet der ;;
  if negb (c =? 48) then Err GPG_ERR_UNEXPECTED_TAG else
  '(_, der) <- TLV_LENGTH der ;;
  a <- get_algorithm 1 true der ;;
  match lookup_algo pk_algo_table (sub_buffer der (r_pos a) (r_len a))
          (r_len a) with
  | None => Err GPG_ERR_UNKNOWN_ALGORITHM
  | Some entry =>
      if supported entry =? 0 then Err GPG_ERR_UNSUPPORTED_ALGORITHM else
      let has_parm :=
        negb (r_parm_pos a =? 0) && negb (r_parm_len a =? 0) in
      let parm := sub_buffer der (r_parm_pos a) (r_parm_len a) in
      let parm_oid :=
        if has_parm && (r_parm_type a =? TYPE_OBJECT_ID)
        then ksba_oid_to_str parm else None in
      let parmder :=
        if has_parm && negb (r_parm_type a =? TYPE_OBJECT_ID)
        then Some parm else None in
      let der := advance (r_nread a) der in
      der <- skip_unused_bits (r_bitstr a) der ;;
      let sb := put_stringbuf [] "(10:public-key(" in
      let sb := put_stringbuf_sexp sb (algo_string entry) in
      let sb :=
        match parm_oid with
        | Some curve =>
            if pkalgo_is_ecc (pkalgo entry)
            then
              let sb := put_stringbuf sb "(" in
              let sb := put_stringbuf_sexp sb "curve" in
              let sb := put_stringbuf_sexp sb curve in
              put_stringbuf sb ")"
            else sb
        | None => sb
        end in
      sb <-
        match parmder, parmelem_string entry, parmctrl_string entry with
        | Some parmder, Some elem, Some ctrl =>
            '(_, sb) <- walk_elements elem ctrl parmder sb ;; Ok sb
        | _, _, _ => Ok sb
        end ;;
      '(_, sb) <-
        walk_elements (elem_string entry) (ctrl_string entry) der sb ;;
      Ok (put_stringbuf sb "))")
  end.

End KeyInfoToSexp.

(** ** keyinfo.c: _ksba_encval_kari_to_sexp (lines 1988-2007) *)

Section EncValKari.
Context {ber_ops : BerHelpOps}.

(** The helper leaves the cursor [der] behind the header of the [[1]];
    the length handed on is [save_derlen - ti.nhdr], so the buffer of
    [cryptval_to_sexp] is the bytes behind the header. *)
Definition _ksba_encval_kari_to_sexp (der : list byte)
    (keyencralgo keywrapalgo : string) (enckey : list byte)
  : result stringbuf :=
  let save_derlen := derlen der in
  '(ti, der) <- parse_context_tag der 1 ;;
  if save_derlen <? ti_nhdr ti then Err GPG_ERR_INV_BER else
  let derlen := save_derlen - ti_nhdr ti in
  cryptval_to_sexp 2 (sub_buffer der 0 derlen)
    keyencralgo keywrapalgo enckey.

End EncValKari.

(** ** keyinfo.c: the curve table (lines 275-327) and get_ecc_curve_oid
    (lines 363-395) *)

(** The pairs of an OID and a name, in the order of the table. *)
Definition curve_names : list (string * string) :=
  [
    ("1.3.6.1.4.1.3029.1.5.1"%string, "Curve25519"%string) ;
    ("1.3.6.1.4.1.11591.15.1"%string, "Ed25519"%string) ;
    ("1.2.840.10045.3.1.1"%string, "NIST P-192"%string) ;
    ("1.2.840.10045.3.1.1"%string, "nistp192"%string) ;
    ("1.2.840.10045.3.1.1"%string, "prime192v1"%string) ;
    ("1.2.840.10045.3.1.1"%string, "secp192r1"%string) ;
    ("1.3.132.0.33"%string, "NIST P-224"%string) ;
    ("1.3.132.0.33"%string, "nistp224"%string) ;
    ("1.3.132.0.33"%string, "secp224r1"%string) ;
    ("1.2.840.10045.3.1.7"%string, "NIST P-256"%string) ;
    ("1.2.840.10045.3.1.7"%string, "nistp256"%string) ;
    ("1.2.840.10045.3.1.7"%string, "prime256v1"%string) ;
    ("1.2.840.10045.3.1.7"%string, "secp256r1"%string) ;
    ("1.3.132.0.34"%string, "NIST P-384"%string) ;
    ("1.3.132.0.34"%string, "nistp384"%string) ;
    ("1.3.132.0.34"%string, "secp384r1"%string) ;
    ("1.3.132.0.35"%string, "NIST P-521"%string) ;
    ("1.3.132.0.35"%string, "nistp521"%string) ;
    ("1.3.132.0.35"%string, "secp521r1"%string) ;
    ("1.3.36.3.3.2.8.1.1.1"%string, "brainpoolP160r1"%string) ;
    ("1.3.36.3.3.2.8.1.1.3"%string, "brainpoolP192r1"%string) ;
    ("1.3.36.3.3.2.8.1.1.5"%string, "brainpoolP224r1"%string) ;
    ("1.3.36.3.3.2.8.1.1.7"%string, "brainpoolP256r1"%string) ;
    ("1.3.36.3.3.2.8.1.1.9"%string, "brainpoolP320r1"%string) ;
    ("1.3.36.3.3.2.8.1.1.11"%string, "brainpoolP384r1"%string) ;
    ("1.3.36.3.3.2.8.1.1.13"%string, "brainpoolP512r1"%string) ;
    ("1.2.643.2.2.35.1"%string, "GOST2001-CryptoPro-A"%string) ;
    ("1.2.643.2.2.35.2"%string, "GOST2001-CryptoPro-B"%string) ;
    ("1.2.643.2.2.35.3"%string, "GOST2001-CryptoPro-C"%string) ;
    ("1.2.643.7.1.2.1.2.1"%string, "GOST2012-tc26-A"%string) ;
    ("1.2.643.7.1.2.1.2.2"%string, "GOST2012-tc26-B"%string) ;
    ("1.3.132.0.10"%string, "secp256k1"%string)
  ].

(** Modelled from the spec: [digitp] of [util.h], which is not among the
    sources: the character at the pointer is a decimal digit (the
    specification has a dotted OID, which starts with one, told from a
    name).  The callers look at a byte inside the buffer. *)
Definition digitp (p : list byte) : bool :=
  match p with
  | [] => false
  | c :: _ => (48 <=? byte_val c) && (byte_val c <=? 57)
  end.

(** [buf[i]]. *)
Definition byte_at (buf : list byte) (i : nat) : Z :=
  byte_val (nth i buf x00).

(** The test for an optional "oid." or "OID." prefix (lines 369-371 and
    848-850): [buflen > 4 && buf[3] == '.' && digitp (buf+4)] and the three
    letters in one case. *)
Definition has_oid_prefix (buf : list byte) : bool :=
  (derlen buf >? 4) && (byte_at buf 3 =? 46) && digitp (advance 4 buf)
  && (((byte_at buf 0 =? 111) && (byte_at buf 1 =? 105)
       && (byte_at buf 2 =? 100))
      || ((byte_at buf 0 =? 79) && (byte_at buf 1 =? 73)
          && (byte_at buf 2 =? 68))).

Definition skip_oid_prefix (buf : list byte) : list byte :=
  if has_oid_prefix buf then advance 4 buf else buf.

(** [oid.c]: the DER encoding of an OID given as a dotted string, or an
    error code. *)
Class OidFromBufOps : Type := {
  _ksba_oid_from_buf : list byte -> result (list byte)
}.

(** [for (i=0; curve_names[i].oid; i++) if (buflen == strlen (name) &&
    !memcmp (buf, name, buflen)) break;] with the OID found, or [None] at
    the terminating [{NULL, NULL}]. *)
Fixpoint lookup_curve (names : list (string * string)) (buf : list byte)
  : option string :=
  match names with
  | [] => None
  | (oid, name) :: names' =>
      if bytes_eqb buf (list_byte_of_string name) then Some oid
      else lookup_curve names' buf
  end.

Section EccCurveOid.
Context {oid_from_buf_ops : OidFromBufOps}.

(** The result is the DER OID, or [None] for NULL. *)
Definition get_ecc_curve_oid (buf : list byte) : option (list byte) :=
  let buf := skip_oid_prefix buf in
  let mapped :=
    if negb (derlen buf =? 0) && negb (digitp buf)
    then
      match lookup_curve curve_names buf with
      | None => None
      | Some oid => Some (list_byte_of_string oid)
      end
    else Some buf in
  match mapped with
  | None => None
  | Some buf =>
      match _ksba_oid_from_buf buf with
      | Err _ => None
      | Ok der_oid => Some der_oid
      end
  end.

End EccCurveOid.

(** ** keyinfo.c: oid_from_buffer (lines 841-896) *)

(** One scan of a table: the entries that are not supported are passed
    over, and the text is compared with [oidstring] and then with
    [algo_string]. *)
Fixpoint scan_algo_table (table : list algo_table_s) (buf : list byte)
  : option algo_table_s :=
  match table with
  | [] => None
  | entry :: table' =>
      if supported entry =? 0 then scan_algo_table table' buf
      else if bytes_eqb buf (list_byte_of_string (oidstring entry))
      then Some entry
      else if bytes_eqb buf (list_byte_of_string (algo_string entry))
      then Some entry
      else scan_algo_table table' buf
  end.

(** The result is the OID with [*oidlen] and [*r_pkalgo], or [None] for
    NULL. *)
Definition oid_from_buffer (buf : list byte) (with_sig : bool)
  : option (list byte * Z * pkalgo_t) :=
  let buf := skip_oid_prefix buf in
  match (if with_sig then scan_algo_table sig_algo_table buf else None) with
  | Some entry => Some (oid entry, oidlen entry, pkalgo entry)
  | None =>
      match scan_algo_table pk_algo_table buf with
      | Some entry => Some (oid entry, oidlen entry, pkalgo entry)
      | None => None
      end
  end.

(** ** cms-parser.c: the reader and the monad of the parser

    The reader is an object of another file.  [ksba_reader_read r count]
    gives the return code ([None] is 0), the bytes it stored (their number
    is [nread]; [read_buffer] keeps at most [count] of them, the size of
    the space it offers) and the reader afterwards. *)
Class ReaderOps (KsbaReader : Type) : Type := {
  ksba_reader_read :
    KsbaReader -> Z -> option error_code * list byte * KsbaReader;
  ksba_reader_tell : KsbaReader -> Z;
  _ksba_ber_read_tl : KsbaReader -> result tag_info * KsbaReader
}.

(** A parser step on a state [S]: it runs with [fuel] for the loops that
    wait for the reader, and yields [None] when that is used up, or else
    its result with the state it leaves, also when it fails. *)
Definition parser (S A : Type) : Type := nat -> S -> option (result A * S).

Definition pret {S A} (a : A) : parser S A := fun _ s => Some (Ok a, s).

Definition pfail {S A} (e : error_code) : parser S A :=
  fun _ s => Some (Err e, s).

Definition pbind {S A B} (m : parser S A) (k : A -> parser S B)
  : parser S B :=
  fun fuel s =>
    match m fuel s with
    | None => None
    | Some (Err e, s') => Some (Err e, s')
    | Some (Ok a, s') => k a fuel s'
    end.

Declare Scope parser_scope.
Delimit Scope parser_scope with parser.
Notation "x <- m ;; k" := (pbind m (fun x => k))
  (at level 61, m at next level, right associativity) : parser_scope.
Notation "' pat <- m ;; k" := (pbind m (fun x => match x with pat => k end))
  (at level 61, pat pattern, m at next level, right associativity)
  : parser_scope.

Definition is_tag (ti : tag_info) (class : tag_class) (tag : Z)
    (constructed : bool) : bool :=
  tag_class_eqb (ti_class ti) class && (ti_tag ti =? tag)
  && Bool.eqb (ti_is_constructed ti) constructed.

Section Reader.
Context {KsbaReader : Type} {reader_ops : ReaderOps KsbaReader}.
Context {oid_ops : OidOps}.

Definition read_tl : parser KsbaReader tag_info :=
  fun _ r => Some (_ksba_ber_read_tl r).

(** Lines 43-54; the result is -1 or the byte. *)
Fixpoint read_byte (fuel : nat) (r : KsbaReader)
  : option (result Z * KsbaReader) :=
  match fuel with
  | O => None
  | S fuel' =>
      match ksba_reader_read r 1 with
      | (Some _, _, r') => Some (Ok (-1), r')
      | (None, [], r') => read_byte fuel' r'
      | (None, b :: _, r') => Some (Ok (byte_val b), r')
      end
  end.

(** Lines 56-70; the result is 0 or -1, with the bytes stored so far. *)
Fixpoint read_buffer_loop (fuel : nat) (buffer : list byte) (count : Z)
    (r : KsbaReader) : option (result (Z * list byte) * KsbaReader) :=
  if count =? 0 then Some (Ok (0, buffer), r)
  else
    match fuel with
    | O => None
    | S fuel' =>
        match ksba_reader_read r count with
        | (Some _, _, r') => Some (Ok (-1, buffer), r')
        | (None, bytes, r') =>
            let stored := sub_buffer bytes 0 count in
            read_buffer_loop fuel' (buffer ++ stored)
              (count - derlen stored) r'
        end
    end.

Definition read_buffer (count : Z) : parser KsbaReader (Z * list byte) :=
  fun fuel r => read_buffer_loop fuel [] count r.

(** The length bookkeeping of a sized parent:
    [if (len < ti.nhdr) return BER_Error; len -= ti.nhdr;]. *)
Definition take_header {S} (len : Z) (ti : tag_info) : parser S Z :=
  if len <? ti_nhdr ti then pfail KSBA_BER_Error
  else pret (len - ti_nhdr ti).

(** ** parse_content_info (lines 133-222): the length, the ndef flag,
    the OID and [has_content] *)
Definition parse_content_info
  : parser KsbaReader (Z * bool * string * bool) :=
  (ti <- read_tl ;;
   if negb (is_tag ti CLASS_UNIVERSAL TYPE_SEQUENCE true)
   then pfail KSBA_Invalid_CMS_Object else
   let content_len := ti_length ti in
   let content_ndef := ti_ndef ti in
   if negb content_ndef && (content_len <? 3)
   then pfail KSBA_Object_Too_Short else
   ti <- read_tl ;;
   if negb (is_tag ti CLASS_UNIVERSAL TYPE_OBJECT_ID false
            && negb (ti_length ti =? 0))
   then pfail KSBA_Invalid_CMS_Object else
   content_len <-
     (if negb content_ndef
      then
        content_len <- take_header content_len ti ;;
        if content_len <? ti_length ti then pfail KSBA_BER_Error
        else pret (content_len - ti_length ti)
      else pret content_len) ;;
   if ti_length ti >=? 100 then pfail KSBA_Object_Too_Large else
   '(err, oidbuf) <- read_buffer (ti_length ti) ;;
   if negb (err =? 0) then pfail (Other_Error err) else
   match ksba_oid_to_str oidbuf with
   | None => pfail KSBA_Out_Of_Core
   | Some oid =>
       if negb content_ndef && (content_len =? 0)
       then pret (content_len, content_ndef, oid, false)
       else
         ti <- read_tl ;;
         has_content <-
           (if is_tag ti CLASS_CONTEXT 0 true then pret true
            else if is_tag ti CLASS_UNIVERSAL 0 false then pret false
            else pfail KSBA_Invalid_CMS_Object) ;;
         content_len <-
           (if negb content_ndef
            then
              content_len <- take_header content_len ti ;;
              if negb (ti_ndef ti) && (content_len <? ti_length ti)
              then pfail KSBA_BER_Error
              else pret content_len
            else pret content_len) ;;
         pret (content_len, content_ndef, oid, has_content)
   end)%parser.

(** ** parse_cms_version (lines 418-466): the version, the length and
    the ndef flag *)
Definition parse_cms_version : parser KsbaReader (Z * Z * bool) :=
  (ti <- read_tl ;;
   if negb (is_tag ti CLASS_UNIVERSAL TYPE_SEQUENCE true)
   then pfail KSBA_Invalid_CMS_Object else
   let data_len := ti_length ti in
   let data_ndef := ti_ndef ti in
   if negb data_ndef && (data_len <? 3)
   then pfail KSBA_Object_Too_Short else
   ti <- read_tl ;;
   if negb (is_tag ti CLASS_UNIVERSAL TYPE_INTEGER false
            && negb (ti_length ti =? 0))
   then pfail KSBA_Invalid_CMS_Object else
   data_len <-
     (if negb data_ndef
      then
        data_len <- take_header data_len ti ;;
        if data_len <? ti_length ti then pfail KSBA_BER_Error
        else pret (data_len - ti_length ti)
      else pret data_len) ;;
   if negb (ti_length ti =? 1)
   then pfail KSBA_Unsupported_CMS_Version else
   c <- read_byte ;;
   if c =? -1 then pfail KSBA_Read_Error else
   if negb ((c =? 0) || (c =? 1) || (c =? 2) || (c =? 3) || (c =? 4))
   then pfail KSBA_Unsupported_CMS_Version else
   pret (c, data_len, data_ndef))%parser.

(** ** The CMS handle ([cms.h]), with the fields the parser writes *)
Record KsbaCMS : Type := {
  reader : KsbaReader;
  cms_version : Z;
  content_length : Z;
  content_ndef : bool;
  content_oid : option string;
  inner_cont_oid : option string;
  detached_data : bool;
  digest_algos : list string
}.

Definition set_reader (cms : KsbaCMS) (r : KsbaReader) : KsbaCMS :=
  {| reader := r; cms_version := cms_version cms;
     content_length := content_length cms;
     content_ndef := content_ndef cms; content_oid := content_oid cms;
     inner_cont_oid := inner_cont_oid cms;
     detached_data := detached_data cms;
     digest_algos := digest_algos cms |}.

Definition set_cms_version (cms : KsbaCMS) (v : Z) : KsbaCMS :=
  {| reader := reader cms; cms_version := v;
     content_length := content_length cms;
     content_ndef := content_ndef cms; content_oid := content_oid cms;
     inner_cont_oid := inner_cont_oid cms;
     detached_data := detached_data cms;
     digest_algos := digest_algos cms |}.

Definition set_content (cms : KsbaCMS) (len : Z) (ndef : bool)
    (oid : string) : KsbaCMS :=
  {| reader := reader cms; cms_version := cms_version cms;
     content_length := len; content_ndef := ndef;
     content_oid := Some oid;
     inner_cont_oid := inner_cont_oid cms;
     detached_data := detached_data cms;
     digest_algos := digest_algos cms |}.

Definition set_inner_content (cms : KsbaCMS) (oid : string)
    (detached : bool) : KsbaCMS :=
  {| reader := reader cms; cms_version := cms_version cms;
     content_length := content_length cms;
     content_ndef := content_ndef cms; content_oid := content_oid cms;
     inner_cont_oid := Some oid; detached_data := detached;
     digest_algos := digest_algos cms |}.

(** [ol->oid = oid; ol->next = cms->digest_algos; cms->digest_algos = ol;] *)
Definition push_digest_algo (cms : KsbaCMS) (oid : string) : KsbaCMS :=
  {| reader := reader cms; cms_version := cms_version cms;
     content_length := content_length cms;
     content_ndef := content_ndef cms; content_oid := content_oid cms;
     inner_cont_oid := inner_cont_oid cms;
     detached_data := detached_data cms;
     digest_algos := oid :: digest_algos cms |}.

(** A step on [cms->reader]. *)
Definition on_reader {A} (m : parser KsbaReader A) : parser KsbaCMS A :=
  fun fuel cms =>
    match m fuel (reader cms) with
    | None => None
    | Some (res, r') => Some (res, set_reader cms r')
    end.

Definition update (f : KsbaCMS -> KsbaCMS) : parser KsbaCMS unit :=
  fun _ cms => Some (Ok tt, f cms).

Definition tell : parser KsbaCMS Z :=
  fun _ cms => Some (Ok (ksba_reader_tell (reader cms)), cms).

(** ** _ksba_cms_parse_content_info (lines 385-412) *)
Definition _ksba_cms_parse_content_info : parser KsbaCMS unit :=
  fun fuel cms =>
    match on_reader parse_content_info fuel cms with
    | None => None
    | Some (Err err, cms) =>
        if error_code_eqb err KSBA_BER_Error
           || error_code_eqb err KSBA_Invalid_CMS_Object
           || error_code_eqb err KSBA_Object_Too_Short
        then Some (Err KSBA_No_CMS_Object, cms)
        else Some (Err err, cms)
    | Some (Ok (content_len, content_ndef, oid, has_content), cms) =>
        if negb has_content then Some (Err KSBA_No_CMS_Object, cms)
        else Some (Ok tt, set_content cms content_len content_ndef oid)
    end.

(** ** _ksba_cms_parse_signed_data_part_1 (lines 487-593) *)

(** [while (algo_set_len)] (lines 540-564) over the rest [p] of the
    buffer, [algo_set_len] being its length.  The allocation of the list
    item is taken to succeed: the return of KSBA_Out_Of_Core at lines
    555-560 is not in the model. *)
Fixpoint parse_digest_algos (fuel : nat) (p : list byte) (cms : KsbaCMS)
  : option (result unit * KsbaCMS) :=
  if derlen p =? 0 then Some (Ok tt, cms)
  else
    match fuel with
    | O => None
    | S fuel' =>
        match _ksba_parse_algorithm_identifier p with
        | Err err => Some (Err err, cms)
        | Ok ai =>
            parse_digest_algos fuel' (advance (ai_nread ai) p)
              (push_digest_algo cms (ai_oid ai))
        end
    end.

(** Lines 524-565: the SET of definite length is read into a buffer and
    parsed.  The allocation of the buffer is taken to succeed: the return of
    KSBA_Out_Of_Core at lines 531-533 is not in the model. *)
Definition read_digest_algorithms (ti : tag_info) : parser KsbaCMS unit :=
  (let algo_set_len := ti_length ti in
   let algo_set_ndef := ti_ndef ti in
   if algo_set_ndef then pfail KSBA_Unsupported_Encoding else
   '(err, buffer) <- on_reader (read_buffer algo_set_len) ;;
   if negb (err =? 0) then pfail KSBA_Read_Error else
   fun fuel cms => parse_digest_algos fuel buffer cms)%parser.

(** Lines 567-592: the encapsulated ContentInfo. *)
Definition parse_encap_content_info (signed_data_len : Z)
    (signed_data_ndef : bool) : parser KsbaCMS unit :=
  (off <- tell ;;
   '(encap_cont_len, encap_cont_ndef, oid, has_content) <-
     on_reader parse_content_info ;;
   _ <- update (fun cms => set_inner_content cms oid (negb has_content)) ;;
   if negb signed_data_ndef
   then
     now <- tell ;;
     let len := wrap_ulong (now - off) in
     if signed_data_len <? len then pfail KSBA_BER_Error else
     let signed_data_len := signed_data_len - len in
     if negb encap_cont_ndef && (signed_data_len <? encap_cont_len)
     then pfail KSBA_BER_Error
     else pret tt
   else pret tt)%parser.

Definition _ksba_cms_parse_signed_data_part_1 : parser KsbaCMS unit :=
  ('(version, signed_data_len, signed_data_ndef) <-
     on_reader parse_cms_version ;;
   _ <- update (fun cms => set_cms_version cms version) ;;
   ti <- on_reader read_tl ;;
   if negb (is_tag ti CLASS_UNIVERSAL TYPE_SET true)
   then pfail KSBA_Invalid_CMS_Object else
   signed_data_len <-
     (if negb signed_data_ndef
      then
        signed_data_len <- take_header signed_data_len ti ;;
        if negb (ti_ndef ti) && (signed_data_len <? ti_length ti)
        then pfail KSBA_BER_Error
        else pret (wrap_ulong (signed_data_len - ti_length ti))
      else pret signed_data_len) ;;
   _ <- read_digest_algorithms ti ;;
   parse_encap_content_info signed_data_len signed_data_ndef)%parser.

End Reader.

(** ** cert.c: the certificate handle and ksba_cert_get_validity *)

(** A node of the decoded tree ([asn1-func.h]): its name and type, the
    offset of its encoding in the image (-1 when it has none), the lengths
    of the header and of the value, the first child and the next sibling. *)
Local Unset Elimination Schemes.
Inductive AsnNode : Type :=
| Build_AsnNode (name : string) (type : Z) (off nhdr len : Z)
    (down right : option AsnNode).
Local Set Elimination Schemes.

Definition node_name (n : AsnNode) : string :=
  match n with Build_AsnNode name _ _ _ _ _ _ => name end.
Definition node_type (n : AsnNode) : Z :=
  match n with Build_AsnNode _ type _ _ _ _ _ => type end.
Definition node_off (n : AsnNode) : Z :=
  match n with Build_AsnNode _ _ off _ _ _ _ => off end.
Definition node_nhdr (n : AsnNode) : Z :=
  match n with Build_AsnNode _ _ _ nhdr _ _ _ => nhdr end.
Definition node_len (n : AsnNode) : Z :=
  match n with Build_AsnNode _ _ _ _ len _ _ => len end.
Definition node_down (n : AsnNode) : option AsnNode :=
  match n with Build_AsnNode _ _ _ _ _ down _ => down end.
Definition node_right (n : AsnNode) : option AsnNode :=
  match n with Build_AsnNode _ _ _ _ _ _ next => next end.

Record KsbaCert : Type := {
  initialized : bool;
  root : option AsnNode;
  image : list byte
}.

(** [asn1-func.c] and [time.c]: the node of a path, and the seconds since
    the epoch of an ASN.1 time. *)
Class CertOps : Type := {
  _ksba_asn_find_node : option AsnNode -> string -> option AsnNode;
  _ksba_asntime_to_epoch : list byte -> Z
}.

Definition is_time_node (n : AsnNode) : bool :=
  ((node_type n =? TYPE_UTC_TIME) || (node_type n =? TYPE_GENERALIZED_TIME))
  && negb (node_off n =? -1).

(** [for (n2=n->down; n2; n2 = n2->right)] (lines 374-379), from [n2]. *)
Fixpoint find_time_node (n2 : AsnNode) : option AsnNode :=
  match n2 with
  | Build_AsnNode _ _ _ _ _ _ next =>
      if is_time_node n2 then Some n2
      else
        match next with
        | Some n2' => find_time_node n2'
        | None => None
        end
  end.

(** The child of the Time choice node [n] that the loop stops at. *)
Definition time_child (n : AsnNode) : option AsnNode :=
  match node_down n with
  | Some n2 => find_time_node n2
  | None => None
  end.

Definition validity_path (what : Z) : string :=
  if what =? 0
  then "Certificate.tbsCertificate.validity.notBefore"
  else "Certificate.tbsCertificate.validity.notAfter".

(** The value bytes of a node: [cert->image + n->off + n->nhdr], [n->len]. *)
Definition node_value (image : list byte) (n : AsnNode) : list byte :=
  sub_buffer image (node_off n + node_nhdr n) (node_len n).

Section Cert.
Context {cert_ops : CertOps}.

(** Lines 356-390; the handle is [None] for a NULL pointer, the result
    is a [time_t]. *)
Definition ksba_cert_get_validity (cert : option KsbaCert) (what : Z)
  : Z :=
  match cert with
  | None => -1
  | Some cert =>
      if (what <? 0) || (what >? 1) then -1
      else if negb (initialized cert) then -1
      else
        match _ksba_asn_find_node (root cert) (validity_path what) with
        | None => 0
        | Some n =>
            match time_child n with
            | None => 0
            | Some n =>
                if node_off n =? -1 then -1
                else
                  let t :=
                    _ksba_asntime_to_epoch (node_value (image cert) n) in
                  if t =? 0 then -1 else t
            end
        end
  end.

End Cert.

(** ** cert.c: ksba_cert_get_serial, ksba_cert_get_public_key and
    ksba_cert_get_sig_val *)

(** The byte with the value [z], for [z] from 0 to 255. *)
Definition byte_of_Z (z : Z) : byte :=
  match Byte.of_N (Z.to_N z) with
  | Some b => b
  | None => x00
  end.

(** What an accessor that returns a pointer hands back: the value, or
    NULL together with the code that it has stored in [cert->last_error],
    if it has stored one. *)
Inductive accessor_result (A : Type) : Type :=
| Value (a : A)
| Null (last_error : option KsbaError).
Arguments Value {A} a.
Arguments Null {A} last_error.

(** The buffer [cert->image + n->off] of the length
    [n->nhdr + n->len + more]; the decoder has the encoding of every node
    inside the image. *)
Definition node_encoding (image : list byte) (n : AsnNode) (more : Z)
  : list byte :=
  sub_buffer image (node_off n) (node_nhdr n + node_len n + more).

Section CertAccessors.
Context {cert_ops : CertOps} {oid_ops : OidOps} {ber_ops : BerHelpOps}.

(** Lines 265-295: the length in four bytes, the most significant first,
    and the value. *)
Definition ksba_cert_get_serial (cert : option KsbaCert)
  : option (list byte) :=
  match cert with
  | None => None
  | Some cert =>
      if negb (initialized cert) then None
      else
        match _ksba_asn_find_node (root cert)
                "Certificate.tbsCertificate.serialNumber" with
        | None => None
        | Some n =>
            if node_off n =? -1 then None
            else
              let len := node_len n in
              Some ([byte_of_Z (Z.shiftr len 24 mod 256);
                     byte_of_Z (Z.shiftr len 16 mod 256);
                     byte_of_Z (Z.shiftr len 8 mod 256);
                     byte_of_Z (len mod 256)]
                    ++ node_value (image cert) n)
        end
  end.

(** Lines 425-456. *)
Definition ksba_cert_get_public_key (cert : option KsbaCert)
  : accessor_result stringbuf :=
  match cert with
  | None => Null None
  | Some cert =>
      if negb (initialized cert) then Null None
      else
        match _ksba_asn_find_node (root cert)
                "Certificate.tbsCertificate.subjectPublicKeyInfo" with
        | None => Null (Some KSBA_No_Value)
        | Some n =>
            match _ksba_keyinfo_to_sexp (node_encoding (image cert) n 0) with
            | Err err => Null (Some err)
            | Ok string => Value string
            end
        end
  end.

(** Lines 458-497: the buffer is the signatureAlgorithm and, when the
    node has a right neighbour with an encoding, that neighbour. *)
Definition ksba_cert_get_sig_val (cert : option KsbaCert)
  : accessor_result stringbuf :=
  match cert with
  | None => Null None
  | Some cert =>
      if negb (initialized cert) then Null None
      else
        match _ksba_asn_find_node (root cert)
                "Certificate.signatureAlgorithm" with
        | None => Null (Some KSBA_No_Value)
        | Some n =>
            if node_off n =? -1 then Null (Some KSBA_No_Value)
            else
              let more :=
                match node_right n with
                | None => 0
                | Some n2 =>
                    if node_off n2 =? -1 then 0
                    else node_nhdr n2 + node_len n2
                end in
              match _ksba_sigval_to_sexp
                      (node_encoding (image cert) n more) with
              | Err err => Null (Some err)
              | Ok string => Value string
              end
        end
  end.

End CertAccessors.

(** ** Collaborators modelled from the specification *)


(** The arcs of base-128 sub-identifiers: seven bits per octet, bit 8 set on
    every octet but the last of an arc. *)
Fixpoint oid_subidentifiers (acc : Z) (der : list byte) : list Z :=
  match der with
  | [] => []
  | b :: der' =>
      let v := acc * 128 + Z.land (byte_val b) 127 in
      if Z.land (byte_val b) 128 =? 0 then v :: oid_subidentifiers 0 der'
      else oid_subidentifiers v der'
  end.

Definition dotted (arcs : list Z) : string :=
  String.concat "." (map decimal_string arcs).

(** Modelled from the spec: [ksba_oid_to_str] of [oid.c], which is not
    among the sources.  The specification has an OID as a sequence of
    non-negative integers, DER-encoded with the first two arcs combined, and
    printed as a dotted decimal string. *)
Definition model_oid_to_str (der : list byte) : option string :=
  match oid_subidentifiers 0 der with
  | [] => Some ""%string
  | v :: arcs =>
      let first_two :=
        if v <? 40 then [0; v]
        else if v <? 80 then [1; v - 40]
        else [2; v - 80] in
      Some (dotted (first_two ++ arcs))
  end.

Definition model_oid_ops : OidOps :=
  {| ksba_oid_to_str := model_oid_to_str |}.

(** *** One BER header *)

Definition class_of_identifier (c : Z) : tag_class :=
  match Z.shiftr c 6 with
  | 0 => CLASS_UNIVERSAL
  | 1 => CLASS_APPLICATION
  | 2 => CLASS_CONTEXT
  | _ => CLASS_PRIVATE
  end.

(** The octets of a tag number above 30: seven bits per octet, bit 8 set on
    all but the last; a number that leaves 32 bits is refused. *)
Fixpoint long_form_tag (truncated : error_code) (tag : Z) (der : list byte)
  : result (Z * list byte) :=
  match der with
  | [] => Err truncated
  | b :: der' =>
      let tag := tag * 128 + Z.land (byte_val b) 127 in
      if tag >=? 2 ^ 32 then Err truncated
      else if Z.land (byte_val b) 128 =? 0 then Ok (tag, der')
      else long_form_tag truncated tag der'
  end.

(** The [count] octets of a long-form length, big-endian. *)
Fixpoint long_form_length (truncated : error_code) (count : nat) (len : Z)
    (der : list byte) : result (Z * list byte) :=
  match count with
  | O => Ok (len, der)
  | S count' =>
      match der with
      | [] => Err truncated
      | b :: der' =>
          long_form_length truncated count' (len * 256 + byte_val b) der'
      end
  end.

(** Modelled from the spec: the header reader of [ber-help.c], which is
    not among the sources ([_ksba_ber_read_tl] on a reader and
    [_ksba_ber_parse_tl] on a buffer).  It reads one identifier octet,
    then a length octet; a long-form length (bit 8 set) is followed by
    [c & 0x7f] octets, big-endian; the length octet 0x80 on a constructed
    tag is the indefinite length, with length 0; the length octet 0xff is
    BAD_BER; an identifier whose low five bits are all one is continued
    with seven bits per octet.  The header octets are kept in [ti_buf].
    The specification does not name the codes for an input that ends
    before or inside the header, for an indefinite length on a primitive
    tag and for a length of more than eight octets: the model takes them
    as [at_end] and [truncated]. *)
Definition model_parse_tl (at_end truncated : error_code) (der : list byte)
  : result (tag_info * list byte) :=
  match der with
  | [] => Err at_end
  | b :: der1 =>
      let c := byte_val b in
      let constructed := negb (Z.land c 32 =? 0) in
      '(tag, der2) <-
        (if Z.land c 31 =? 31 then long_form_tag truncated 0 der1
         else Ok (Z.land c 31, der1)) ;;
      match der2 with
      | [] => Err truncated
      | l :: der3 =>
          let c' := byte_val l in
          '(len, ndef, rest) <-
            (if c' =? 255 then Err GPG_ERR_BAD_BER
             else if c' =? 128 then
               if constructed then Ok (0, true, der3) else Err truncated
             else if Z.land c' 128 =? 0 then Ok (c', false, der3)
             else if Z.land c' 127 >? 8 then Err truncated
             else
               '(len, rest) <-
                 long_form_length truncated (Z.to_nat (Z.land c' 127)) 0
                   der3 ;;
               Ok (len, false, rest)) ;;
          Ok ({| ti_class := class_of_identifier c; ti_tag := tag;
                 ti_is_constructed := constructed; ti_length := len;
                 ti_ndef := ndef; ti_nhdr := ptrdiff der rest;
                 ti_buf := sub_buffer der 0 (ptrdiff der rest) |}, rest)
      end
  end.

(** *** The buffer helpers of ber-help.c *)

Definition buffer_parse_tl : list byte -> result (tag_info * list byte) :=
  model_parse_tl GPG_ERR_FALSE GPG_ERR_BAD_BER.

(** A header with the expected class, tag and form, whose value lies in
    the buffer; another header is a structural mismatch, INV_OBJ. *)
Definition expect_tag (class : tag_class) (tag : Z) (constructed : bool)
    (der : list byte) : result (tag_info * list byte) :=
  '(ti, der) <- buffer_parse_tl der ;;
  if negb (is_tag ti class tag constructed) then Err GPG_ERR_INV_OBJ
  else if ti_length ti >? derlen der then Err GPG_ERR_BAD_BER
  else Ok (ti, der).

(** Modelled from the spec: [parse_sequence], [parse_context_tag],
    [parse_object_id_into_str], [parse_optional_null] and [parse_integer]
    of [ber-help.c], which is not among the sources.  Each reads one
    header as the specification has it for the TLV reader; a header of
    another kind is the structural mismatch INV_OBJ; the code that reads
    the optional [[2]] takes INV_OBJ or FALSE for an element that is not
    there, and the model reports FALSE at the end of the buffer. *)
Definition model_ber_ops : BerHelpOps :=
  {| parse_sequence := expect_tag CLASS_UNIVERSAL TYPE_SEQUENCE true;
     parse_context_tag := fun der tag => expect_tag CLASS_CONTEXT tag true der;
     parse_object_id_into_str := fun der =>
       '(ti, der) <- expect_tag CLASS_UNIVERSAL TYPE_OBJECT_ID false der ;;
       match model_oid_to_str (sub_buffer der 0 (ti_length ti)) with
       | Some s => Ok (s, advance (ti_length ti) der)
       | None => Err GPG_ERR_ENOMEM
       end;
     parse_optional_null := fun der =>
       match expect_tag CLASS_UNIVERSAL TYPE_NULL false der with
       | Ok (ti, der') => Ok (advance (ti_length ti) der')
       | Err _ => Ok der
       end;
     parse_integer := expect_tag CLASS_UNIVERSAL TYPE_INTEGER false |}.

(** *** A reader over a buffer in memory *)

Record mem_reader : Type := {
  mr_data : list byte;
  mr_nread : Z
}.

Definition mem_reader_of (data : list byte) : mem_reader :=
  {| mr_data := data; mr_nread := 0 |}.

Definition mem_consume (r : mem_reader) (rest : list byte) : mem_reader :=
  {| mr_data := rest; mr_nread := mr_nread r + ptrdiff (mr_data r) rest |}.

(** Modelled from the spec: the reader of [reader.c], which is not among
    the sources.  [read (buf, max)] gives the next bytes, at most [max] of
    them, or an error at the end of the input; [tell] is the number of
    bytes read; the header reader is the one above, on the bytes of the
    reader. *)
Definition model_reader_ops : ReaderOps mem_reader :=
  {| ksba_reader_read := fun r count =>
       match mr_data r with
       | [] => (Some (Other_Error (-1)), [], r)
       | _ =>
           let stored := sub_buffer (mr_data r) 0 count in
           (None, stored, mem_consume r (advance (derlen stored) (mr_data r)))
       end;
     ksba_reader_tell := mr_nread;
     _ksba_ber_read_tl := fun r =>
       match model_parse_tl KSBA_Read_Error KSBA_BER_Error (mr_data r) with
       | Ok (ti, rest) => (Ok ti, mem_consume r rest)
       | Err e => (Err e, r)
       end |}.

Definition mem_cms (data : list byte) : @KsbaCMS mem_reader :=
  {| reader := mem_reader_of data; cms_version := 0;
     content_length := 0; content_ndef := false; content_oid := None;
     inner_cont_oid := None; detached_data := false; digest_algos := [] |}.

(** *** The node finder and the time converter *)

(** The components of a dotted path. *)
Fixpoint split_path (path : string) (current : string) : list string :=
  match path with
  | EmptyString => [current]
  | String c path' =>
      if Ascii.eqb c "."
      then current :: split_path path' EmptyString
      else split_path path' (current ++ String c EmptyString)%string
  end.

Fixpoint find_node_from (n : AsnNode) (path : list string)
  : option AsnNode :=
  match n with
  | Build_AsnNode name _ _ _ _ down next =>
      match path with
      | [] => None
      | c :: path' =>
          if String.eqb name c then
            match path' with
            | [] => Some n
            | _ :: _ =>
                match down with
                | Some d => find_node_from d path'
                | None => None
                end
            end
          else
            match next with
            | Some r => find_node_from r path
            | None => None
            end
      end
  end.

Definition digit_val (b : byte) : option Z :=
  let c := byte_val b in
  if (48 <=? c) && (c <=? 57) then Some (c - 48) else None.

Fixpoint digits_val (acc : Z) (ds : list byte) : option Z :=
  match ds with
  | [] => Some acc
  | d :: ds' =>
      match digit_val d with
      | Some v => digits_val (acc * 10 + v) ds'
      | None => None
      end
  end.

(** Days from 1970-01-01 to the given day of the Gregorian calendar. *)
Definition days_from_civil (y m d : Z) : Z :=
  let y := if m <=? 2 then y - 1 else y in
  let era := y / 400 in
  let yoe := y - era * 400 in
  let mp := if m >? 2 then m - 3 else m + 9 in
  let doy := (153 * mp + 2) / 5 + d - 1 in
  let doe := yoe * 365 + yoe / 4 - yoe / 100 + doy in
  era * 146097 + doe - 719468.

(** The seconds since the epoch of [YYMMDDHHMMSSZ] (UTCTime, the years
    1950 to 2049) or [YYYYMMDDHHMMSSZ] (GeneralizedTime); [None] for
    another text. *)
Definition asntime_parse (text : list byte) : option Z :=
  let field off len := digits_val 0 (sub_buffer text off len) in
  let ylen := derlen text - 11 in
  if negb ((ylen =? 2) || (ylen =? 4)) then None
  else if negb (bytes_eqb (sub_buffer text (ylen + 10) 1) [x5a]) then None
  else
    match field 0 ylen, field ylen 2, field (ylen + 2) 2,
          field (ylen + 4) 2, field (ylen + 6) 2, field (ylen + 8) 2 with
    | Some y, Some mo, Some d, Some h, Some mi, Some s =>
        let y := if ylen =? 4 then y
                 else if y <? 50 then 2000 + y else 1900 + y in
        if (1 <=? mo) && (mo <=? 12) && (1 <=? d) && (d <=? 31)
           && (h <=? 23) && (mi <=? 59) && (s <=? 60)
        then Some (days_from_civil y mo d * 86400 + h * 3600 + mi * 60 + s)
        else None
    | _, _, _, _, _, _ => None
    end.

(** Modelled from the spec: [_ksba_asn_find_node] of [asn1-func.c] and
    [_ksba_asntime_to_epoch] of [time.c], which are not among the sources.
    [find_node (root, "A.B.C")] is the node of the dotted path or none;
    [asntime_to_epoch] is the time as seconds since the epoch, a [time_t].
    The specification does not say what the converter gives for a text
    that is no time: the model gives -1. *)
Definition model_cert_ops : CertOps :=
  {| _ksba_asn_find_node := fun root path =>
       match root with
       | Some n => find_node_from n (split_path path EmptyString)
       | None => None
       end;
     _ksba_asntime_to_epoch := fun text =>
       match asntime_parse text with
       | Some t => t
       | None => -1
       end |}.

(** *** The OID encoder *)

(** The arcs of a dotted string. *)
Fixpoint dotted_arcs (text current : list byte) : list (list byte) :=
  match text with
  | [] => [current]
  | c :: text' =>
      if byte_val c =? 46 then current :: dotted_arcs text' []
      else dotted_arcs text' (current ++ [c])
  end.

Fixpoint arcs_values (arcs : list (list byte)) : option (list Z) :=
  match arcs with
  | [] => Some []
  | arc :: arcs' =>
      match arc, digits_val 0 arc, arcs_values arcs' with
      | _ :: _, Some v, Some vs => Some (v :: vs)
      | _, _, _ => None
      end
  end.

(** The base-128 octets of a sub-identifier, bit 8 set on all but the
    last. *)
Fixpoint base128_more (fuel : nat) (n : Z) (acc : list byte) : list byte :=
  match fuel with
  | O => acc
  | S fuel' =>
      if n =? 0 then acc
      else base128_more fuel' (n / 128) (byte_of_Z (128 + n mod 128) :: acc)
  end.

Definition base128 (n : Z) : list byte :=
  base128_more 10 (n / 128) [byte_of_Z (n mod 128)].

(** Modelled from the spec: [_ksba_oid_from_buf] of [oid.c], which is not
    among the sources.  The specification has an OID as a sequence of
    non-negative integers, DER-encoded with the first two arcs combined;
    it does not name the code for a text that is no dotted string, which
    the model takes as KSBA_Invalid_Value. *)
Definition model_oid_from_buf_ops : OidFromBufOps :=
  {| _ksba_oid_from_buf := fun text =>
       match arcs_values (dotted_arcs text []) with
       | Some (a :: b :: arcs) =>
           Ok (flat_map base128 (40 * a + b :: arcs))
       | _ => Err KSBA_Invalid_Value
       end |}.

(** ** Notions of the specification *)

(** The tag, length and value octets of the element at the start of a
    buffer, counted with [TLV_LENGTH]: the full size of that element. *)
Definition tlv_size (der : list byte) : option Z :=
  match der with
  | [] => None
  | _ :: der' =>
      match TLV_LENGTH der' with
      | Ok (len, rest) => Some (ptrdiff der rest + len)
      | Err _ => None
      end
  end.

(** The value of the content octets of an INTEGER: big-endian two's
    complement. *)
Definition ber_integer_value (content : list byte) : Z :=
  let unsigned := fold_left (fun acc b => acc * 256 + byte_val b) content 0 in
  match content with
  | [] => 0
  | b :: _ =>
      if byte_val b >=? 128 then unsigned - 2 ^ (8 * derlen content)
      else unsigned
  end.

(** The content octets that BER has for an INTEGER (X.690, 8.3.1 and
    8.3.2): one octet or more, and with more than one octet the bits of the
    first octet and bit 8 of the second are neither all zero nor all
    one. *)
Definition ber_integer_content (content : list byte) : bool :=
  match content with
  | [] => false
  | [_] => true
  | b1 :: b2 :: _ =>
      negb ((byte_val b1 =? 0) && (byte_val b2 <? 128))
      && negb ((byte_val b1 =? 255) && (byte_val b2 >=? 128))
  end.

(** The OIDs of the AlgorithmIdentifiers that fill a buffer, in the order
    in which they are met. *)
Inductive digest_algo_sequence {oid_ops : OidOps}
  : list byte -> list string -> Prop :=
| digest_algo_sequence_nil : digest_algo_sequence [] []
| digest_algo_sequence_cons (p : list byte) (ai : algo_ident)
    (oids : list string) :
    p <> [] ->
    _ksba_parse_algorithm_identifier p = Ok ai ->
    digest_algo_sequence (advance (ai_nread ai) p) oids ->
    digest_algo_sequence p (ai_oid ai :: oids).

(** The shape of rsaPSS parameters that the helpers find in [der]:
    SEQUENCE { [0] { SEQUENCE { OID hash, NULL optional } },
    [1] { SEQUENCE { OID 1.2.840.113549.1.1.8, SEQUENCE { OID hash, NULL
    optional } } } ... }, with [rest] what follows the [[1]] element. *)
Definition pss_shape {ber_ops : BerHelpOps} (der : list byte)
    (hash : string) (rest : list byte) : Prop :=
  exists ti1 d1 ti2 d2 ti3 d3 d4 d5 ti6 d6 ti7 d7 d8 ti9 d9 d10,
    parse_sequence der = Ok (ti1, d1) /\
    parse_context_tag d1 0 = Ok (ti2, d2) /\
    parse_sequence d2 = Ok (ti3, d3) /\
    parse_object_id_into_str d3 = Ok (hash, d4) /\
    parse_optional_null d4 = Ok d5 /\
    parse_context_tag d5 1 = Ok (ti6, d6) /\
    parse_sequence d6 = Ok (ti7, d7) /\
    parse_object_id_into_str d7 = Ok ("1.2.840.113549.1.1.8"%string, d8) /\
    parse_sequence d8 = Ok (ti9, d9) /\
    parse_object_id_into_str d9 = Ok (hash, d10) /\
    parse_optional_null d10 = Ok rest.

(** The start of that shape, up to the header of the [[1]]: [d6] is the
    cursor at the content of the [[1]]. *)
Definition pss_to_mgf {ber_ops : BerHelpOps} (der : list byte)
    (hash : string) (d6 : list byte) : Prop :=
  exists ti1 d1 ti2 d2 ti3 d3 d4 d5 ti6,
    parse_sequence der = Ok (ti1, d1) /\
    parse_context_tag d1 0 = Ok (ti2, d2) /\
    parse_sequence d2 = Ok (ti3, d3) /\
    parse_object_id_into_str d3 = Ok (hash, d4) /\
    parse_optional_null d4 = Ok d5 /\
    parse_context_tag d5 1 = Ok (ti6, d6).

(** The same up to the MGF OID 1.2.840.113549.1.1.8 inside the [[1]]:
    [d8] is the cursor behind that OID. *)
Definition pss_to_mgf_hash {ber_ops : BerHelpOps} (der : list byte)
    (hash : string) (d8 : list byte) : Prop :=
  exists d6 ti7 d7,
    pss_to_mgf der hash d6 /\
    parse_sequence d6 = Ok (ti7, d7) /\
    parse_object_id_into_str d7 = Ok ("1.2.840.113549.1.1.8"%string, d8).

(** [e] is the code of a helper at one of the four places where the
    function leaves with [goto leave]: the header of the outer SEQUENCE,
    the header of the SEQUENCE in the [[1]], the header of the SEQUENCE
    behind the MGF OID, and the header of the INTEGER in the [[2]]; each
    place with the run of the helpers that leads to it. *)
Definition pss_helper_error {ber_ops : BerHelpOps} (der : list byte)
    (e : error_code) : Prop :=
  parse_sequence der = Err e \/
  (exists hash d6, pss_to_mgf der hash d6 /\ parse_sequence d6 = Err e) \/
  (exists hash d8,
     pss_to_mgf_hash der hash d8 /\ parse_sequence d8 = Err e) \/
  (exists hash rest ti2 d2,
     pss_shape der hash rest /\
     parse_context_tag rest 2 = Ok (ti2, d2) /\
     parse_integer d2 = Err e).

Section ParserNotions.
Context {KsbaReader : Type} {reader_ops : ReaderOps KsbaReader}.
Context {oid_ops : OidOps}.


(** The two headers that [parse_cms_version] reads from [r0]: a SEQUENCE
    [ti1] and a primitive INTEGER [ti2] that is not empty and, when the
    SEQUENCE has a definite length, lies in it; [r2] is the reader at the
    content of the INTEGER. *)
Definition cms_version_start (r0 : KsbaReader) (ti1 ti2 : tag_info)
    (r2 : KsbaReader) : Prop :=
  exists r1,
    _ksba_ber_read_tl r0 = (Ok ti1, r1) /\
    is_tag ti1 CLASS_UNIVERSAL TYPE_SEQUENCE true = true /\
    _ksba_ber_read_tl r1 = (Ok ti2, r2) /\
    is_tag ti2 CLASS_UNIVERSAL TYPE_INTEGER false = true /\
    0 < ti_length ti2 /\
    (ti_ndef ti1 = true \/
     (3 <= ti_length ti1 /\ 0 <= ti_nhdr ti2 /\
      ti_nhdr ti2 + ti_length ti2 <= ti_length ti1)).

(** What is left of the sequence length behind the INTEGER. *)
Definition cms_version_rest (ti1 ti2 : tag_info) : Z :=
  if ti_ndef ti1 then ti_length ti1
  else ti_length ti1 - ti_nhdr ti2 - ti_length ti2.

(** The result of [parse_cms_version] for the outcome of reading the
    content octet. *)
Definition cms_version_of_octet (ti1 ti2 : tag_info)
    (octet : option (result Z * KsbaReader))
  : option (result (Z * Z * bool) * KsbaReader) :=
  match octet with
  | None => None
  | Some (Err e, r3) => Some (Err e, r3)
  | Some (Ok c, r3) =>
      if c =? -1 then Some (Err KSBA_Read_Error, r3)
      else if (0 <=? c) && (c <=? 4)
      then Some (Ok (c, cms_version_rest ti1 ti2, ti_ndef ti1), r3)
      else Some (Err KSBA_Unsupported_CMS_Version, r3)
  end.

(** The start of a SignedData as part 1 reads it from [r0]: the version
    and, behind it at [r1], the header [ti] of a SET that lies in what
    is left of a SignedData of definite length; [r2] is the reader at
    the content of the SET. *)
Definition signed_data_start (fuel : nat) (r0 : KsbaReader)
    (version : Z) (r1 : KsbaReader) (ti : tag_info) (r2 : KsbaReader)
  : Prop :=
  exists signed_data_len signed_data_ndef,
    parse_cms_version fuel r0
      = Some (Ok (version, signed_data_len, signed_data_ndef), r1) /\
    _ksba_ber_read_tl r1 = (Ok ti, r2) /\
    is_tag ti CLASS_UNIVERSAL TYPE_SET true = true /\
    (signed_data_ndef = true \/
     (ti_nhdr ti <= signed_data_len /\
      (ti_ndef ti = true \/
       ti_length ti <= signed_data_len - ti_nhdr ti))).

End ParserNotions.

(** *** DER encodings

    The encodings of X.690 that the parsers are met with: the definite
    length in its shortest form, an element as tag, length and value, and
    the structures built from them. *)

(** The [count] low octets of [n], the most significant first. *)
Fixpoint be_octets (count : nat) (n : Z) : list byte :=
  match count with
  | O => []
  | S count' => be_octets count' (n / 256) ++ [byte_of_Z (n mod 256)]
  end.

(** The unsigned number that octets give, the most significant first. *)
Definition be_value (octets : list byte) : Z :=
  fold_left (fun acc b => acc * 256 + byte_val b) octets 0.

(** The number of octets of [n], for [n] above 0. *)
Definition octet_count (n : Z) : nat := Z.to_nat (Z.log2 n / 8 + 1).

(** The length octets of DER: one octet below 128, else the octet
    [0x80 | count] and the [count] octets of the length. *)
Definition der_length_octets (n : Z) : list byte :=
  if n <? 128 then [byte_of_Z n]
  else byte_of_Z (128 + Z.of_nat (octet_count n))
       :: be_octets (octet_count n) n.

(** An element with a one-octet tag. *)
Definition der_tlv (tag : byte) (content : list byte) : list byte :=
  tag :: der_length_octets (derlen content) ++ content.

(** AlgorithmIdentifier ::= SEQUENCE { algorithm OBJECT IDENTIFIER,
    parameters ANY OPTIONAL }, from the content octets of the OID and the
    encoding of the parameters ([[]] when they are absent). *)
Definition der_algorithm_identifier (oid parm : list byte) : list byte :=
  der_tlv x30 (der_tlv x06 oid ++ parm).

(** The offset of the content octets of the OID in such an
    AlgorithmIdentifier. *)
Definition oid_offset (oid parm : list byte) : Z :=
  2 + derlen (der_length_octets (derlen (der_tlv x06 oid ++ parm)))
    + derlen (der_length_octets (derlen oid)).

(** SubjectPublicKeyInfo ::= SEQUENCE { algorithm AlgorithmIdentifier,
    subjectPublicKey BIT STRING }, with the octet that counts the unused
    bits. *)
Definition der_subject_public_key_info (algorithm : list byte)
    (unused : byte) (key : list byte) : list byte :=
  der_tlv x30 (algorithm ++ der_tlv x03 (unused :: key)).

(** RSAPublicKey ::= SEQUENCE { modulus INTEGER, publicExponent INTEGER },
    from the content octets of the two. *)
Definition der_rsa_public_key (n e : list byte) : list byte :=
  der_tlv x30 (der_tlv x02 n ++ der_tlv x02 e).

(** Dss-Parms ::= SEQUENCE { p INTEGER, q INTEGER, g INTEGER }. *)
Definition der_dsa_parameters (p q g : list byte) : list byte :=
  der_tlv x30 (der_tlv x02 p ++ der_tlv x02 q ++ der_tlv x02 g).

(** Dss-Sig-Value and ECDSA-Sig-Value ::= SEQUENCE { r INTEGER,
    s INTEGER }. *)
Definition der_dsa_signature (r s : list byte) : list byte :=
  der_tlv x30 (der_tlv x02 r ++ der_tlv x02 s).

(** The content octets of the OIDs 1.2.840.113549.1.1.1 (rsaEncryption),
    1.2.840.10045.2.1 (ecPublicKey) and 1.2.840.10040.4.1 (dsa). *)
Definition rsaEncryption_oid : list byte :=
  [x2a; x86; x48; x86; xf7; x0d; x01; x01; x01].

Definition ecPublicKey_oid : list byte :=
  [x2a; x86; x48; xce; x3d; x02; x01].

Definition dsa_oid : list byte := [x2a; x86; x48; xce; x38; x04; x01].

(** *** Canonical S-expressions *)

(** An S-expression is a byte string or a list; its canonical form has a
    byte string as its length in decimal, a colon and the bytes, and a
    list in parentheses. *)
Local Unset Elimination Schemes.
Inductive sexp : Type :=
| Atom (mem : list byte)
| SList (items : list sexp).
Local Set Elimination Schemes.

Fixpoint canonical (s : sexp) : list byte :=
  match s with
  | Atom mem =>
      list_byte_of_string (decimal_string (derlen mem))
      ++ list_byte_of_string ":" ++ mem
  | SList items =>
      list_byte_of_string "("
      ++ (fix all (items : list sexp) : list byte :=
            match items with
            | [] => []
            | item :: items' => canonical item ++ all items'
            end) items
      ++ list_byte_of_string ")"
  end.

(** The byte string of a text. *)
Definition Token (text : string) : sexp := Atom (list_byte_of_string text).

(** The [(hash <digest>)] item of a signature value, for an entry with a
    digest. *)
Definition hash_item (entry : algo_table_s) : list sexp :=
  match digest_string entry with
  | Some digest => [SList [Token "hash"; Token digest]]
  | None => []
  end.

(** *** The cursor and the results of get_algorithm *)

(** [rest] is what a cursor that has moved forward in [der] has left. *)
Definition is_suffix (rest der : list byte) : Prop :=
  exists pre, der = pre ++ rest.

(** The parameter that [get_algorithm] reports for an OID at [pos] of the
    length [len], when it has read [nread] bytes up to the end of the
    parameter: none, or a range behind the OID that ends at [nread]. *)
Definition parm_recorded (with_parm : bool) (pos len ppos plen ptype nread : Z)
  : Prop :=
  (ppos = 0 /\ plen = 0 /\ ptype = 0) \/
  (with_parm = true /\ pos + len <= ppos /\ 0 <= plen /\
   ppos + plen = nread /\
   (ptype = TYPE_OCTET_STRING \/ ptype = TYPE_OBJECT_ID
    \/ (ptype = TYPE_SEQUENCE /\ 2 <= plen))).

(** What [get_algorithm] records for a parameter with the tag [t] at the
    offset [tag_off], with a header of [nhdr] octets and a value of [len]
    octets (lines 468-516). *)
Definition recorded_parameter (with_parm : bool) (t : byte)
    (tag_off nhdr len : Z) : Z * Z * Z :=
  let c := byte_val t in
  if with_parm && (c =? 4) then (tag_off + nhdr, len, TYPE_OCTET_STRING)
  else if with_parm && (c =? 6) then (tag_off + nhdr, len, TYPE_OBJECT_ID)
  else if with_parm && (c =? 48) then (tag_off, len + nhdr, TYPE_SEQUENCE)
  else (0, 0, 0).

(** A result without the parameter. *)
Definition clear_parm (a : algo_pos) : algo_pos :=
  {| r_nread := r_nread a; r_pos := r_pos a; r_len := r_len a;
     r_bitstr := r_bitstr a;
     r_parm_pos := 0; r_parm_len := 0; r_parm_type := 0 |}.

Definition clear_seq_parm (s : algo_seq) : algo_seq :=
  {| as_der := as_der s; as_seqlen := as_seqlen s; as_pos := as_pos s;
     as_len := as_len s;
     as_parm_pos := 0; as_parm_len := 0; as_parm_type := 0 |}.

(** Lines 525-536 of [get_algorithm], run at the place where a result [a]
    of mode 0 has stopped: the header of the BIT STRING or OCTET STRING. *)
Definition string_header (start : list byte) (a : algo_pos)
  : result algo_pos :=
  '(c, der) <- next_octet (advance (r_nread a) start) ;;
  if negb ((c =? 3) || (c =? 4)) then Err GPG_ERR_UNEXPECTED_TAG else
  '(_, der) <- TLV_LENGTH der ;;
  Ok {| r_nread := ptrdiff start der; r_pos := r_pos a; r_len := r_len a;
        r_bitstr := c =? 3;
        r_parm_pos := r_parm_pos a; r_parm_len := r_parm_len a;
        r_parm_type := r_parm_type a |}.

(** An entry that the loop of [lookup_algo] stops at. *)
Definition algo_matches (oid_der : list byte) (len : Z)
    (entry : algo_table_s) : Prop :=
  oidlen entry = len /\ oid entry = oid_der.

(** ** Example inputs *)

Definition null_parameter_identifier : list byte :=
  [x30; x07; x06; x03; x2a; x86; x48; x05; x00].

Definition overlong_sequence_identifier : list byte :=
  [x30; x08; x06; x03; x2a; x86; x48; x05; x00; x00].

(** An AlgorithmIdentifier with the OID 1.2.840.10045.4.3 and the
    parameter SEQUENCE { OID 2.16.840.1.101.3.4.2.1 }. *)
Definition ecdsa_with_specified_sha256 : list byte :=
  [x30; x16; x06; x07; x2a; x86; x48; xce; x3d; x04; x03;
   x30; x0b; x06; x09; x60; x86; x48; x01; x65; x03; x04; x02; x01].

(** SEQUENCE { OID 2.16.840.1.101.3.4.2.3 }, the sha-512 identifier. *)
Definition sha512_identifier : list byte :=
  [x30; x0b; x06; x09; x60; x86; x48; x01; x65; x03; x04; x02; x03].

(** OID 1.2.840.113549.1.1.8, pkcs1-MGF. *)
Definition mgf1_oid_tlv : list byte :=
  [x06; x09; x2a; x86; x48; x86; xf7; x0d; x01; x01; x08].

(** rsaPSS parameters with sha-512 and MGF1 with sha-512, without the
    [[2]] saltLength and with the trailerField [[3]] { INTEGER 1 }:
    SEQUENCE { [0] { .. } [1] { .. } [3] { INTEGER 1 } }. *)
Definition pss_parameters_trailer_field : list byte :=
  [x30; x30; xa0; x0d] ++ sha512_identifier
  ++ [xa1; x1a; x30; x18] ++ mgf1_oid_tlv ++ sha512_identifier
  ++ [xa3; x03; x02; x01; x01].

(** Parameters with sha-512 and MGF1 with sha-512 and the bare INTEGER 64
    where the [[2]] would be:
    SEQUENCE { [0] { .. } [1] { .. } INTEGER 64 }. *)
Definition pss_parameters_bare_integer : list byte :=
  [x30; x2e; xa0; x0d] ++ sha512_identifier
  ++ [xa1; x1a; x30; x18] ++ mgf1_oid_tlv ++ sha512_identifier
  ++ [x02; x01; x40].

(** A SEQUENCE whose length octet is 0xff. *)
Definition pss_parameters_bad_length : list byte := [x30; xff].

(** OID 1.2.840.113549.1.1.10, rsaPSS. *)
Definition rsapss_oid_tlv : list byte :=
  [x06; x09; x2a; x86; x48; x86; xf7; x0d; x01; x01; x0a].

(** An rsaPSS signature value whose parameters are SEQUENCE { NULL }, and
    the BIT STRING aa bb. *)
Definition rsapss_sigval_malformed_parameters : list byte :=
  [x30; x0f] ++ rsapss_oid_tlv ++ [x30; x02; x05; x00]
  ++ [x03; x03; x00; xaa; xbb].

(** Ten bytes that are no ContentInfo: a SEQUENCE of length 8 whose first
    element claims 9 bytes. *)
Definition not_cms_blob : list byte :=
  [x30; x08; x06; x09; x01; x02; x03; x04; x05; x06].



(** SEQUENCE { INTEGER 1 ... } in DER, and in BER with a SEQUENCE of
    indefinite length and the length of the INTEGER in the long form. *)
Definition cms_version_1 : list byte := [x30; x03; x02; x01; x01].

Definition cms_version_1_ber : list byte :=
  [x30; x80; x02; x81; x01; x01].

(** The start of a SignedData of indefinite length: version 1, the
    digestAlgorithms sha-512 and sha-256 (with a NULL parameter), and an
    encapContentInfo of indefinite length with the OID 1.2 and content. *)
Definition signed_data_two_digests : list byte :=
  [x30; x80; x02; x01; x01; x31; x1c]
  ++ sha512_identifier
  ++ [x30; x0d; x06; x09; x60; x86; x48; x01; x65; x03; x04; x02; x01;
      x05; x00]
  ++ [x30; x80; x06; x01; x2a; xa0; x80].

(** The same with a digestAlgorithms SET of indefinite length. *)
Definition signed_data_ndef_set : list byte :=
  [x30; x80; x02; x01; x01; x31; x80] ++ sha512_identifier ++ [x00; x00].

(** A certificate image that is only its notBefore, the UTCTime
    700101000000Z, with the path of nodes that leads to it. *)
Definition epoch_utctime : list byte :=
  [x17; x0d] ++ list_byte_of_string "700101000000Z".

Definition epoch_certificate : KsbaCert :=
  let leaf name type off next :=
    Build_AsnNode name type off 2 13 None next in
  let inner name down := Build_AsnNode name TYPE_SEQUENCE 0 0 15 down None in
  {| initialized := true;
     root :=
       Some (inner "Certificate"
         (Some (inner "tbsCertificate"
           (Some (inner "validity"
             (Some (inner "notBefore"
               (Some (leaf "generalTime" TYPE_GENERALIZED_TIME (-1)
                 (Some (leaf "utcTime" TYPE_UTC_TIME 0 None)))))))))))%string;
     image := epoch_utctime |}.

(** AlgorithmIdentifier { aes128-CBC, OCTET STRING 01 02 03 04 }. *)
Definition aes128_cbc_identifier : list byte :=
  [x30; x11; x06; x09; x60; x86; x48; x01; x65; x03; x04; x01; x02;
   x04; x04; x01; x02; x03; x04].

(** SubjectPublicKeyInfo of an RSA key with the modulus 00 c3 5a and the
    exponent 01 00 01. *)
Definition rsa_key_info : list byte :=
  [x30; x1e; x30; x0d; x06; x09; x2a; x86; x48; x86; xf7; x0d; x01; x01;
   x01; x05; x00; x03; x0d; x00; x30; x0a; x02; x03; x00; xc3; x5a;
   x02; x03; x01; x00; x01].

(** OID 1.2.840.10045.3.1.7, the curve NIST P-256. *)
Definition nistp256_oid : list byte :=
  [x2a; x86; x48; xce; x3d; x03; x01; x07].

(** SubjectPublicKeyInfo of an ECC key on that curve with the point
    04 aa bb. *)
Definition ecc_key_info : list byte :=
  [x30; x1b; x30; x13; x06; x07; x2a; x86; x48; xce; x3d; x02; x01;
   x06; x08; x2a; x86; x48; xce; x3d; x03; x01; x07;
   x03; x04; x00; x04; xaa; xbb].

(** SubjectPublicKeyInfo of an Ed25519 key aa bb. *)
Definition ed25519_key_info : list byte :=
  [x30; x0c; x30; x05; x06; x03; x2b; x65; x70; x03; x03; x00; xaa; xbb].

(** SubjectPublicKeyInfo of a DSA key with p = 7, q = 3, g = 2, y = 5. *)
Definition dsa_key_info : list byte :=
  [x30; x1c; x30; x14; x06; x07; x2a; x86; x48; xce; x38; x04; x01;
   x30; x09; x02; x01; x07; x02; x01; x03; x02; x01; x02;
   x03; x04; x00; x02; x01; x05].

(** SubjectPublicKeyInfo with the OID 1.2.840.113549.1.1.7 (RSAES-OAEP),
    which the table has as not supported. *)
Definition oaep_key_info : list byte :=
  [x30; x13; x30; x0d; x06; x09; x2a; x86; x48; x86; xf7; x0d; x01; x01;
   x07; x05; x00; x03; x02; x00; xaa].

(** The table entry of sha256WithRSAEncryption and a signature value aa bb
    with it, as a BIT STRING. *)
Definition sha256WithRSAEncryption : algo_table_s :=
  mk_algo "1.2.840.113549.1.1.11"%string
    [x2a; x86; x48; x86; xf7; x0d; x01; x01; x0b] 9
    1 PKALGO_RSA "rsa"%string "s"%string [x82]
    None None (Some "sha256"%string).

Definition rsa_signature_value : list byte :=
  [x30; x0d; x06; x09; x2a; x86; x48; x86; xf7; x0d; x01; x01; x0b;
   x05; x00; x03; x03; x00; xaa; xbb].

(** The table entry of ecdsa-with-SHA256 and a signature value with
    r = 11, s = 22. *)
Definition ecdsa_with_sha256 : algo_table_s :=
  mk_algo "1.2.840.10045.4.3.2"%string
    [x2a; x86; x48; xce; x3d; x04; x03; x02] 8
    1 PKALGO_ECC "ecdsa"%string "-rs"%string [x30; x02; x02]
    None None (Some "sha256"%string).

Definition ecdsa_signature_value : list byte :=
  [x30; x0a; x06; x08; x2a; x86; x48; xce; x3d; x04; x03; x02;
   x03; x09; x00; x30; x06; x02; x01; x11; x02; x01; x22].

(** An Ed25519 signature value aa bb. *)
Definition ed25519_signature_value : list byte :=
  [x30; x05; x06; x03; x2b; x65; x70; x03; x03; x00; xaa; xbb].

(** A key transport value: rsaEncryption and the OCTET STRING aa bb. *)
Definition rsa_encrypted_value : list byte :=
  [x30; x0d; x06; x09; x2a; x86; x48; x86; xf7; x0d; x01; x01; x01;
   x05; x00; x04; x02; xaa; xbb].

(** An originator key [[1]] { ecPublicKey, BIT STRING 04 aa }. *)
Definition kari_originator_key : list byte :=
  [xa1; x10; x30; x09; x06; x07; x2a; x86; x48; xce; x3d; x02; x01;
   x03; x03; x00; x04; xaa].

(** rsaPSS parameters with sha-512, MGF1 with sha-512 and the salt length
    [[2]] INTEGER 64. *)
Definition pss_parameters_salt_64 : list byte :=
  [x30; x30; xa0; x0d] ++ sha512_identifier
  ++ [xa1; x1a; x30; x18] ++ mgf1_oid_tlv ++ sha512_identifier
  ++ [xa2; x03; x02; x01; x40].


(** A certificate whose image is one of the buffers above, with the nodes
    that lead to it. *)
Definition serial_certificate : KsbaCert :=
  {| initialized := true;
     root :=
       Some (Build_AsnNode "Certificate" TYPE_SEQUENCE 0 0 4
         (Some (Build_AsnNode "tbsCertificate" TYPE_SEQUENCE 0 0 4
           (Some (Build_AsnNode "serialNumber" TYPE_INTEGER 0 2 2
                    None None)) None)) None)%string;
     image := [x02; x02; x01; x00] |}.

Definition rsa_certificate : KsbaCert :=
  {| initialized := true;
     root :=
       Some (Build_AsnNode "Certificate" TYPE_SEQUENCE 0 0 32
         (Some (Build_AsnNode "tbsCertificate" TYPE_SEQUENCE 0 0 32
           (Some (Build_AsnNode "subjectPublicKeyInfo" TYPE_SEQUENCE 0 2 30
                    None None)) None)) None)%string;
     image := rsa_key_info |}.

Definition signed_certificate : KsbaCert :=
  {| initialized := true;
     root :=
       Some (Build_AsnNode "Certificate" TYPE_SEQUENCE 0 0 20
         (Some (Build_AsnNode "signatureAlgorithm" TYPE_SEQUENCE 0 2 13
                  None
                  (Some (Build_AsnNode "signatureValue" 3 15 2 3
                           None None)))) None)%string;
     image := rsa_signature_value |}.

(** * Properties *)

(** ** The error monad *)

Lemma rbind_ok {A B} (m : result A) (k : A -> result B) (b : B) :
  rbind m k = Ok b -> exists a, m = Ok a /\ k a = Ok b.
Proof. destruct m as [a|e]; simpl; [eauto | discriminate]. Qed.

Lemma rbind_err {A B} (e : error_code) (k : A -> result B) :
  rbind (Err e) k = Err e.
Proof. reflexivity. Qed.

(** Splits a successful run of the error monad into its successful steps. *)
Ltac ok_steps :=
  repeat match goal with
  | H : rbind _ _ = Ok _ |- _ =>
      let a := fresh "a" in
      let Ha := fresh "Ha" in
      apply rbind_ok in H; destruct H as (a & Ha & H)
  | H : (let '(_, _) := ?p in _) = Ok _ |- _ => destruct p
  | H : (match ?p with (_, _) => _ end) = Ok _ |- _ => destruct p
  | H : (if ?c then _ else _) = Ok _ |- _ =>
      let Hc := fresh "Hc" in destruct c eqn:Hc; try discriminate H
  | H : Ok _ = Ok _ |- _ => injection H as H
  | H : Err _ = Ok _ |- _ => discriminate H
  end.

(** ** Buffers *)

Lemma byte_val_range (b : byte) : 0 <= byte_val b < 256.
Proof.
  unfold byte_val. pose proof (Byte.to_N_bounded b). lia.
Qed.

Lemma derlen_nonneg (der : list byte) : 0 <= derlen der.
Proof. unfold derlen. lia. Qed.

Lemma derlen_cons (b : byte) (der : list byte) :
  derlen (b :: der) = derlen der + 1.
Proof. unfold derlen. simpl List.length. lia. Qed.

Lemma derlen_advance (n : Z) (der : list byte) :
  0 <= n <= derlen der -> derlen (advance n der) = derlen der - n.
Proof.
  unfold derlen, advance. intros H. rewrite length_skipn. lia.
Qed.

Lemma ULONG_MOD_pos : 0 < ULONG_MOD.
Proof. reflexivity. Qed.

Lemma wrap_ulong_range (x : Z) : 0 <= wrap_ulong x < ULONG_MOD.
Proof. apply Z.mod_pos_bound, ULONG_MOD_pos. Qed.

Lemma wrap_ulong_sub (x a b : Z) :
  wrap_ulong (wrap_ulong (x - a) - b) = wrap_ulong (x - (a + b)).
Proof.
  unfold wrap_ulong. rewrite Zminus_mod_idemp_l. f_equal. lia.
Qed.

Lemma wrap_ulong_zero (x : Z) :
  - ULONG_MOD < x < ULONG_MOD -> wrap_ulong x = 0 -> x = 0.
Proof.
  unfold wrap_ulong. intros Hx H.
  pose proof ULONG_MOD_pos as HM.
  destruct (Z_lt_le_dec x 0) as [Hneg|Hpos].
  - rewrite <- (Z.mod_add x 1 ULONG_MOD) in H by lia.
    rewrite Z.mod_small in H by lia. lia.
  - rewrite Z.mod_small in H by lia. exact H.
Qed.

(** ** TLV_LENGTH *)

Lemma next_octet_ok (der rest : list byte) (c : Z) :
  next_octet der = Ok (c, rest) ->
  exists b, der = b :: rest /\ c = byte_val b.
Proof.
  destruct der as [|b der]; simpl; intros H; [discriminate|].
  injection H as <- <-. eauto.
Qed.

Lemma tlv_length_long_bounds (count : nat) :
  forall len der len' rest,
    0 <= len ->
    tlv_length_long count len der = Ok (len', rest) ->
    0 <= len' /\ derlen rest <= derlen der.
Proof.
  induction count as [|count IH]; simpl; intros len der len' rest Hlen H.
  - injection H as <- <-. lia.
  - destruct der as [|c der]; [discriminate|].
    apply IH in H.
    + rewrite derlen_cons. lia.
    + apply Z.lor_nonneg. split.
      * apply wrap_ulong_range.
      * apply Z.land_nonneg. right. lia.
Qed.

(** A length that [TLV_LENGTH] accepts lies in the rest of the buffer,
    which is shorter than the buffer. *)
Lemma TLV_LENGTH_bounds (der rest : list byte) (len : Z) :
  TLV_LENGTH der = Ok (len, rest) ->
  0 <= len <= derlen rest /\ derlen rest < derlen der.
Proof.
  unfold TLV_LENGTH. destruct der as [|b der]; [discriminate|].
  cbv zeta. intros H.
  destruct (byte_val b =? 128); [discriminate|].
  destruct (byte_val b =? 255); [discriminate|].
  rewrite derlen_cons.
  destruct (Z.land (byte_val b) 128 =? 0) eqn:Hshort.
  - simpl in H.
    destruct (byte_val b >? derlen der) eqn:Hgt; [discriminate|].
    injection H as <- <-.
    assert (0 <= byte_val b) by (unfold byte_val; lia).
    lia.
  - ok_steps. subst.
    apply tlv_length_long_bounds in Ha; lia.
Qed.

(** ** get_algorithm *)

Lemma get_algorithm_parm_tlv_inv
    (start startparm der : list byte) (seqlen pos oidlen : Z)
    (record : Z -> Z -> Z -> Z -> Z * Z * Z) (s : algo_seq) :
  derlen der <= derlen startparm ->
  get_algorithm_parm_tlv start startparm der seqlen pos oidlen record = Ok s ->
  exists len rest,
    TLV_LENGTH der = Ok (len, rest) /\
    as_der s = advance len rest /\
    derlen (as_der s) < derlen der /\
    as_seqlen s = wrap_ulong (seqlen - (derlen startparm - derlen (as_der s))) /\
    as_pos s = pos /\ as_len s = oidlen /\
    (as_parm_pos s, as_parm_len s, as_parm_type s) =
      record (ptrdiff start rest) (ptrdiff start startparm)
             (ptrdiff startparm rest) len.
Proof.
  unfold get_algorithm_parm_tlv. intros Hle H.
  apply rbind_ok in H. destruct H as ((len & rest) & Htlv & H).
  destruct (record _ _ _ _) as ((ppos & plen) & ptype) eqn:Hrec.
  injection H as <-.
  cbn [as_der as_seqlen as_pos as_len as_parm_pos as_parm_len as_parm_type].
  pose proof (TLV_LENGTH_bounds _ _ _ Htlv) as (Hlen & Hrest).
  exists len, rest.
  split; [exact Htlv|]. split; [reflexivity|].
  rewrite derlen_advance by lia.
  split; [lia|]. split.
  - rewrite wrap_ulong_sub. f_equal. unfold ptrdiff. lia.
  - split; [reflexivity|]. split; [reflexivity|]. symmetry. exact Hrec.
Qed.

(** What a successful run of lines 417-517 has established: the buffer
    starts with the SEQUENCE tag and an accepted length [seqlen]; the cursor
    has not left the buffer; what is left of [seqlen] is [seqlen] minus the
    bytes the cursor has passed since the start of the value, modulo the
    size of [unsigned long]. *)
Lemma get_algorithm_seq_inv (with_parm : bool) (start : list byte)
    (s : algo_seq) :
  get_algorithm_seq with_parm start = Ok s ->
  exists b0 der0 seqlen startseq,
    start = b0 :: der0 /\ byte_val b0 = 48 /\
    TLV_LENGTH der0 = Ok (seqlen, startseq) /\
    derlen (as_der s) < derlen startseq /\
    as_seqlen s =
      wrap_ulong (seqlen - (derlen startseq - derlen (as_der s))).
Proof.
  unfold get_algorithm_seq. intros H.
  apply rbind_ok in H. destruct H as ((c0 & der0) & Hc0 & H).
  apply next_octet_ok in Hc0. destruct Hc0 as (b0 & -> & ->).
  destruct (byte_val b0 =? 48) eqn:Htag; [|discriminate]. simpl in H.
  apply rbind_ok in H. destruct H as ((seqlen & startseq) & Hseq & H).
  apply rbind_ok in H. destruct H as ((c1 & der1) & Hc1 & H).
  apply next_octet_ok in Hc1. destruct Hc1 as (b1 & -> & ->).
  destruct (byte_val b1 =? 6) eqn:Htag1; [|discriminate]. simpl in H.
  apply rbind_ok in H. destruct H as ((oidlen & der2) & Hoid & H).
  pose proof (TLV_LENGTH_bounds _ _ _ Hoid) as (Holen & Hder2).
  set (der3 := advance oidlen der2) in *.
  assert (Hder3 : derlen der3 = derlen der2 - oidlen)
    by (apply derlen_advance; lia).
  exists b0, der0, seqlen, (b1 :: der1).
  split; [reflexivity|]. split; [lia|]. split; [exact Hseq|].
  rewrite derlen_cons in *.
  unfold ptrdiff in H. rewrite derlen_cons in H.
  destruct (wrap_ulong (seqlen - (derlen der1 + 1 - derlen der3)) =? 0)
    eqn:Hzero.
  - injection H as <-. simpl. split; [lia|]. reflexivity.
  - apply rbind_ok in H. destruct H as ((c2 & der4) & Hc2 & H).
    apply next_octet_ok in Hc2. destruct Hc2 as (b2 & Hder34 & ->).
    assert (Hder4 : derlen der3 = derlen der4 + 1)
      by (rewrite Hder34; apply derlen_cons).
    assert (Htlv : forall start pos record,
      get_algorithm_parm_tlv start der3 der4
        (wrap_ulong (seqlen - (derlen der1 + 1 - derlen der3)))
        pos oidlen record = Ok s ->
      derlen (as_der s) < derlen der1 + 1 /\
      as_seqlen s =
        wrap_ulong (seqlen - (derlen der1 + 1 - derlen (as_der s)))).
    { intros start pos record Hrec.
      apply get_algorithm_parm_tlv_inv in Hrec; [|lia].
      destruct Hrec as (len & rest & _ & _ & Hlt & Hsl & _).
      split; [lia|]. rewrite Hsl. rewrite wrap_ulong_sub. f_equal. lia. }
    destruct (byte_val b2 =? 5).
    + apply rbind_ok in H. destruct H as ((c3 & der5) & Hc3 & H).
      apply next_octet_ok in Hc3. destruct Hc3 as (b3 & -> & ->).
      destruct (byte_val b3 =? 0); [|discriminate]. simpl in H.
      injection H as <-. simpl. rewrite derlen_cons in Hder4.
      split; [lia|]. rewrite wrap_ulong_sub. f_equal. lia.
    + destruct (with_parm && (byte_val b2 =? 4)); [now apply Htlv in H|].
      destruct (with_parm && (byte_val b2 =? 6)); [now apply Htlv in H|].
      destruct (with_parm && (byte_val b2 =? 48)); now apply Htlv in H.
Qed.

Lemma get_algorithm_nread_tlv (with_parm : bool) (der : list byte)
    (a : algo_pos) :
  derlen der < ULONG_MOD ->
  get_algorithm 0 with_parm der = Ok a ->
  tlv_size der = Some (r_nread a).
Proof.
  unfold get_algorithm. intros Hfit H.
  apply rbind_ok in H. destruct H as (s & Hs & H).
  apply get_algorithm_seq_inv in Hs.
  destruct Hs as (b0 & der0 & seqlen & startseq & -> & _ & Hseq & Hle & Hsl).
  unfold get_algorithm_tail in H.
  destruct (as_seqlen s =? 0) eqn:Hzero; [|discriminate]. simpl in H.
  injection H as <-. simpl.
  rewrite Hseq. f_equal.
  pose proof (TLV_LENGTH_bounds _ _ _ Hseq) as (Hlen & Hlt).
  pose proof (derlen_nonneg (as_der s)) as Hnn.
  rewrite derlen_cons in Hfit.
  apply Z.eqb_eq in Hzero. rewrite Hsl in Hzero.
  apply wrap_ulong_zero in Hzero; [|lia].
  unfold ptrdiff. lia.
Qed.

(** The OID range that [get_algorithm] reports lies in the buffer, and a
    parameter reported as a SEQUENCE has a position and a length that are
    not zero. *)
Lemma get_algorithm_seq_ranges (with_parm : bool) (start : list byte)
    (s : algo_seq) :
  get_algorithm_seq with_parm start = Ok s ->
  (0 <= as_pos s /\ 0 <= as_len s /\ as_pos s + as_len s <= derlen start) /\
  (as_parm_type s = TYPE_SEQUENCE -> 0 < as_parm_pos s /\ 0 < as_parm_len s).
Proof.
  unfold get_algorithm_seq. intros H.
  apply rbind_ok in H. destruct H as ((c0 & der0) & Hc0 & H).
  apply next_octet_ok in Hc0. destruct Hc0 as (b0 & -> & ->).
  destruct (byte_val b0 =? 48); [|discriminate]. simpl in H.
  apply rbind_ok in H. destruct H as ((seqlen & startseq) & Hseq & H).
  apply rbind_ok in H. destruct H as ((c1 & der1) & Hc1 & H).
  apply next_octet_ok in Hc1. destruct Hc1 as (b1 & -> & ->).
  destruct (byte_val b1 =? 6); [|discriminate]. simpl in H.
  apply rbind_ok in H. destruct H as ((oidlen & der2) & Hoid & H).
  pose proof (TLV_LENGTH_bounds _ _ _ Hseq) as (_ & Hstartseq).
  pose proof (TLV_LENGTH_bounds _ _ _ Hoid) as (Holen & Hder2).
  set (der3 := advance oidlen der2) in *.
  assert (Hder3 : derlen der3 = derlen der2 - oidlen)
    by (apply derlen_advance; lia).
  rewrite !derlen_cons in *.
  pose proof (derlen_nonneg der2) as Hnn2.
  assert (Hoidrange :
    0 <= ptrdiff (b0 :: der0) der2 /\ 0 <= oidlen /\
    ptrdiff (b0 :: der0) der2 + oidlen <= derlen der0 + 1)
    by (unfold ptrdiff; rewrite derlen_cons; lia).
  destruct (wrap_ulong _ =? 0).
  - injection H as <-. simpl. split; [exact Hoidrange|].
    unfold TYPE_SEQUENCE. discriminate.
  - apply rbind_ok in H. destruct H as ((c2 & der4) & Hc2 & H).
    apply next_octet_ok in Hc2. destruct Hc2 as (b2 & Hder34 & ->).
    assert (Hder4 : derlen der3 = derlen der4 + 1)
      by (rewrite Hder34; apply derlen_cons).
    assert (Htlv : forall seqlen' record,
      get_algorithm_parm_tlv (b0 :: der0) der3 der4 seqlen'
        (ptrdiff (b0 :: der0) der2) oidlen record = Ok s ->
      (0 <= as_pos s /\ 0 <= as_len s /\
       as_pos s + as_len s <= derlen der0 + 1) /\
      exists len rest,
        0 <= len /\ derlen rest < derlen der4 /\
        (as_parm_pos s, as_parm_len s, as_parm_type s) =
          record (ptrdiff (b0 :: der0) rest) (ptrdiff (b0 :: der0) der3)
                 (ptrdiff der3 rest) len).
    { intros seqlen' record Hrec.
      apply get_algorithm_parm_tlv_inv in Hrec; [|lia].
      destruct Hrec as (len & rest & Hl & _ & _ & _ & -> & -> & Hp).
      split; [exact Hoidrange|].
      apply TLV_LENGTH_bounds in Hl. exists len, rest.
      split; [lia|]. split; [lia|]. exact Hp. }
    destruct (byte_val b2 =? 5).
    + apply rbind_ok in H. destruct H as ((c3 & der5) & Hc3 & H).
      destruct (negb (c3 =? 0)); [discriminate|].
      injection H as <-. simpl. split; [exact Hoidrange|].
      unfold TYPE_SEQUENCE. discriminate.
    + destruct (with_parm && (byte_val b2 =? 4)).
      { apply Htlv in H. destruct H as (Hr & len & rest & _ & _ & Hp).
        split; [exact Hr|]. injection Hp as _ _ ->. discriminate. }
      destruct (with_parm && (byte_val b2 =? 6)).
      { apply Htlv in H. destruct H as (Hr & len & rest & _ & _ & Hp).
        split; [exact Hr|]. injection Hp as _ _ ->. discriminate. }
      destruct (with_parm && (byte_val b2 =? 48)).
      { apply Htlv in H. destruct H as (Hr & len & rest & Hl & Hrest & Hp).
        split; [exact Hr|]. injection Hp as -> -> _. intros _.
        unfold ptrdiff. rewrite derlen_cons. lia. }
      apply Htlv in H. destruct H as (Hr & len & rest & _ & _ & Hp).
      split; [exact Hr|]. injection Hp as _ _ ->. discriminate.
Qed.

Lemma get_algorithm_mode0 (with_parm : bool) (der : list byte)
    (a : algo_pos) :
  get_algorithm 0 with_parm der = Ok a ->
  exists s,
    get_algorithm_seq with_parm der = Ok s /\ as_seqlen s = 0 /\
    a = {| r_nread := ptrdiff der (as_der s); r_pos := as_pos s;
           r_len := as_len s; r_bitstr := false;
           r_parm_pos := as_parm_pos s; r_parm_len := as_parm_len s;
           r_parm_type := as_parm_type s |}.
Proof.
  unfold get_algorithm. intros H.
  apply rbind_ok in H. destruct H as (s & Hs & H).
  unfold get_algorithm_tail in H.
  destruct (as_seqlen s =? 0) eqn:Hzero; [|discriminate]. simpl in H.
  injection H as <-. apply Z.eqb_eq in Hzero. eauto.
Qed.

Lemma sub_buffer_sub_buffer (der : list byte) (off len pos n : Z) :
  0 <= off -> 0 <= pos -> 0 <= n -> pos + n <= len ->
  sub_buffer (sub_buffer der off len) pos n = sub_buffer der (off + pos) n.
Proof.
  unfold sub_buffer. intros Hoff Hpos Hn Hle.
  rewrite skipn_firstn_comm, firstn_firstn, skipn_skipn.
  f_equal; [lia|]. f_equal. lia.
Qed.

(** ** C7 *)

(** C7.  A length octet 0xff makes the TLV_LENGTH step, and with it the
    function that runs the step, return GPG_ERR_BAD_BER whatever bytes
    follow it, and a length octet 0x80 makes them return
    GPG_ERR_NOT_DER_ENCODED: so for the macro itself, for every
    continuation of it, at the length of the outer SEQUENCE of
    [get_algorithm], [_ksba_keyinfo_to_sexp] and [cryptval_to_sexp], at
    the length of the OID in [get_algorithm], and at the length of an
    element whose tag the element loop of [_ksba_keyinfo_to_sexp] and
    [cryptval_to_sexp] has accepted. *)
Theorem TLV_LENGTH_bad_octets (rest : list byte) :
  (TLV_LENGTH (xff :: rest) = Err GPG_ERR_BAD_BER /\
   TLV_LENGTH (x80 :: rest) = Err GPG_ERR_NOT_DER_ENCODED) /\
  (forall (A : Type) (k : Z * list byte -> result A),
     rbind (TLV_LENGTH (xff :: rest)) k = Err GPG_ERR_BAD_BER /\
     rbind (TLV_LENGTH (x80 :: rest)) k = Err GPG_ERR_NOT_DER_ENCODED) /\
  (forall (mode : Z) (with_parm : bool),
     get_algorithm mode with_parm (x30 :: xff :: rest)
       = Err GPG_ERR_BAD_BER /\
     get_algorithm mode with_parm (x30 :: x80 :: rest)
       = Err GPG_ERR_NOT_DER_ENCODED) /\
  (forall oid_ops : OidOps,
     _ksba_keyinfo_to_sexp (x30 :: xff :: rest) = Err GPG_ERR_BAD_BER /\
     _ksba_keyinfo_to_sexp (x30 :: x80 :: rest)
       = Err GPG_ERR_NOT_DER_ENCODED) /\
  (forall (ber_ops : BerHelpOps) (mode : Z) (keyencralgo keywrapalgo : string)
          (encrkey : list byte),
     cryptval_to_sexp mode (x30 :: xff :: rest)
       keyencralgo keywrapalgo encrkey = Err GPG_ERR_BAD_BER /\
     cryptval_to_sexp mode (x30 :: x80 :: rest)
       keyencralgo keywrapalgo encrkey = Err GPG_ERR_NOT_DER_ENCODED) /\
  (forall (mode : Z) (with_parm : bool) (der : list byte) (seqlen : Z),
     (TLV_LENGTH der = Ok (seqlen, x06 :: xff :: rest) ->
      get_algorithm mode with_parm (x30 :: der) = Err GPG_ERR_BAD_BER) /\
     (TLV_LENGTH der = Ok (seqlen, x06 :: x80 :: rest) ->
      get_algorithm mode with_parm (x30 :: der)
        = Err GPG_ERR_NOT_DER_ENCODED)) /\
  (forall (e : ascii) (elem : string) (tag : byte) (ctrl : list byte)
          (sb : stringbuf),
     Z.land (byte_val tag) 128 = 0 \/ elem <> EmptyString ->
     walk_elements (String e elem) (tag :: ctrl) (tag :: xff :: rest) sb
       = Err GPG_ERR_BAD_BER /\
     walk_elements (String e elem) (tag :: ctrl) (tag :: x80 :: rest) sb
       = Err GPG_ERR_NOT_DER_ENCODED).
Proof.
  assert (Hff : TLV_LENGTH (xff :: rest) = Err GPG_ERR_BAD_BER)
    by reflexivity.
  assert (H80 : TLV_LENGTH (x80 :: rest) = Err GPG_ERR_NOT_DER_ENCODED)
    by reflexivity.
  split; [split; assumption|].
  split; [intros A k; rewrite Hff, H80; split; reflexivity|].
  assert (Hga : forall mode with_parm,
    get_algorithm mode with_parm (x30 :: xff :: rest)
      = Err GPG_ERR_BAD_BER /\
    get_algorithm mode with_parm (x30 :: x80 :: rest)
      = Err GPG_ERR_NOT_DER_ENCODED).
  { intros mode with_parm. unfold get_algorithm, get_algorithm_seq.
    cbn [next_octet rbind]. change (byte_val x30 =? 48) with true.
    cbn [negb]. rewrite Hff, H80. split; reflexivity. }
  split; [exact Hga|]. split; [|split; [|split]].
  - intros oid_ops. unfold _ksba_keyinfo_to_sexp.
    cbn [next_octet rbind]. change (byte_val x30 =? 48) with true.
    cbn [negb]. rewrite Hff, H80. split; reflexivity.
  - intros ber_ops mode keyencralgo keywrapalgo encrkey.
    unfold cryptval_to_sexp. cbv zeta.
    destruct (Hga 1 true) as (-> & ->). split; reflexivity.
  - intros mode with_parm der seqlen.
    split; intros Hseq; unfold get_algorithm, get_algorithm_seq;
      cbn [next_octet rbind]; change (byte_val x30 =? 48) with true;
      cbn [negb]; rewrite Hseq; cbn [next_octet rbind];
      change (byte_val x06 =? 6) with true; cbn [negb];
      [rewrite Hff | rewrite H80]; reflexivity.
  - intros e elem tag ctrl sb Hraw.
    assert (Hcond :
      negb (Z.land (byte_val tag) 128 =? 0) && (String.length elem =? 0)%nat
      = false).
    { destruct Hraw as [Hz | Hne].
      - rewrite Hz. reflexivity.
      - destruct elem; [contradiction|]. apply andb_false_r. }
    split; cbn [walk_elements hd]; rewrite Hcond;
      cbn [next_octet rbind]; rewrite Z.eqb_refl; cbn [negb];
      [rewrite Hff | rewrite H80]; reflexivity.
Qed.

Lemma TLV_LENGTH_bad_octets_witness :
  get_algorithm 0 true [x30; x03; x06; xff; x00] = Err GPG_ERR_BAD_BER /\
  walk_elements "-rs" [x30; x02; x02] [x30; x80; x02; x01; x05] []
    = Err GPG_ERR_NOT_DER_ENCODED.
Proof.
  split.
  - exact (proj1 (proj1 (proj2 (proj2 (proj2 (proj2 (proj2
             (TLV_LENGTH_bad_octets [x00]))))))
             0 true [x03; x06; xff; x00] 3) eq_refl).
  - refine (proj2 (proj2 (proj2 (proj2 (proj2 (proj2 (proj2
             (TLV_LENGTH_bad_octets [x02; x01; x05]))))))
             "-"%char "rs"%string x30 [x02; x02] [] (or_introl eq_refl))).
Defined.

(** ** C5 *)

(** C5.  For a buffer whose length fits a [size_t]: when [get_algorithm]
    in mode 0, and so [_ksba_parse_algorithm_identifier], accepts the
    buffer, the [nread] it reports is the full size (tag, length octets and
    value) of the outer SEQUENCE; and when, after the OID and the optional
    parameter, what is left of the sequence length is not zero,
    [get_algorithm] fails with GPG_ERR_INV_KEYINFO in either mode. *)
Theorem get_algorithm_consumes_sequence (der : list byte) :
  derlen der < ULONG_MOD ->
  (forall (with_parm : bool) (a : algo_pos),
     get_algorithm 0 with_parm der = Ok a ->
     tlv_size der = Some (r_nread a)) /\
  (forall (oid_ops : OidOps) (ai : algo_ident),
     _ksba_parse_algorithm_identifier der = Ok ai ->
     tlv_size der = Some (ai_nread ai)) /\
  (forall (mode : Z) (with_parm : bool) (s : algo_seq),
     get_algorithm_seq with_parm der = Ok s ->
     as_seqlen s <> 0 ->
     get_algorithm mode with_parm der = Err GPG_ERR_INV_KEYINFO).
Proof.
  intros Hfit. split; [|split].
  - intros with_parm a. now apply get_algorithm_nread_tlv.
  - intros oid_ops ai.
    unfold _ksba_parse_algorithm_identifier,
      _ksba_parse_algorithm_identifier2.
    intros H. apply rbind_ok in H. destruct H as (a & Ha & H).
    apply get_algorithm_nread_tlv in Ha; [|exact Hfit].
    rewrite Ha. f_equal.
    destruct (ksba_oid_to_str _) as [oid|]; [|discriminate].
    destruct (_ && _).
    + apply rbind_ok in H. destruct H as (b & _ & H).
      destruct (ksba_oid_to_str _); [|discriminate].
      injection H as <-. reflexivity.
    + injection H as <-. reflexivity.
  - intros mode with_parm s Hs Hne.
    unfold get_algorithm. rewrite Hs. cbn [rbind].
    unfold get_algorithm_tail.
    apply Z.eqb_neq in Hne. rewrite Hne. reflexivity.
Qed.

Lemma get_algorithm_consumes_sequence_witness :
  get_algorithm 0 true null_parameter_identifier
    = Ok {| r_nread := 9; r_pos := 4; r_len := 3; r_bitstr := false;
            r_parm_pos := 0; r_parm_len := 0; r_parm_type := 0 |} /\
  tlv_size null_parameter_identifier = Some 9 /\
  get_algorithm 1 true overlong_sequence_identifier
    = Err GPG_ERR_INV_KEYINFO.
Proof.
  assert (Hfit : derlen null_parameter_identifier < ULONG_MOD)
    by reflexivity.
  split; [reflexivity|]. split.
  - exact (proj1 (get_algorithm_consumes_sequence _ Hfit) true
             {| r_nread := 9; r_pos := 4; r_len := 3; r_bitstr := false;
                r_parm_pos := 0; r_parm_len := 0; r_parm_type := 0 |}
             eq_refl).
  - refine (proj2 (proj2 (get_algorithm_consumes_sequence
              overlong_sequence_identifier _))
              1 true
              {| as_der := [x00]; as_seqlen := 1; as_pos := 4; as_len := 3;
                 as_parm_pos := 0; as_parm_len := 0; as_parm_type := 0 |}
              eq_refl _).
    + reflexivity.
    + discriminate.
Defined.

(** ** C1 *)

(** C1.  When the buffer is an AlgorithmIdentifier whose OID prints as
    1.2.840.10045.4.3 and whose parameter is a SEQUENCE,
    [_ksba_parse_algorithm_identifier2] parses the parameter as an
    AlgorithmIdentifier again: it returns the error of that parse or, with
    the [nread] of the outer parse, the OID found in the parameter, and no
    parameter (NULL and length 0), whether or not the caller asked for
    one. *)
Theorem ecdsa_with_specified_inner_oid
    (oid_ops : OidOps) (want_parm : bool) (der : list byte) (a : algo_pos) :
  get_algorithm 0 true der = Ok a ->
  r_parm_type a = TYPE_SEQUENCE ->
  ksba_oid_to_str (sub_buffer der (r_pos a) (r_len a))
    = Some "1.2.840.10045.4.3"%string ->
  let parm := sub_buffer der (r_parm_pos a) (r_parm_len a) in
  _ksba_parse_algorithm_identifier2 want_parm der =
    match get_algorithm 0 false parm with
    | Err e => Err e
    | Ok b =>
        match ksba_oid_to_str (sub_buffer parm (r_pos b) (r_len b)) with
        | None => Err GPG_ERR_ENOMEM
        | Some inner =>
            Ok {| ai_nread := r_nread a; ai_oid := inner;
                  ai_parm := None; ai_parmlen := 0 |}
        end
    end.
Proof.
  intros Ha Htype Hoid parm.
  unfold _ksba_parse_algorithm_identifier2.
  rewrite Ha. cbn [rbind]. rewrite Hoid.
  pose proof (get_algorithm_mode0 _ _ _ Ha) as (s & Hs & _ & Heq).
  pose proof (get_algorithm_seq_ranges _ _ _ Hs) as (_ & Hparm).
  assert (Hpos : 0 < r_parm_pos a /\ 0 < r_parm_len a).
  { rewrite Heq in Htype |- *. simpl in *. auto. }
  destruct Hpos as (Hpos & Hlen).
  replace (r_parm_pos a =? 0) with false by (symmetry; apply Z.eqb_neq; lia).
  replace (r_parm_len a =? 0) with false by (symmetry; apply Z.eqb_neq; lia).
  rewrite Htype. rewrite Z.eqb_refl. rewrite String.eqb_refl. cbn [negb andb].
  fold parm.
  destruct (get_algorithm 0 false parm) as [b|e] eqn:Hb; [|reflexivity].
  cbn [rbind].
  pose proof (get_algorithm_mode0 _ _ _ Hb) as (t & Ht & _ & Heqb).
  pose proof (get_algorithm_seq_ranges _ _ _ Ht) as ((Hp0 & Hl0 & Hle) & _).
  assert (Hrange : 0 <= r_pos b /\ 0 <= r_len b /\
                   r_pos b + r_len b <= derlen parm).
  { rewrite Heqb. simpl. auto. }
  assert (Hparmlen : derlen parm <= r_parm_len a).
  { unfold parm, sub_buffer, derlen. rewrite length_firstn. lia. }
  subst parm.
  rewrite sub_buffer_sub_buffer by lia.
  destruct (ksba_oid_to_str
              (sub_buffer der (r_parm_pos a + r_pos b) (r_len b)));
    [|reflexivity].
  unfold algorithm_identifier_result.
  rewrite Z.eqb_refl. rewrite andb_false_r. reflexivity.
Qed.

Lemma ecdsa_with_specified_inner_oid_witness :
  @_ksba_parse_algorithm_identifier2 model_oid_ops true
     ecdsa_with_specified_sha256
  = Ok {| ai_nread := 24; ai_oid := "2.16.840.1.101.3.4.2.1";
          ai_parm := None; ai_parmlen := 0 |}.
Proof.
  exact (ecdsa_with_specified_inner_oid model_oid_ops true
           ecdsa_with_specified_sha256
           {| r_nread := 24; r_pos := 4; r_len := 7; r_bitstr := false;
              r_parm_pos := 11; r_parm_len := 13; r_parm_type := 16 |}
           eq_refl eq_refl eq_refl).
Defined.

(** ** C3 *)

Lemma unknown_parms_ok {A} (m : result A) (a : A) :
  unknown_parms m = Ok a -> m = Ok a.
Proof. destruct m; simpl; congruence. Qed.

Lemma unknown_parms_err {A} (m : result A) (e : error_code) :
  unknown_parms m = Err e -> e = GPG_ERR_INV_OBJ.
Proof. destruct m; simpl; congruence. Qed.

(** One step of a run of [pss_info_body] that the hypotheses give. *)
Ltac pss_run :=
  repeat match goal with
  | H : ?m = Ok _ |- context [?m] =>
      rewrite H; cbn [rbind unknown_parms]
  | H : ?m = Err _ |- context [?m] =>
      rewrite H; cbn [rbind unknown_parms]
  | |- context [String.eqb ?s ?s] =>
      rewrite (String.eqb_refl s); cbn [negb]
  end.

(** One helper of [pss_info_body] whose error is replaced by INV_OBJ, in
    a run that ends with the error [e]. *)
Ltac pss_unknown_step H :=
  match type of H with
  | rbind (unknown_parms ?m) _ = Err _ =>
      let Hm := fresh "Hm" in
      destruct m as [?|?] eqn:Hm; cbn [rbind unknown_parms] in H;
      [ try match goal with p : (_ * _)%type |- _ => destruct p end
      | injection H as <-; now left ]
  | (if negb (String.eqb ?a ?b) then _ else _) = Err _ =>
      let Hm := fresh "Hm" in
      destruct (String.eqb a b) eqn:Hm; cbn [negb] in H;
      [ apply String.eqb_eq in Hm; subst
      | injection H as <-; now left ]
  end.

(** One SEQUENCE helper of [pss_info_body] whose error is kept; the
    second goal is to show that [pss_helper_error] has the place. *)
Ltac pss_leave_step H :=
  match type of H with
  | rbind (parse_sequence ?d) _ = Err _ =>
      let Hm := fresh "Hm" in
      destruct (parse_sequence d) as [[? ?]|?] eqn:Hm; cbn [rbind] in H;
      [ | injection H as <-; right ]
  end.

Section PssInfoProperties.
Context {ber_ops : BerHelpOps}.

(** A helper error at one of the four places is the result. *)
Lemma pss_info_body_helper_error (der : list byte) (e : error_code) :
  pss_helper_error der e -> pss_info_body der = Err e.
Proof.
  unfold pss_helper_error, pss_to_mgf_hash, pss_to_mgf, pss_shape,
    pss_info_body.
  intros [H | [(hash & d6 & Hm & H) | [(hash & d8 & Hm & H)
              | (hash & rest & ti & d & Hs & Ht & Hi)]]].
  - pss_run. reflexivity.
  - destruct Hm as (ti1 & d1 & ti2 & d2 & ti3 & d3 & d4 & d5 & ti6
                    & H1 & H2 & H3 & H4 & H5 & H6).
    pss_run. reflexivity.
  - destruct Hm as (d6 & ti7 & d7 & Hm & H7 & H8).
    destruct Hm as (ti1 & d1 & ti2 & d2 & ti3 & d3 & d4 & d5 & ti6
                    & H1 & H2 & H3 & H4 & H5 & H6).
    pss_run. reflexivity.
  - destruct Hs as
      (ti1 & d1 & ti2 & d2 & ti3 & d3 & d4 & d5 & ti6 & d6 & ti7 & d7
       & d8 & ti9 & d9 & d10
       & H1 & H2 & H3 & H4 & H5 & H6 & H7 & H8 & H9 & H10 & H11).
    pss_run. reflexivity.
Qed.

(** An error of [pss_info_body] is INV_OBJ, unless it is a helper error
    at one of the four places. *)
Lemma pss_info_body_error_source (der : list byte) (e : error_code) :
  pss_info_body der = Err e ->
  e = GPG_ERR_INV_OBJ \/ pss_helper_error der e.
Proof.
  unfold pss_info_body. intros H.
  pss_leave_step H; [|now left].
  do 5 pss_unknown_step H.
  pss_leave_step H;
    [|right; left; unfold pss_to_mgf; repeat eexists; eassumption].
  do 2 pss_unknown_step H.
  pss_leave_step H;
    [|right; right; left; unfold pss_to_mgf_hash, pss_to_mgf;
      repeat eexists; eassumption].
  do 3 pss_unknown_step H.
  destruct (parse_context_tag _ 2) as [(ti2' & d2')|e2] eqn:Htag;
    cbn [rbind] in H.
  - destruct (parse_integer d2') as [(ti & d3')|e3] eqn:Hint;
      cbn [rbind] in H; [discriminate|].
    injection H as <-. right; right; right; right.
    unfold pss_shape. repeat eexists; eassumption.
  - destruct (_ || _); cbn [rbind] in H; [discriminate|].
    injection H as <-. now left.
Qed.

(** C3.  [_ksba_keyinfo_get_pss_info] on rsaPSS parameters:
    - when the parameters have the expected shape up to the end of
      [[1]] (the MGF OID is 1.2.840.113549.1.1.8 and the hash OID in it
      is the one of [[0]]) and the helper for [[2]] returns
      GPG_ERR_INV_OBJ or GPG_ERR_FALSE, the function succeeds with the
      hash OID and the salt length 20, whatever stands in that place;
    - a successful parse has found that shape, and its salt length is
      20 for a [[2]] that is not there and the value of the INTEGER in
      [[2]] otherwise;
    - an error of the helper for the header of the outer SEQUENCE, of
      the SEQUENCE in [[1]], of the SEQUENCE behind the MGF OID or of the
      INTEGER in [[2]] is returned as it is;
    - any other error of the helper for [[2]] is returned as
      GPG_ERR_INV_OBJ;
    - on every error NULL is stored at [r_psshash] and 0 at [r_saltlen],
      and the code is GPG_ERR_INV_OBJ unless it is the code of a helper
      at one of those four places. *)
Theorem pss_info_default_salt_and_errors (der : list byte) :
  (forall hash rest e,
     pss_shape der hash rest ->
     parse_context_tag rest 2 = Err e ->
     e = GPG_ERR_INV_OBJ \/ e = GPG_ERR_FALSE ->
     _ksba_keyinfo_get_pss_info der =
       {| pss_err := None; r_psshash := Some hash; r_saltlen := 20 |}) /\
  (forall hash,
     r_psshash (_ksba_keyinfo_get_pss_info der) = Some hash ->
     pss_err (_ksba_keyinfo_get_pss_info der) = None /\
     exists rest,
       pss_shape der hash rest /\
       ((exists e, parse_context_tag rest 2 = Err e /\
                   (e = GPG_ERR_INV_OBJ \/ e = GPG_ERR_FALSE) /\
                   r_saltlen (_ksba_keyinfo_get_pss_info der) = 20) \/
        (exists ti2 d2 ti d3,
           parse_context_tag rest 2 = Ok (ti2, d2) /\
           parse_integer d2 = Ok (ti, d3) /\
           r_saltlen (_ksba_keyinfo_get_pss_info der)
             = pss_saltlen_loop (Z.to_nat (ti_length ti)) 0 d3))) /\
  (forall e,
     pss_helper_error der e ->
     _ksba_keyinfo_get_pss_info der =
       {| pss_err := Some e; r_psshash := None; r_saltlen := 0 |}) /\
  (forall hash rest e,
     pss_shape der hash rest ->
     parse_context_tag rest 2 = Err e ->
     e <> GPG_ERR_INV_OBJ ->
     e <> GPG_ERR_FALSE ->
     _ksba_keyinfo_get_pss_info der =
       {| pss_err := Some GPG_ERR_INV_OBJ; r_psshash := None;
          r_saltlen := 0 |}) /\
  (forall e,
     pss_err (_ksba_keyinfo_get_pss_info der) = Some e ->
     r_psshash (_ksba_keyinfo_get_pss_info der) = None /\
     r_saltlen (_ksba_keyinfo_get_pss_info der) = 0 /\
     (e = GPG_ERR_INV_OBJ \/ pss_helper_error der e)).
Proof.
  split; [|split; [|split; [|split]]].
  - intros hash rest e Hshape H12 He.
    destruct Hshape as
      (ti1 & d1 & ti2 & d2 & ti3 & d3 & d4 & d5 & ti6 & d6 & ti7 & d7
       & d8 & ti9 & d9 & d10
       & H1 & H2 & H3 & H4 & H5 & H6 & H7 & H8 & H9 & H10 & H11).
    unfold _ksba_keyinfo_get_pss_info, pss_info_body.
    rewrite H1. cbn [rbind]. rewrite H2. cbn [rbind unknown_parms].
    rewrite H3. cbn [rbind unknown_parms].
    rewrite H4. cbn [rbind unknown_parms].
    rewrite H5. cbn [rbind unknown_parms].
    rewrite H6. cbn [rbind unknown_parms].
    rewrite H7. cbn [rbind].
    rewrite H8. cbn [rbind unknown_parms].
    rewrite String.eqb_refl. cbn [negb].
    rewrite H9. cbn [rbind].
    rewrite H10. cbn [rbind unknown_parms].
    rewrite String.eqb_refl. cbn [negb].
    rewrite H11. cbn [rbind unknown_parms].
    rewrite H12.
    destruct He as [-> | ->]; reflexivity.
  - intros hash. unfold _ksba_keyinfo_get_pss_info.
    destruct (pss_info_body der) as [(h & salt)|e] eqn:Hbody;
      cbn [r_psshash pss_err r_saltlen]; [|discriminate].
    intros Hh. injection Hh as ->. split; [reflexivity|].
    unfold pss_info_body in Hbody.
    repeat match type of Hbody with
    | rbind (match parse_context_tag _ 2 with _ => _ end) _ = Ok _ =>
        fail 1
    | rbind ?m _ = Ok _ =>
        let a := fresh "a" in
        let Ha := fresh "Ha" in
        apply rbind_ok in Hbody; destruct Hbody as (a & Ha & Hbody);
        try apply unknown_parms_ok in Ha;
        try match goal with p : (_ * _)%type |- _ => destruct p end
    | (if ?c then _ else _) = Ok _ =>
        let Hc := fresh "Hc" in
        destruct c eqn:Hc; [discriminate|];
        apply negb_false_iff, String.eqb_eq in Hc
    end.
    subst.
    match type of Hbody with
    | rbind (match parse_context_tag ?rest 2 with _ => _ end) _ = _ =>
        exists rest
    end.
    apply rbind_ok in Hbody. destruct Hbody as (saltlen & Hsalt & Hbody).
    injection Hbody as <- <-.
    split.
    + unfold pss_shape. repeat eexists; eassumption.
    + match type of Hsalt with
      | match ?m with _ => _ end = _ =>
          destruct m as [(ti2 & d2)|e] eqn:Htag
      end.
      * right. apply rbind_ok in Hsalt.
        destruct Hsalt as ((ti & d3) & Hint & Hsalt).
        injection Hsalt as <-. eauto 10.
      * left. exists e.
        destruct (error_code_eqb e GPG_ERR_INV_OBJ) eqn:H1.
        { unfold error_code_eqb in H1.
          destruct (error_code_eq_dec e GPG_ERR_INV_OBJ);
            [|discriminate].
          injection Hsalt as <-. auto. }
        destruct (error_code_eqb e GPG_ERR_FALSE) eqn:H2;
          [|discriminate].
        unfold error_code_eqb in H2.
        destruct (error_code_eq_dec e GPG_ERR_FALSE); [|discriminate].
        injection Hsalt as <-. auto.
  - intros e He. unfold _ksba_keyinfo_get_pss_info.
    now rewrite (pss_info_body_helper_error _ _ He).
  - intros hash rest e Hshape Htag Hinv Hfalse.
    destruct Hshape as
      (ti1 & d1 & ti2 & d2 & ti3 & d3 & d4 & d5 & ti6 & d6 & ti7 & d7
       & d8 & ti9 & d9 & d10
       & H1 & H2 & H3 & H4 & H5 & H6 & H7 & H8 & H9 & H10 & H11).
    unfold _ksba_keyinfo_get_pss_info, pss_info_body.
    pss_run.
    unfold error_code_eqb.
    destruct (error_code_eq_dec e GPG_ERR_INV_OBJ); [contradiction|].
    destruct (error_code_eq_dec e GPG_ERR_FALSE); [contradiction|].
    reflexivity.
  - intros e. unfold _ksba_keyinfo_get_pss_info.
    destruct (pss_info_body der) as [(h & salt)|e'] eqn:Hbody;
      cbn [r_psshash pss_err r_saltlen]; [discriminate|].
    intros He. injection He as ->.
    split; [reflexivity|]. split; [reflexivity|].
    now apply pss_info_body_error_source in Hbody.
Qed.

End PssInfoProperties.

Lemma pss_info_default_salt_and_errors_witness :
  @_ksba_keyinfo_get_pss_info model_ber_ops pss_parameters_trailer_field =
    {| pss_err := None; r_psshash := Some "2.16.840.1.101.3.4.2.3"%string;
       r_saltlen := 20 |}.
Proof.
  refine (proj1 (@pss_info_default_salt_and_errors model_ber_ops
                   pss_parameters_trailer_field)
            "2.16.840.1.101.3.4.2.3"%string [xa3; x03; x02; x01; x01]
            GPG_ERR_INV_OBJ _ eq_refl (or_introl eq_refl)).
  unfold pss_shape. repeat eexists; vm_compute; reflexivity.
Defined.

(** Parameters with a bare INTEGER as their third element do not have
    the expected shape and are accepted, with the salt length 20; and the
    code for the parameters [30 ff] is GPG_ERR_BAD_BER, not
    GPG_ERR_INV_OBJ. *)
Lemma pss_info_shape_counterexample :
  (@pss_shape model_ber_ops pss_parameters_bare_integer
     "2.16.840.1.101.3.4.2.3"%string [x02; x01; x40] /\
   @_ksba_keyinfo_get_pss_info model_ber_ops pss_parameters_bare_integer =
     {| pss_err := None; r_psshash := Some "2.16.840.1.101.3.4.2.3"%string;
        r_saltlen := 20 |}) /\
  pss_err (@_ksba_keyinfo_get_pss_info model_ber_ops
             pss_parameters_bad_length) = Some GPG_ERR_BAD_BER.
Proof.
  split; [split|]; try reflexivity.
  unfold pss_shape. repeat eexists; vm_compute; reflexivity.
Qed.

(** ** C4 *)

(** C4.  [cryptval_to_sexp] returns an error of [get_algorithm] as it is.
    For an rsaPSS algorithm with a SEQUENCE parameter, an error of
    [_ksba_keyinfo_get_pss_info] other than GPG_ERR_INV_OBJ is returned as
    it is, whereas GPG_ERR_INV_OBJ is set to 0: the value is converted as
    if there were no rsaPSS parameters, without the pss flags. *)
Theorem cryptval_to_sexp_pss_errors
    (ber_ops : BerHelpOps) (mode : Z) (der : list byte)
    (keyencralgo keywrapalgo : string) (encrkey : list byte) :
  (forall e,
     get_algorithm 1 true der = Err e ->
     cryptval_to_sexp mode der keyencralgo keywrapalgo encrkey = Err e) /\
  (forall a entry e,
     get_algorithm 1 true der = Ok a ->
     lookup_algo (if mode =? 0 then sig_algo_table else enc_algo_table)
       (sub_buffer der (r_pos a) (r_len a)) (r_len a) = Some entry ->
     supported entry = SUPPORTED_RSAPSS ->
     r_parm_type a = TYPE_SEQUENCE ->
     pss_err (_ksba_keyinfo_get_pss_info
                (sub_buffer der (r_parm_pos a) (r_parm_len a))) = Some e ->
     (e <> GPG_ERR_INV_OBJ ->
      cryptval_to_sexp mode der keyencralgo keywrapalgo encrkey = Err e) /\
     (e = GPG_ERR_INV_OBJ ->
      cryptval_to_sexp mode der keyencralgo keywrapalgo encrkey
        = cryptval_emit mode entry der a None 0
            keyencralgo keywrapalgo encrkey)).
Proof.
  split.
  - intros e H. unfold cryptval_to_sexp. cbv zeta. rewrite H. reflexivity.
  - intros a entry e Ha Hentry Hsup Htype Hpss.
    unfold cryptval_to_sexp. cbv zeta. rewrite Ha. cbn [rbind].
    rewrite Hentry. rewrite Hsup. change (SUPPORTED_RSAPSS =? 0) with false.
    cbv iota. unfold cryptval_pss. rewrite Htype, Hsup, !Z.eqb_refl.
    cbn [andb]. cbv zeta.
    unfold _ksba_keyinfo_get_pss_info in *.
    destruct (pss_info_body _) as [(h & salt)|e']; cbn in Hpss;
      [discriminate|].
    injection Hpss as ->. cbn [pss_err r_psshash r_saltlen].
    unfold error_code_eqb.
    destruct (error_code_eq_dec e GPG_ERR_INV_OBJ) as [Heq|Hne].
    + split; [contradiction|]. intros _. reflexivity.
    + split; [reflexivity|]. contradiction.
Qed.

Lemma cryptval_to_sexp_pss_errors_witness :
  @_ksba_sigval_to_sexp model_ber_ops rsapss_sigval_malformed_parameters =
    Ok (list_byte_of_string "(7:sig-val(3:rsa(1:s2:" ++ [xaa; xbb]
        ++ list_byte_of_string ")))").
Proof.
  refine (eq_trans
    (proj2 (proj2 (@cryptval_to_sexp_pss_errors model_ber_ops 0
                     rsapss_sigval_malformed_parameters
                     ""%string ""%string [])
              {| r_nread := 19; r_pos := 4; r_len := 9; r_bitstr := true;
                 r_parm_pos := 13; r_parm_len := 4; r_parm_type := 16 |}
              (mk_algo "1.2.840.113549.1.1.10"
                 [x2a; x86; x48; x86; xf7; x0d; x01; x01; x0a] 9
                 SUPPORTED_RSAPSS PKALGO_RSA "rsa" "s" [x82] None None None)
              GPG_ERR_INV_OBJ eq_refl eq_refl eq_refl eq_refl eq_refl)
       eq_refl)
    _).
  reflexivity.
Defined.

(** The rsaPSS parameters SEQUENCE { NULL } make the parser of the
    parameters return GPG_ERR_INV_OBJ, and the conversion of the signature
    value succeeds. *)
Lemma cryptval_to_sexp_inv_obj_counterexample :
  pss_err (@_ksba_keyinfo_get_pss_info model_ber_ops
             (sub_buffer rsapss_sigval_malformed_parameters 13 4))
    = Some GPG_ERR_INV_OBJ /\
  @cryptval_to_sexp model_ber_ops 0 rsapss_sigval_malformed_parameters
     ""%string ""%string [] =
    Ok (list_byte_of_string "(7:sig-val(3:rsa(1:s2:" ++ [xaa; xbb]
        ++ list_byte_of_string ")))").
Proof. split; reflexivity. Qed.

(** ** The CMS parser *)

Section ReaderProperties.
Context {KsbaReader : Type} {reader_ops : ReaderOps KsbaReader}.
Context {oid_ops : OidOps}.

(** ** C2 *)

(** C2.  When [parse_content_info] fails on the reader of the handle,
    [_ksba_cms_parse_content_info] returns KSBA_No_CMS_Object for the
    codes KSBA_BER_Error, KSBA_Invalid_CMS_Object and
    KSBA_Object_Too_Short, and the code itself for every other one. *)
Theorem cms_parse_content_info_recodes
    (fuel : nat) (cms : KsbaCMS) (e : error_code) (r' : KsbaReader) :
  parse_content_info fuel (reader cms) = Some (Err e, r') ->
  (e = KSBA_BER_Error \/ e = KSBA_Invalid_CMS_Object
   \/ e = KSBA_Object_Too_Short ->
   _ksba_cms_parse_content_info fuel cms
     = Some (Err KSBA_No_CMS_Object, set_reader cms r')) /\
  (e <> KSBA_BER_Error -> e <> KSBA_Invalid_CMS_Object ->
   e <> KSBA_Object_Too_Short ->
   _ksba_cms_parse_content_info fuel cms
     = Some (Err e, set_reader cms r')).
Proof.
  intros H. unfold _ksba_cms_parse_content_info, on_reader.
  rewrite H. unfold error_code_eqb. split.
  - intros [-> | [-> | ->]]; reflexivity.
  - intros H1 H2 H3.
    destruct (error_code_eq_dec e KSBA_BER_Error); [contradiction|].
    destruct (error_code_eq_dec e KSBA_Invalid_CMS_Object);
      [contradiction|].
    destruct (error_code_eq_dec e KSBA_Object_Too_Short);
      [contradiction|].
    reflexivity.
Qed.

End ReaderProperties.

Lemma cms_parse_content_info_recodes_witness :
  @parse_content_info _ model_reader_ops model_oid_ops 1%nat
     (mem_reader_of not_cms_blob)
    = Some (Err KSBA_BER_Error,
            {| mr_data := [x01; x02; x03; x04; x05; x06]; mr_nread := 4 |}) /\
  @_ksba_cms_parse_content_info _ model_reader_ops model_oid_ops 1%nat
     (mem_cms not_cms_blob)
    = Some (Err KSBA_No_CMS_Object,
            set_reader (mem_cms not_cms_blob)
              {| mr_data := [x01; x02; x03; x04; x05; x06];
                 mr_nread := 4 |}).
Proof.
  split; [reflexivity|].
  exact (proj1 (@cms_parse_content_info_recodes _ model_reader_ops
                  model_oid_ops 1%nat (mem_cms not_cms_blob)
                  KSBA_BER_Error _ eq_refl)
           (or_introl eq_refl)).
Defined.

Lemma Zltb_false (a b : Z) : b <= a -> (a <? b) = false.
Proof. intros H. apply Z.ltb_ge. exact H. Qed.

Lemma Zeqb_false (a b : Z) : a <> b -> (a =? b) = false.
Proof. intros H. apply Z.eqb_neq. exact H. Qed.


(** Unfolds the steps of the parser monad. *)
Ltac parser_steps :=
  cbv beta iota zeta delta
    [pbind pret pfail read_tl take_header on_reader update tell read_buffer].

Section ContentInfoProperties.
Context {KsbaReader : Type} {reader_ops : ReaderOps KsbaReader}.
Context {oid_ops : OidOps}.

(** ** C10 *)


End ContentInfoProperties.

(** The cases of lines 456-465 of [parse_cms_version]. *)
Ltac version_octet_cases Hrange :=
  match goal with
  | |- context [ti_length ?ti =? 1] =>
      destruct (ti_length ti =? 1); cbn [negb]; [|reflexivity]
  end;
  match goal with
  | |- context [read_byte ?fuel ?r] =>
      destruct (read_byte fuel r) as [([?c|?e] & ?r3)|]; try reflexivity
  end;
  match goal with
  | |- context [?c =? -1] =>
      destruct (c =? -1); [reflexivity|];
      rewrite Hrange; destruct ((0 <=? c) && (c <=? 4)); reflexivity
  end.

(** The value of the content octets of an INTEGER lies between the
    bounds that the octets before the last [n] give. *)
Lemma integer_fold_bounds (content : list byte) (acc : Z) :
  0 <= acc ->
  acc * 256 ^ derlen content
    <= fold_left (fun acc b => acc * 256 + byte_val b) content acc
    < (acc + 1) * 256 ^ derlen content.
Proof.
  revert acc. induction content as [|b content IH]; intros acc Hacc.
  - change (derlen []) with 0. cbn [fold_left]. lia.
  - rewrite derlen_cons. cbn [fold_left].
    pose proof (byte_val_range b) as Hb.
    pose proof (derlen_nonneg content) as Hn.
    specialize (IH (acc * 256 + byte_val b) ltac:(lia)).
    rewrite Z.pow_add_r by lia.
    assert (Hpos : 0 < 256 ^ derlen content)
      by (apply Z.pow_pos_nonneg; lia).
    change (256 ^ 1) with 256. nia.
Qed.

(** The value of one content octet. *)
Lemma ber_integer_value_octet (b : byte) :
  ber_integer_value [b]
  = if byte_val b >=? 128 then byte_val b - 256 else byte_val b.
Proof.
  unfold ber_integer_value. cbn [fold_left].
  change (2 ^ (8 * derlen [b])) with 256.
  now destruct (byte_val b >=? 128).
Qed.

(** Content octets of BER that are more than one give a value that does
    not fit one octet. *)
Lemma ber_integer_value_long (b1 b2 : byte) (content : list byte) :
  ber_integer_content (b1 :: b2 :: content) = true ->
  ber_integer_value (b1 :: b2 :: content) < -128
  \/ 127 < ber_integer_value (b1 :: b2 :: content).
Proof.
  unfold ber_integer_content, ber_integer_value. intros Hber.
  apply andb_true_iff in Hber. destruct Hber as (Hzero & Hones).
  apply negb_true_iff in Hzero, Hones.
  pose proof (byte_val_range b1) as Hb1.
  pose proof (byte_val_range b2) as Hb2.
  pose proof (derlen_nonneg content) as Hn.
  cbn [fold_left].
  pose proof (integer_fold_bounds content ((0 * 256 + byte_val b1) * 256
                                           + byte_val b2) ltac:(lia))
    as Hfold.
  rewrite !derlen_cons.
  replace (8 * (derlen content + 1 + 1)) with (16 + 8 * derlen content)
    by lia.
  rewrite Z.pow_add_r by lia.
  rewrite (Z.pow_mul_r 2 8) by lia.
  change (2 ^ 8) with 256. change (2 ^ 16) with 65536.
  assert (Hpos : 0 < 256 ^ derlen content)
    by (apply Z.pow_pos_nonneg; lia).
  destruct (byte_val b1 >=? 128) eqn:Hneg.
  - left.
    assert (byte_val b1 >= 128) by (apply Z.geb_le in Hneg; lia).
    assert (Hlow : byte_val b1 * 256 + byte_val b2 < 65408).
    { apply andb_false_iff in Hones. destruct Hones as [H1 | H2].
      - apply Z.eqb_neq in H1. lia.
      - assert (byte_val b2 < 128).
        { destruct (byte_val b2 >=? 128) eqn:E; [discriminate|].
          rewrite Z.geb_leb in E. apply Z.leb_gt in E. lia. }
        lia. }
    nia.
  - right.
    assert (byte_val b1 < 128).
    { rewrite Z.geb_leb in Hneg. apply Z.leb_gt in Hneg. lia. }
    assert (Hhigh : 128 <= byte_val b1 * 256 + byte_val b2).
    { apply andb_false_iff in Hzero. destruct Hzero as [H1 | H2].
      - apply Z.eqb_neq in H1. lia.
      - apply Z.ltb_ge in H2. lia. }
    nia.
Qed.

Section VersionProperties.
Context {KsbaReader : Type} {reader_ops : ReaderOps KsbaReader}.

Lemma read_byte_result (fuel : nat) (r r' : KsbaReader) (res : result Z) :
  read_byte fuel r = Some (res, r') -> exists c, res = Ok c.
Proof.
  revert r. induction fuel as [|fuel IH]; simpl; intros r H;
    [discriminate|].
  destruct (ksba_reader_read r 1) as ((rc & bytes) & r1).
  destruct rc; [injection H as <- _; eauto|].
  destruct bytes; [now apply IH in H|].
  injection H as <- _. eauto.
Qed.

Lemma parse_cms_version_start (fuel : nat) (r0 : KsbaReader)
    (ti1 ti2 : tag_info) (r2 : KsbaReader) :
  cms_version_start r0 ti1 ti2 r2 ->
  parse_cms_version fuel r0 =
    if ti_length ti2 =? 1
    then cms_version_of_octet ti1 ti2 (read_byte fuel r2)
    else Some (Err KSBA_Unsupported_CMS_Version, r2).
Proof.
  intros (r1 & H1 & Hseq & H2 & Hint & Hlen & Hform).
  unfold parse_cms_version, cms_version_of_octet, cms_version_rest.
  parser_steps.
  rewrite H1, Hseq. cbn [negb].
  assert (Hrange : forall c,
    negb ((c =? 0) || (c =? 1) || (c =? 2) || (c =? 3) || (c =? 4))
    = negb ((0 <=? c) && (c <=? 4))).
  { intros c. f_equal.
    destruct (0 <=? c) eqn:H0; destruct (c <=? 4) eqn:H4;
      destruct (c =? 0) eqn:E0; destruct (c =? 1) eqn:E1;
      destruct (c =? 2) eqn:E2; destruct (c =? 3) eqn:E3;
      destruct (c =? 4) eqn:E4; try reflexivity; exfalso; lia. }
  destruct Hform as [Hndef | (Hlen1 & Hnhdr & Hfit)].
  - rewrite Hndef. cbn [negb andb].
    rewrite H2, Hint. rewrite (Zeqb_false (ti_length ti2) 0) by lia.
    cbn [negb andb]. version_octet_cases Hrange.
  - destruct (ti_ndef ti1); cbn [negb andb].
    + rewrite H2, Hint. rewrite (Zeqb_false (ti_length ti2) 0) by lia.
      cbn [negb andb]. version_octet_cases Hrange.
    + rewrite (Zltb_false (ti_length ti1) 3) by lia.
      rewrite H2, Hint. rewrite (Zeqb_false (ti_length ti2) 0) by lia.
      cbn [negb andb].
      rewrite (Zltb_false (ti_length ti1) (ti_nhdr ti2)) by lia.
      rewrite (Zltb_false (ti_length ti1 - ti_nhdr ti2) (ti_length ti2))
        by lia.
      version_octet_cases Hrange.
Qed.

(** ** C6 *)

(** After the SEQUENCE header and the header of an INTEGER,
    [parse_cms_version] looks at the length of the INTEGER and then at one
    octet: it succeeds exactly when the INTEGER has one content octet and
    that octet is 0, 1, 2, 3 or 4, and it returns that octet as the
    version.  An INTEGER of another length is rejected with
    KSBA_Unsupported_CMS_Version before its content is read, and so is a
    single octet outside 0..4; a content octet that cannot be read is
    KSBA_Read_Error. *)
Lemma parse_cms_version_octet (fuel : nat) (r0 : KsbaReader)
    (ti1 ti2 : tag_info) (r2 : KsbaReader) :
  cms_version_start r0 ti1 ti2 r2 ->
  (ti_length ti2 <> 1 ->
   parse_cms_version fuel r0
     = Some (Err KSBA_Unsupported_CMS_Version, r2)) /\
  (forall c r3,
     ti_length ti2 = 1 ->
     read_byte fuel r2 = Some (Ok c, r3) ->
     (0 <= c <= 4 ->
      parse_cms_version fuel r0
        = Some (Ok (c, cms_version_rest ti1 ti2, ti_ndef ti1), r3)) /\
     (c = -1 ->
      parse_cms_version fuel r0 = Some (Err KSBA_Read_Error, r3)) /\
     (c <> -1 -> ~ 0 <= c <= 4 ->
      parse_cms_version fuel r0
        = Some (Err KSBA_Unsupported_CMS_Version, r3))) /\
  (forall version len ndef r3,
     parse_cms_version fuel r0 = Some (Ok (version, len, ndef), r3) ->
     ti_length ti2 = 1 /\ 0 <= version <= 4 /\
     read_byte fuel r2 = Some (Ok version, r3)).
Proof.
  intros Hstart. rewrite (parse_cms_version_start fuel _ _ _ _ Hstart).
  unfold cms_version_of_octet.
  split; [|split].
  - intros Hne. now rewrite (Zeqb_false _ _ Hne).
  - intros c r3 -> Hbyte. rewrite Hbyte. cbn [Z.eqb Pos.eqb].
    split; [|split].
    + intros Hc. rewrite (Zeqb_false c (-1)) by lia.
      replace (0 <=? c) with true by (symmetry; apply Z.leb_le; lia).
      replace (c <=? 4) with true by (symmetry; apply Z.leb_le; lia).
      reflexivity.
    + intros ->. reflexivity.
    + intros Hne Hout. rewrite (Zeqb_false c (-1)) by lia.
      destruct (0 <=? c) eqn:H0; [|reflexivity].
      destruct (c <=? 4) eqn:H4; [|reflexivity].
      apply Z.leb_le in H0, H4. exfalso. apply Hout. lia.
  - intros version len ndef r3.
    destruct (ti_length ti2 =? 1) eqn:Hone; [|discriminate].
    apply Z.eqb_eq in Hone.
    destruct (read_byte fuel r2) as [([c|e] & r)|]; try discriminate.
    destruct (c =? -1); [discriminate|].
    destruct (0 <=? c) eqn:H0; [|discriminate].
    destruct (c <=? 4) eqn:H4; [|discriminate].
    cbn [andb]. intros H. injection H as <- _ _ <-.
    apply Z.leb_le in H0, H4. auto.
Qed.

(** What [read_byte] returns is -1 or the value of a byte. *)
Lemma read_byte_octet (fuel : nat) (r r' : KsbaReader) (c : Z) :
  read_byte fuel r = Some (Ok c, r') ->
  c = -1 \/ exists b, c = byte_val b.
Proof.
  revert r. induction fuel as [|fuel IH]; simpl; intros r H;
    [discriminate|].
  destruct (ksba_reader_read r 1) as ((rc & bytes) & r1).
  destruct rc; [injection H as <- _; now left|].
  destruct bytes as [|b bytes]; [now apply IH in H|].
  injection H as <- _. right. now exists b.
Qed.

(** C6.  [parse_cms_version] reads the header of a SEQUENCE and the header
    of one INTEGER and decides on the value of that INTEGER.  For every
    input whose INTEGER has content octets as BER has them (X.690, 8.3.2)
    and whose first content octet the reader delivers: when the value is
    0, 1, 2, 3 or 4 the function succeeds and returns the value as the
    version, with what is left of the SEQUENCE and its ndef flag; every
    other value is rejected with KSBA_Unsupported_CMS_Version.  The form
    of the two headers makes no difference: a SEQUENCE of indefinite
    length and a length of the INTEGER in the long form are taken as
    well.  For every input at all, a success has read these two headers
    and an INTEGER of one content octet whose value, from 0 to 4, is the
    version returned. *)
Theorem parse_cms_version_value (fuel : nat) (r0 : KsbaReader) :
  (forall ti1 ti2 r2 content r3,
     cms_version_start r0 ti1 ti2 r2 ->
     ber_integer_content content = true ->
     ti_length ti2 = derlen content ->
     read_byte fuel r2 = Some (Ok (byte_val (hd x00 content)), r3) ->
     (0 <= ber_integer_value content <= 4 ->
      parse_cms_version fuel r0
        = Some (Ok (ber_integer_value content, cms_version_rest ti1 ti2,
                    ti_ndef ti1), r3)) /\
     (~ 0 <= ber_integer_value content <= 4 ->
      parse_cms_version fuel r0
        = Some (Err KSBA_Unsupported_CMS_Version,
                if ti_length ti2 =? 1 then r3 else r2))) /\
  (forall version len ndef r3,
     parse_cms_version fuel r0 = Some (Ok (version, len, ndef), r3) ->
     exists ti1 r1 ti2 r2 b,
       _ksba_ber_read_tl r0 = (Ok ti1, r1) /\
       is_tag ti1 CLASS_UNIVERSAL TYPE_SEQUENCE true = true /\
       _ksba_ber_read_tl r1 = (Ok ti2, r2) /\
       is_tag ti2 CLASS_UNIVERSAL TYPE_INTEGER false = true /\
       ti_length ti2 = 1 /\
       read_byte fuel r2 = Some (Ok (byte_val b), r3) /\
       version = ber_integer_value [b] /\
       0 <= version <= 4).
Proof.
  split.
  - intros ti1 ti2 r2 content r3 Hstart Hber Hlen Hbyte.
    rewrite (parse_cms_version_start fuel _ _ _ _ Hstart).
    destruct content as [|b [|b2 content]]; [discriminate| |].
    + (* one content octet *)
      change (derlen [b]) with 1 in Hlen. rewrite Hlen.
      cbn [Z.eqb Pos.eqb hd] in Hbyte |- *.
      rewrite Hbyte. unfold cms_version_of_octet.
      rewrite ber_integer_value_octet.
      pose proof (byte_val_range b) as Hb.
      rewrite (Zeqb_false (byte_val b) (-1)) by lia.
      destruct (byte_val b >=? 128) eqn:Hneg.
      * split; [intros Hv; exfalso; lia|]. intros _.
        replace (byte_val b <=? 4) with false
          by (symmetry; apply Z.leb_gt; lia).
        now rewrite andb_false_r.
      * split.
        { intros Hv.
          replace (0 <=? byte_val b) with true
            by (symmetry; apply Z.leb_le; lia).
          replace (byte_val b <=? 4) with true
            by (symmetry; apply Z.leb_le; lia).
          reflexivity. }
        intros Hv.
        replace (byte_val b <=? 4) with false
          by (symmetry; apply Z.leb_gt; lia).
        now rewrite andb_false_r.
    + (* more than one: the value is outside -128..127 *)
      pose proof (ber_integer_value_long b b2 content Hber) as Hval.
      assert (Hne : ti_length ti2 <> 1).
      { rewrite Hlen, !derlen_cons.
        pose proof (derlen_nonneg content). lia. }
      rewrite (Zeqb_false _ _ Hne).
      split; [intros Hv; exfalso; lia|]. reflexivity.
  - intros version len ndef r3 H.
    unfold parse_cms_version in H.
    cbv beta iota zeta delta [pbind pret pfail read_tl take_header] in H.
    destruct (_ksba_ber_read_tl r0) as [[ti1|e1] r1] eqn:H1;
      [|discriminate].
    destruct (is_tag ti1 CLASS_UNIVERSAL TYPE_SEQUENCE true) eqn:Hseq;
      cbn [negb] in H; [|discriminate].
    destruct (negb (ti_ndef ti1) && (ti_length ti1 <? 3));
      [discriminate|].
    destruct (_ksba_ber_read_tl r1) as [[ti2|e2] r2] eqn:H2;
      [|discriminate].
    destruct (is_tag ti2 CLASS_UNIVERSAL TYPE_INTEGER false) eqn:Hint;
      cbn [negb andb] in H; [|discriminate].
    destruct (ti_length ti2 =? 0); cbn [negb] in H; [discriminate|].
    destruct (ti_ndef ti1); cbn [negb] in H;
      [|destruct (ti_length ti1 <? ti_nhdr ti2); [discriminate|];
        cbv beta iota in H;
        destruct (_ <? ti_length ti2); [discriminate|]];
      cbv beta iota in H;
      (destruct (ti_length ti2 =? 1) eqn:Hone; cbn [negb] in H;
       [|discriminate]);
      cbv beta iota in H;
      (destruct (read_byte fuel r2) as [([c|e] & r)|] eqn:Hbyte;
       try discriminate);
      (destruct (c =? -1) eqn:Hm1; [discriminate|]);
      (destruct ((c =? 0) || (c =? 1) || (c =? 2) || (c =? 3) || (c =? 4))
         eqn:Hin; cbn [negb] in H; [|discriminate]);
      injection H as <- _ _ <-;
      apply Z.eqb_eq in Hone; apply Z.eqb_neq in Hm1;
      (destruct (read_byte_octet _ _ _ _ Hbyte) as [Hc | (b & Hc)];
       [contradiction|]);
      subst c;
      (assert (Hv : 0 <= byte_val b <= 4)
        by (repeat (apply orb_true_iff in Hin;
                    destruct Hin as [Hin | Hin];
                    [|apply Z.eqb_eq in Hin; lia]);
            apply Z.eqb_eq in Hin; lia));
      exists ti1, r1, ti2, r2, b;
      rewrite ber_integer_value_octet;
      replace (byte_val b >=? 128) with false
        by (symmetry; rewrite Z.geb_leb; apply Z.leb_gt; lia);
      repeat split; try assumption; lia.
Qed.

End VersionProperties.

Lemma parse_cms_version_value_witness :
  @parse_cms_version _ model_reader_ops 1%nat (mem_reader_of cms_version_1)
    = Some (Ok (1, 0, false), {| mr_data := []; mr_nread := 5 |}) /\
  @parse_cms_version _ model_reader_ops 1%nat
     (mem_reader_of cms_version_1_ber)
    = Some (Ok (1, 0, true), {| mr_data := []; mr_nread := 6 |}).
Proof.
  split.
  - refine (proj1 (proj1 (@parse_cms_version_value _ model_reader_ops 1%nat
              (mem_reader_of cms_version_1))
              {| ti_class := CLASS_UNIVERSAL; ti_tag := 16;
                 ti_is_constructed := true; ti_length := 3;
                 ti_ndef := false; ti_nhdr := 2; ti_buf := [x30; x03] |}
              {| ti_class := CLASS_UNIVERSAL; ti_tag := 2;
                 ti_is_constructed := false; ti_length := 1;
                 ti_ndef := false; ti_nhdr := 2; ti_buf := [x02; x01] |}
              {| mr_data := [x01]; mr_nread := 4 |} [x01]
              {| mr_data := []; mr_nread := 5 |} _ eq_refl eq_refl eq_refl)
              _).
    + exists {| mr_data := [x02; x01; x01]; mr_nread := 2 |}.
      repeat split; try reflexivity. right. repeat split; discriminate.
    + split; discriminate.
  - refine (proj1 (proj1 (@parse_cms_version_value _ model_reader_ops 1%nat
              (mem_reader_of cms_version_1_ber))
              {| ti_class := CLASS_UNIVERSAL; ti_tag := 16;
                 ti_is_constructed := true; ti_length := 0;
                 ti_ndef := true; ti_nhdr := 2; ti_buf := [x30; x80] |}
              {| ti_class := CLASS_UNIVERSAL; ti_tag := 2;
                 ti_is_constructed := false; ti_length := 1;
                 ti_ndef := false; ti_nhdr := 3;
                 ti_buf := [x02; x81; x01] |}
              {| mr_data := [x01]; mr_nread := 5 |} [x01]
              {| mr_data := []; mr_nread := 6 |} _ eq_refl eq_refl eq_refl)
              _).
    + exists {| mr_data := [x02; x81; x01; x01]; mr_nread := 2 |}.
      repeat split; try reflexivity. now left.
    + split; discriminate.
Defined.

Lemma pbind_ok {S A B} (m : parser S A) (k : A -> parser S B)
    (fuel : nat) (s s' : S) (b : B) :
  pbind m k fuel s = Some (Ok b, s') ->
  exists a s1, m fuel s = Some (Ok a, s1) /\ k a fuel s1 = Some (Ok b, s').
Proof.
  unfold pbind. destruct (m fuel s) as [([a|e] & s1)|]; try discriminate.
  eauto.
Qed.

Section SignedDataProperties.
Context {KsbaReader : Type} {reader_ops : ReaderOps KsbaReader}.
Context {oid_ops : OidOps}.

(** A [read_buffer] that returns 0 has stored [count] bytes. *)
Lemma read_buffer_loop_length (fuel : nat) :
  forall buffer count r out r',
    read_buffer_loop fuel buffer count r = Some (Ok (0, out), r') ->
    derlen out = derlen buffer + count.
Proof.
  induction fuel as [|fuel IH]; intros buffer count r out r' H;
    simpl in H; destruct (count =? 0) eqn:Hzero;
    try (injection H as <- _; apply Z.eqb_eq in Hzero; lia);
    try discriminate.
  destruct (ksba_reader_read r count) as ((rc & bytes) & r1).
  destruct rc; [discriminate|].
  apply IH in H. rewrite H. unfold derlen. rewrite length_app. lia.
Qed.

(** An accepted AlgorithmIdentifier reports a [nread] from 1 to the
    length of the buffer. *)
Lemma parse_algorithm_identifier_nread (p : list byte) (ai : algo_ident) :
  _ksba_parse_algorithm_identifier p = Ok ai ->
  0 < ai_nread ai <= derlen p.
Proof.
  unfold _ksba_parse_algorithm_identifier,
    _ksba_parse_algorithm_identifier2. intros H.
  apply rbind_ok in H. destruct H as (a & Ha & H).
  assert (Hnread : ai_nread ai = r_nread a).
  { destruct (ksba_oid_to_str _) as [oid|]; [|discriminate].
    destruct (_ && _).
    - apply rbind_ok in H. destruct H as (b & _ & H).
      destruct (ksba_oid_to_str _); [|discriminate].
      injection H as <-. reflexivity.
    - injection H as <-. reflexivity. }
  rewrite Hnread.
  apply get_algorithm_mode0 in Ha. destruct Ha as (s & Hs & _ & ->).
  apply get_algorithm_seq_inv in Hs.
  destruct Hs as (b0 & der0 & seqlen & startseq & -> & _ & Hseq & Hlt & _).
  apply TLV_LENGTH_bounds in Hseq.
  pose proof (derlen_nonneg (as_der s)).
  cbn [r_nread]. unfold ptrdiff. rewrite derlen_cons. lia.
Qed.

(** The loop over the digest algorithms: a successful run has met the
    OIDs of a [digest_algo_sequence] and has pushed them, one after the
    other, in front of the list of the handle. *)
Lemma parse_digest_algos_ok (fuel : nat) :
  forall (p : list byte) (cms cms' : @KsbaCMS KsbaReader),
    parse_digest_algos fuel p cms = Some (Ok tt, cms') ->
    exists oids,
      digest_algo_sequence p oids /\
      digest_algos cms' = rev oids ++ digest_algos cms /\
      reader cms' = reader cms.
Proof.
  assert (Hnil : forall p, (derlen p =? 0) = true -> p = []).
  { intros [|b p] H; [reflexivity|].
    rewrite derlen_cons in H. pose proof (derlen_nonneg p).
    apply Z.eqb_eq in H. lia. }
  assert (Hcons : forall p, (derlen p =? 0) = false -> p <> []).
  { intros p H ->. discriminate. }
  induction fuel as [|fuel IH]; intros p cms cms' H; simpl in H;
    destruct (derlen p =? 0) eqn:Hzero;
    try (injection H as <-; rewrite (Hnil p Hzero);
         exists []; repeat split; constructor);
    try discriminate.
  destruct (_ksba_parse_algorithm_identifier p) as [ai|e] eqn:Hai;
    [|discriminate].
  apply IH in H. destruct H as (oids & Hseq & Hlist & Hreader).
  exists (ai_oid ai :: oids). split; [|split].
  - constructor; auto.
  - rewrite Hlist. simpl. rewrite <- app_assoc. reflexivity.
  - exact Hreader.
Qed.

(** The loop ends: fuel for the length of the buffer is enough. *)
Lemma parse_digest_algos_terminates (fuel : nat) :
  forall (p : list byte) (cms : @KsbaCMS KsbaReader),
    (List.length p <= fuel)%nat -> parse_digest_algos fuel p cms <> None.
Proof.
  induction fuel as [|fuel IH]; intros p cms Hlen; simpl.
  - destruct p; [discriminate|]. simpl in Hlen. lia.
  - destruct (derlen p =? 0); [discriminate|].
    destruct (_ksba_parse_algorithm_identifier p) as [ai|e] eqn:Hai;
      [|discriminate].
    apply IH. apply parse_algorithm_identifier_nread in Hai.
    unfold advance, derlen in *. rewrite length_skipn. lia.
Qed.

(** ** C8 *)

(** C8.  In part 1 of SignedData, behind the version and the header of
    the digestAlgorithms SET: a SET of indefinite length ends the parse
    with KSBA_Unsupported_Encoding; for a SET of definite length a
    successful part 1 has read all the bytes of the SET with
    [read_buffer], these bytes are a sequence of AlgorithmIdentifiers
    that [_ksba_parse_algorithm_identifier] accepts one after the other
    up to the last byte, and [digest_algos] holds their OIDs in the
    reverse of the order in which they were met, in front of what it
    held before.  The loop over the buffer always ends. *)
Theorem signed_data_part_1_digest_algos (fuel : nat) (cms : KsbaCMS)
    (version : Z) (r1 : KsbaReader) (ti : tag_info) (r2 : KsbaReader) :
  signed_data_start fuel (reader cms) version r1 ti r2 ->
  (ti_ndef ti = true ->
   _ksba_cms_parse_signed_data_part_1 fuel cms
     = Some (Err KSBA_Unsupported_Encoding,
             set_reader (set_cms_version cms version) r2)) /\
  (ti_ndef ti = false ->
   forall cms',
     _ksba_cms_parse_signed_data_part_1 fuel cms = Some (Ok tt, cms') ->
     exists buffer r3 oids,
       read_buffer (ti_length ti) fuel r2 = Some (Ok (0, buffer), r3) /\
       derlen buffer = ti_length ti /\
       digest_algo_sequence buffer oids /\
       digest_algos cms' = rev oids ++ digest_algos cms) /\
  (forall (buffer : list byte) (cms0 : @KsbaCMS KsbaReader),
     (List.length buffer <= fuel)%nat ->
     parse_digest_algos fuel buffer cms0 <> None).
Proof.
  intros (sd_len & sd_ndef & Hver & Htl & Hset & Hfit).
  split; [|split].
  - intros Hndef.
    unfold _ksba_cms_parse_signed_data_part_1, read_digest_algorithms.
    parser_steps.
    rewrite Hver. cbn [reader set_reader set_cms_version].
    rewrite Htl, Hset. cbn [negb].
    destruct Hfit as [-> | (Hnhdr & _)].
    + cbn [negb]. rewrite Hndef. reflexivity.
    + destruct sd_ndef; cbn [negb].
      * rewrite Hndef. reflexivity.
      * rewrite (Zltb_false sd_len (ti_nhdr ti)) by lia.
        rewrite Hndef. reflexivity.
  - intros Hndef cms' H.
    unfold _ksba_cms_parse_signed_data_part_1 in H.
    apply pbind_ok in H. destruct H as (((v & l) & n) & s1 & Hv & H).
    unfold on_reader in Hv. rewrite Hver in Hv. injection Hv as <- <- <- <-.
    apply pbind_ok in H. destruct H as ([] & s2 & Hs2 & H).
    injection Hs2 as <-.
    apply pbind_ok in H. destruct H as (ti' & s3 & Hti & H).
    unfold on_reader, read_tl in Hti.
    cbn [reader set_reader set_cms_version] in Hti.
    rewrite Htl in Hti. injection Hti as <- <-.
    rewrite Hset in H. cbn [negb] in H.
    apply pbind_ok in H. destruct H as (sd_len' & s4 & Hlen & H).
    assert (Hs4 : digest_algos s4 = digest_algos cms /\ reader s4 = r2).
    { destruct sd_ndef; cbn [negb] in Hlen.
      - injection Hlen as _ <-. split; reflexivity.
      - apply pbind_ok in Hlen. destruct Hlen as (x & s5 & Hx & Hlen).
        unfold take_header in Hx.
        destruct (sd_len <? ti_nhdr ti); [discriminate|].
        injection Hx as _ <-.
        destruct (negb (ti_ndef ti) && _); [discriminate|].
        injection Hlen as _ <-. split; reflexivity. }
    destruct Hs4 as (Hdigest & Hreader).
    apply pbind_ok in H. destruct H as ([] & s5 & Hread & H).
    unfold read_digest_algorithms in Hread. cbv zeta in Hread.
    rewrite Hndef in Hread.
    apply pbind_ok in Hread.
    destruct Hread as ((err & buffer) & s6 & Hbuf & Hloop).
    destruct (err =? 0) eqn:Herr; cbn [negb] in Hloop; [|discriminate].
    apply Z.eqb_eq in Herr. subst err.
    unfold on_reader in Hbuf. rewrite Hreader in Hbuf.
    destruct (read_buffer (ti_length ti) fuel r2) as [(res & r3)|] eqn:Hrb;
      [|discriminate].
    injection Hbuf as -> <-.
    apply parse_digest_algos_ok in Hloop.
    destruct Hloop as (oids & Hseq & Hlist & _).
    cbn [digest_algos set_reader] in Hlist. rewrite Hdigest in Hlist.
    exists buffer, r3, oids.
    split; [reflexivity|]. split.
    { unfold read_buffer in Hrb.
      apply read_buffer_loop_length in Hrb. exact Hrb. }
    split; [exact Hseq|].
    rewrite <- Hlist.
    unfold parse_encap_content_info in H.
    apply pbind_ok in H. destruct H as (off & s7 & Hoff & H).
    injection Hoff as _ <-.
    apply pbind_ok in H.
    destruct H as ((((elen & endef) & oid) & has) & s8 & Hpci & H).
    unfold on_reader in Hpci.
    destruct (parse_content_info fuel (reader s5)) as [(res & r4)|];
      [|discriminate].
    injection Hpci as _ <-.
    apply pbind_ok in H. destruct H as ([] & s9 & Hupd & H).
    injection Hupd as <-.
    destruct sd_ndef; cbn [negb] in H.
    + injection H as <-. reflexivity.
    + apply pbind_ok in H. destruct H as (now & s10 & Hnow & H).
      injection Hnow as _ <-.
      destruct (sd_len' <? _); [discriminate|].
      destruct (negb endef && _); [discriminate|].
      injection H as <-. reflexivity.
  - intros buffer cms0. apply parse_digest_algos_terminates.
Qed.

End SignedDataProperties.


Lemma signed_data_part_1_digest_algos_witness :
  (exists cms',
     @_ksba_cms_parse_signed_data_part_1 _ model_reader_ops model_oid_ops
        3%nat (mem_cms signed_data_two_digests) = Some (Ok tt, cms') /\
     digest_algos cms'
       = ["2.16.840.1.101.3.4.2.1"%string; "2.16.840.1.101.3.4.2.3"%string]
     /\
     exists buffer r3 oids,
       @read_buffer _ model_reader_ops 28 3%nat
          {| mr_data := skipn 7 signed_data_two_digests; mr_nread := 7 |}
         = Some (Ok (0, buffer), r3) /\
       derlen buffer = 28 /\
       @digest_algo_sequence model_oid_ops buffer oids /\
       digest_algos cms' = rev oids ++ []) /\
  @_ksba_cms_parse_signed_data_part_1 _ model_reader_ops model_oid_ops
     3%nat (mem_cms signed_data_ndef_set)
    = Some (Err KSBA_Unsupported_Encoding,
            set_reader (set_cms_version (mem_cms signed_data_ndef_set) 1)
              {| mr_data := skipn 7 signed_data_ndef_set; mr_nread := 7 |}).
Proof.
  pose (set_header := fun (len : Z) (ndef : bool) (l : byte) =>
    {| ti_class := CLASS_UNIVERSAL; ti_tag := 17; ti_is_constructed := true;
       ti_length := len; ti_ndef := ndef; ti_nhdr := 2;
       ti_buf := [x31; l] |}).
  split.
  - eexists. split; [vm_compute; reflexivity|]. split; [reflexivity|].
    refine (proj1 (proj2 (@signed_data_part_1_digest_algos _
              model_reader_ops model_oid_ops 3%nat
              (mem_cms signed_data_two_digests) 1
              {| mr_data := skipn 5 signed_data_two_digests; mr_nread := 5 |}
              (set_header 28 false x1c)
              {| mr_data := skipn 7 signed_data_two_digests; mr_nread := 7 |}
              _)) eq_refl _ _).
    + exists 0, true. repeat split; try reflexivity. left. reflexivity.
    + vm_compute. reflexivity.
  - refine (proj1 (@signed_data_part_1_digest_algos _
              model_reader_ops model_oid_ops 3%nat
              (mem_cms signed_data_ndef_set) 1
              {| mr_data := skipn 5 signed_data_ndef_set; mr_nread := 5 |}
              (set_header 0 true x80)
              {| mr_data := skipn 7 signed_data_ndef_set; mr_nread := 7 |}
              _) eq_refl).
    exists 0, true. repeat split; try reflexivity. left. reflexivity.
Defined.

(** ** C9 *)

Lemma find_time_node_found :
  forall n2 c, find_time_node n2 = Some c -> is_time_node c = true.
Proof.
  fix IH 1. intros [name type off nhdr len down next] c H.
  simpl in H.
  destruct (is_time_node (Build_AsnNode name type off nhdr len down next))
    eqn:Htime.
  - injection H as <-. exact Htime.
  - destruct next as [n|]; [exact (IH n c H)|discriminate].
Qed.

Lemma find_time_node_first (n2 : AsnNode) :
  is_time_node n2 = true -> find_time_node n2 = Some n2.
Proof. destruct n2. simpl. intros ->. reflexivity. Qed.

Lemma is_time_node_spec (n : AsnNode) :
  is_time_node n = true <->
  (node_type n = TYPE_UTC_TIME \/ node_type n = TYPE_GENERALIZED_TIME)
  /\ node_off n <> -1.
Proof.
  unfold is_time_node.
  rewrite andb_true_iff, orb_true_iff, negb_true_iff, !Z.eqb_eq, Z.eqb_neq.
  reflexivity.
Qed.

(** C9.  For an initialized certificate and [what] 0 or 1,
    [ksba_cert_get_validity] returns 0 when the path has no node or the
    node has no child that is a UTCTime or a GeneralizedTime with an
    encoding; it stops at the first such child, of either type, and
    returns what [_ksba_asntime_to_epoch] gives for its value, except that
    it returns -1 when that is 0: so it returns -1 when the converter gives
    0 or -1, and the converter's value in all other cases. *)
Theorem cert_get_validity_result
    (cert_ops : CertOps) (cert : KsbaCert) (what : Z) :
  initialized cert = true ->
  what = 0 \/ what = 1 ->
  (_ksba_asn_find_node (root cert) (validity_path what) = None ->
   ksba_cert_get_validity (Some cert) what = 0) /\
  (forall n,
     _ksba_asn_find_node (root cert) (validity_path what) = Some n ->
     time_child n = None ->
     ksba_cert_get_validity (Some cert) what = 0) /\
  (forall n c,
     _ksba_asn_find_node (root cert) (validity_path what) = Some n ->
     time_child n = Some c ->
     (node_type c = TYPE_UTC_TIME \/ node_type c = TYPE_GENERALIZED_TIME) /\
     (_ksba_asntime_to_epoch (node_value (image cert) c) = 0 ->
      ksba_cert_get_validity (Some cert) what = -1) /\
     (_ksba_asntime_to_epoch (node_value (image cert) c) <> 0 ->
      ksba_cert_get_validity (Some cert) what
        = _ksba_asntime_to_epoch (node_value (image cert) c))) /\
  (forall n2,
     node_type n2 = TYPE_UTC_TIME \/ node_type n2 = TYPE_GENERALIZED_TIME ->
     node_off n2 <> -1 ->
     find_time_node n2 = Some n2).
Proof.
  intros Hinit Hwhat.
  assert (Hrange : (what <? 0) || (what >? 1) = false)
    by (destruct Hwhat as [-> | ->]; reflexivity).
  unfold ksba_cert_get_validity. rewrite Hrange, Hinit. cbn [negb].
  split; [|split; [|split]].
  - intros ->. reflexivity.
  - intros n -> ->. reflexivity.
  - intros n c -> Hc. rewrite Hc.
    unfold time_child in Hc.
    destruct (node_down n) as [n2|]; [|discriminate].
    apply find_time_node_found, is_time_node_spec in Hc.
    destruct Hc as (Htype & Hoff).
    rewrite (Zeqb_false _ _ Hoff). cbv zeta.
    split; [exact Htype|]. split.
    + intros ->. reflexivity.
    + intros Hne. now rewrite (Zeqb_false _ _ Hne).
  - intros n2 Htype Hoff. apply find_time_node_first, is_time_node_spec.
    auto.
Qed.

Lemma cert_get_validity_result_witness :
  @ksba_cert_get_validity model_cert_ops (Some epoch_certificate) 0 = -1.
Proof.
  refine (proj1 (proj2 (proj1 (proj2 (proj2
            (cert_get_validity_result model_cert_ops epoch_certificate 0
               eq_refl (or_introl eq_refl))))
            _ (Build_AsnNode "utcTime" TYPE_UTC_TIME 0 2 13 None None)
            eq_refl eq_refl)) eq_refl).
Defined.

(** The notBefore 700101000000Z is a time, 0 seconds after the epoch, and
    [ksba_cert_get_validity] reports it as -1. *)
Lemma cert_get_validity_epoch_counterexample :
  asntime_parse
    (node_value (image epoch_certificate)
       (Build_AsnNode "utcTime" TYPE_UTC_TIME 0 2 13 None None)) = Some 0 /\
  @ksba_cert_get_validity model_cert_ops (Some epoch_certificate) 0 = -1.
Proof. split; reflexivity. Qed.

(** * Further properties

    Properties of the functions above and of further functions of the
    three files, each with the source lines it is read from. *)

Lemma byte_val_of_Z (z : Z) : 0 <= z < 256 -> byte_val (byte_of_Z z) = z.
Proof.
  intros Hz. unfold byte_of_Z, byte_val.
  destruct (Byte.of_N (Z.to_N z)) as [b|] eqn:Hb.
  - apply Byte.to_of_N in Hb. rewrite Hb. lia.
  - apply Byte.of_N_None_iff in Hb. lia.
Qed.

Lemma byte_of_Z_val (b : byte) : byte_of_Z (byte_val b) = b.
Proof.
  unfold byte_of_Z, byte_val. rewrite N2Z.id, Byte.of_to_N. reflexivity.
Qed.

Lemma land_255 (c : Z) : 0 <= c < 256 -> Z.land c 255 = c.
Proof.
  intros Hc. change 255 with (Z.ones 8). rewrite Z.land_ones by lia.
  apply Z.mod_small. lia.
Qed.

Lemma lor_low_octet (x c : Z) :
  0 <= c < 256 -> x mod 256 = 0 -> Z.lor x c = x + c.
Proof.
  intros Hc Hx.
  assert (Hland : Z.land x c = 0).
  { apply Z.bits_inj'. intros i Hi. rewrite Z.land_spec, Z.bits_0.
    destruct (Z.ltb_spec i 8).
    - assert (Z.testbit x i = false) as ->; [|reflexivity].
      rewrite <- (Z.mod_pow2_bits_low x 8 i) by lia.
      change (2 ^ 8) with 256. rewrite Hx. apply Z.bits_0.
    - assert (Z.testbit c i = false) as ->; [|apply andb_false_r].
      destruct (Z.eq_dec c 0) as [->|]; [apply Z.bits_0|].
      apply Z.bits_above_log2; [lia|].
      assert (Z.log2 c < 8); [|lia].
      apply Z.log2_lt_pow2; lia. }
  rewrite <- Z.lxor_lor by exact Hland.
  symmetry. apply Z.add_nocarry_lxor. exact Hland.
Qed.

Lemma wrap_shiftl_octet (len c : Z) :
  0 <= c < 256 ->
  Z.lor (wrap_ulong (Z.shiftl len 8)) (Z.land c 255)
    = wrap_ulong (len * 256 + c).
Proof.
  intros Hc. rewrite land_255 by exact Hc.
  rewrite Z.shiftl_mul_pow2 by lia. change (2 ^ 8) with 256.
  unfold wrap_ulong, ULONG_MOD, ULONG_BITS.
  assert (Hdiv : 2 ^ 64 = 256 * 2 ^ 56) by reflexivity.
  assert (Hm : (len * 256) mod 2 ^ 64 = 256 * (len mod 2 ^ 56)).
  { rewrite Hdiv, (Z.mul_comm len 256).
    rewrite Z.mul_mod_distr_l by lia. reflexivity. }
  rewrite lor_low_octet.
  - rewrite Hm.
    assert (0 <= len mod 2 ^ 56 < 2 ^ 56) by (apply Z.mod_pos_bound; lia).
    symmetry.
    rewrite <- (Z.mod_small (256 * (len mod 2 ^ 56) + c) (2 ^ 64)) by lia.
    rewrite <- Hm. rewrite <- Z.add_mod_idemp_l by lia. reflexivity.
  - exact Hc.
  - rewrite Hm. rewrite Z.mul_comm. apply Z.mod_mul. lia.
Qed.

Lemma be_value_app (a b : list byte) :
  be_value (a ++ b)
    = fold_left (fun acc x => acc * 256 + byte_val x) b (be_value a).
Proof. unfold be_value. apply fold_left_app. Qed.

Lemma fold_value_wrap (octets : list byte) :
  forall acc,
    wrap_ulong (fold_left (fun a b => a * 256 + byte_val b) octets
                  (wrap_ulong acc))
    = wrap_ulong (fold_left (fun a b => a * 256 + byte_val b) octets acc).
Proof.
  induction octets as [|b octets IH]; intros acc; cbn [fold_left].
  - unfold wrap_ulong. apply Z.mod_mod. pose proof ULONG_MOD_pos. lia.
  - rewrite <- (IH (wrap_ulong acc * 256 + byte_val b)).
    rewrite <- (IH (acc * 256 + byte_val b)).
    f_equal. f_equal. unfold wrap_ulong.
    pose proof ULONG_MOD_pos.
    rewrite Z.add_mod by lia. rewrite Z.mul_mod_idemp_l by lia.
    rewrite <- Z.add_mod by lia. reflexivity.
Qed.

Lemma tlv_length_long_app (octets : list byte) :
  forall len rest,
    tlv_length_long (List.length octets) len (octets ++ rest)
    = Ok (match octets with
          | [] => len
          | _ => wrap_ulong
                   (fold_left (fun a b => a * 256 + byte_val b) octets len)
          end, rest).
Proof.
  induction octets as [|b octets IH]; intros len rest.
  - reflexivity.
  - cbn [List.length tlv_length_long app].
    rewrite wrap_shiftl_octet by apply byte_val_range.
    rewrite IH. cbn [fold_left]. destruct octets as [|b' octets].
    + reflexivity.
    + rewrite fold_value_wrap. reflexivity.
Qed.

Lemma tlv_length_long_short (count : nat) :
  forall len der,
    (List.length der < count)%nat ->
    tlv_length_long count len der = Err GPG_ERR_BAD_BER.
Proof.
  induction count as [|count IH]; intros len der Hlen.
  - lia.
  - cbn [tlv_length_long]. destruct der as [|b der]; [reflexivity|].
    apply IH. cbn [List.length] in Hlen. lia.
Qed.

Lemma land_128_127 (b : byte) :
  Z.land (byte_val b) 128 = (if byte_val b <? 128 then 0 else 128) /\
  Z.land (byte_val b) 127 =
    (if byte_val b <? 128 then byte_val b else byte_val b - 128).
Proof. destruct b; split; reflexivity. Qed.

Lemma derlen_app (a b : list byte) : derlen (a ++ b) = derlen a + derlen b.
Proof. unfold derlen. rewrite length_app. lia. Qed.

Lemma tlv_length_long_suffix (count : nat) :
  forall len der len' rest,
    tlv_length_long count len der = Ok (len', rest) ->
    exists octets,
      der = octets ++ rest /\ List.length octets = count.
Proof.
  induction count as [|count IH]; intros len der len' rest H.
  - cbn in H. injection H as <- <-. exists []. split; reflexivity.
  - cbn [tlv_length_long] in H. destruct der as [|c der]; [discriminate|].
    apply IH in H. destruct H as (octets & -> & Hlen).
    exists (c :: octets). split; [reflexivity|]. cbn. lia.
Qed.

(** X1.  A length that [TLV_LENGTH] accepts is not negative and not
    larger than the number of bytes left behind the length octets; the
    cursor has moved over the first length octet and, for a long form,
    over as many octets as its low seven bits say, and over nothing
    else. *)
Theorem TLV_LENGTH_within_buffer (der rest : list byte) (len : Z) :
  TLV_LENGTH der = Ok (len, rest) ->
  0 <= len <= derlen rest /\
  exists b octets,
    der = b :: octets ++ rest /\
    derlen octets = (if byte_val b <? 128 then 0 else byte_val b - 128).
Proof.
  intros H. split; [apply (TLV_LENGTH_bounds der rest len H)|].
  unfold TLV_LENGTH in H. destruct der as [|b der]; [discriminate|].
  exists b.
  destruct (byte_val b =? 128); [discriminate|].
  destruct (byte_val b =? 255); [discriminate|].
  destruct (land_128_127 b) as [H128 H127]. rewrite H128, H127 in H.
  destruct (byte_val b <? 128) eqn:Hb; cbn [Z.eqb] in H.
  - cbn [rbind] in H. destruct (byte_val b >? derlen der); [discriminate|].
    injection H as _ <-. exists []. split; reflexivity.
  - apply rbind_ok in H. destruct H as ([len' der''] & Hl & H).
    destruct (len' >? derlen der''); [discriminate|].
    injection H as _ <-.
    apply tlv_length_long_suffix in Hl. destruct Hl as (octets & -> & Hlen).
    exists octets. split; [reflexivity|].
    unfold derlen. rewrite Hlen. apply Z.ltb_ge in Hb. lia.
Qed.

Lemma TLV_LENGTH_within_buffer_witness :
  0 <= 258 <= derlen (repeat x00 300) /\
  exists b octets,
    x82 :: x01 :: x02 :: repeat x00 300 = b :: octets ++ repeat x00 300 /\
    derlen octets = (if byte_val b <? 128 then 0 else byte_val b - 128).
Proof.
  apply (TLV_LENGTH_within_buffer (x82 :: x01 :: x02 :: repeat x00 300)).
  reflexivity.
Defined.

Lemma TLV_LENGTH_short_form (b : byte) (rest : list byte) :
  byte_val b < 128 ->
  TLV_LENGTH (b :: rest) =
    if byte_val b >? derlen rest then Err GPG_ERR_INV_KEYINFO
    else Ok (byte_val b, rest).
Proof.
  intros Hb. destruct (land_128_127 b) as [H128 H127]. unfold TLV_LENGTH.
  rewrite Zeqb_false by lia. rewrite Zeqb_false by lia.
  rewrite H128. apply Z.ltb_lt in Hb. rewrite Hb. reflexivity.
Qed.

Lemma TLV_LENGTH_long_form (b : byte) (octets rest : list byte) :
  128 < byte_val b < 255 ->
  derlen octets = byte_val b - 128 ->
  TLV_LENGTH (b :: octets ++ rest) =
    if wrap_ulong (be_value octets) >? derlen rest
    then Err GPG_ERR_INV_KEYINFO
    else Ok (wrap_ulong (be_value octets), rest).
Proof.
  intros Hb Hlen. destruct (land_128_127 b) as [H128 H127].
  unfold TLV_LENGTH.
  rewrite Zeqb_false by lia. rewrite Zeqb_false by lia.
  rewrite H128, H127.
  assert (Hge : (byte_val b <? 128) = false) by (apply Z.ltb_ge; lia).
  rewrite Hge. cbn [Z.eqb].
  assert (Hc : Z.to_nat (byte_val b - 128) = List.length octets).
  { unfold derlen in Hlen. lia. }
  rewrite Hc, tlv_length_long_app. cbn [rbind].
  destruct octets as [|o octets]; [cbn in Hlen; lia|]. reflexivity.
Qed.

Lemma TLV_LENGTH_truncated (b : byte) (der : list byte) :
  128 < byte_val b < 255 ->
  derlen der < byte_val b - 128 ->
  TLV_LENGTH (b :: der) = Err GPG_ERR_BAD_BER.
Proof.
  intros Hb Hlen. destruct (land_128_127 b) as [H128 H127].
  unfold TLV_LENGTH.
  rewrite Zeqb_false by lia. rewrite Zeqb_false by lia.
  rewrite H128, H127.
  assert (Hge : (byte_val b <? 128) = false) by (apply Z.ltb_ge; lia).
  rewrite Hge. cbn [Z.eqb].
  rewrite tlv_length_long_short; [reflexivity|].
  unfold derlen in Hlen. lia.
Qed.

(** X2.  What [TLV_LENGTH] decodes.  At the end of the buffer it returns
    GPG_ERR_INV_KEYINFO.  A first octet below 128 is the length.  A first
    octet 0x81 to 0xfe is followed by that many length octets, which are
    read as an unsigned number, the most significant octet first, reduced
    modulo the size of [unsigned long]: leading zero octets are accepted.
    In both forms a length above the number of bytes left is
    GPG_ERR_INV_KEYINFO; a long form with fewer octets left than it
    announces is GPG_ERR_BAD_BER. *)
Theorem TLV_LENGTH_decodes (b : byte) :
  TLV_LENGTH [] = Err GPG_ERR_INV_KEYINFO /\
  (forall rest,
     byte_val b < 128 ->
     TLV_LENGTH (b :: rest) =
       if byte_val b >? derlen rest then Err GPG_ERR_INV_KEYINFO
       else Ok (byte_val b, rest)) /\
  (forall octets rest,
     128 < byte_val b < 255 ->
     derlen octets = byte_val b - 128 ->
     TLV_LENGTH (b :: octets ++ rest) =
       if wrap_ulong (be_value octets) >? derlen rest
       then Err GPG_ERR_INV_KEYINFO
       else Ok (wrap_ulong (be_value octets), rest)) /\
  (forall der,
     128 < byte_val b < 255 ->
     derlen der < byte_val b - 128 ->
     TLV_LENGTH (b :: der) = Err GPG_ERR_BAD_BER).
Proof.
  split; [reflexivity|]. split; [|split].
  - apply TLV_LENGTH_short_form.
  - apply TLV_LENGTH_long_form.
  - apply TLV_LENGTH_truncated.
Qed.

Lemma TLV_LENGTH_decodes_witness :
  TLV_LENGTH (x05 :: repeat x00 5) = Ok (5, repeat x00 5) /\
  TLV_LENGTH (x82 :: [x01; x02] ++ repeat x00 300)
    = Ok (258, repeat x00 300) /\
  TLV_LENGTH (x82 :: [x01]) = Err GPG_ERR_BAD_BER.
Proof.
  split; [|split].
  - exact (proj1 (proj2 (TLV_LENGTH_decodes x05)) (repeat x00 5) eq_refl).
  - exact (proj1 (proj2 (proj2 (TLV_LENGTH_decodes x82)))
             [x01; x02] (repeat x00 300) (conj eq_refl eq_refl) eq_refl).
  - exact (proj2 (proj2 (proj2 (TLV_LENGTH_decodes x82)))
             [x01] (conj eq_refl eq_refl) eq_refl).
Defined.

Lemma length_be_octets (count : nat) :
  forall n, List.length (be_octets count n) = count.
Proof.
  induction count as [|count IH]; intros n; cbn [be_octets].
  - reflexivity.
  - rewrite length_app, IH. cbn. lia.
Qed.

Lemma be_value_be_octets (count : nat) :
  forall n, 0 <= n -> be_value (be_octets count n) = n mod 256 ^ Z.of_nat count.
Proof.
  induction count as [|count IH]; intros n Hn.
  - cbn. symmetry. apply Z.mod_1_r.
  - cbn [be_octets]. rewrite be_value_app. cbn [fold_left].
    rewrite IH by (apply Z.div_pos; lia).
    rewrite byte_val_of_Z by (apply Z.mod_pos_bound; lia).
    rewrite Nat2Z.inj_succ, Z.pow_succ_r by lia.
    rewrite Z.rem_mul_r by lia. lia.
Qed.

Lemma octet_count_bounds (n : Z) :
  128 <= n < ULONG_MOD ->
  1 <= Z.of_nat (octet_count n) <= 8 /\ n < 256 ^ Z.of_nat (octet_count n).
Proof.
  intros Hn. unfold octet_count, ULONG_MOD, ULONG_BITS in *.
  assert (Hlog : 0 <= Z.log2 n < 64).
  { split; [apply Z.log2_nonneg|]. apply Z.log2_lt_pow2; lia. }
  assert (Hdiv : 0 <= Z.log2 n / 8 < 8).
  { split; [apply Z.div_pos; lia|]. apply Z.div_lt_upper_bound; lia. }
  rewrite Z2Nat.id by lia. split; [lia|].
  change 256 with (2 ^ 8). rewrite <- Z.pow_mul_r by lia.
  apply Z.log2_lt_pow2; [lia|].
  pose proof (Z.mul_div_le (Z.log2 n) 8 ltac:(lia)).
  pose proof (Z.mod_pos_bound (Z.log2 n) 8 ltac:(lia)).
  pose proof (Z.div_mod (Z.log2 n) 8 ltac:(lia)). lia.
Qed.

Lemma wrap_ulong_small (x : Z) : 0 <= x < ULONG_MOD -> wrap_ulong x = x.
Proof. intros H. apply Z.mod_small. exact H. Qed.

Lemma TLV_LENGTH_der_length_octets_gen (n : Z) (rest : list byte) :
  0 <= n < ULONG_MOD ->
  TLV_LENGTH (der_length_octets n ++ rest) =
    if n >? derlen rest then Err GPG_ERR_INV_KEYINFO else Ok (n, rest).
Proof.
  intros Hn. unfold der_length_octets.
  destruct (Z.ltb_spec n 128) as [Hs|Hl].
  - cbn [app]. rewrite TLV_LENGTH_short_form by (rewrite byte_val_of_Z; lia).
    rewrite byte_val_of_Z by lia. reflexivity.
  - destruct (octet_count_bounds n ltac:(lia)) as [Hk Hpow].
    cbn [app]. rewrite TLV_LENGTH_long_form.
    + rewrite be_value_be_octets by lia.
      rewrite (Z.mod_small n) by lia.
      rewrite wrap_ulong_small by lia. reflexivity.
    + rewrite byte_val_of_Z by lia. lia.
    + rewrite byte_val_of_Z by lia.
      unfold derlen. rewrite length_be_octets. lia.
Qed.

Lemma TLV_LENGTH_der_length_octets (n : Z) (rest : list byte) :
  0 <= n <= derlen rest -> n < ULONG_MOD ->
  TLV_LENGTH (der_length_octets n ++ rest) = Ok (n, rest).
Proof.
  intros Hn Hmax. rewrite TLV_LENGTH_der_length_octets_gen by lia.
  destruct (Z.gtb_spec n (derlen rest)); [lia|reflexivity].
Qed.

(** X3.  [TLV_LENGTH] reads back the DER length octets of every length
    that fits [unsigned long]: it returns the length and the cursor behind
    the length octets when that many bytes follow, and GPG_ERR_INV_KEYINFO
    when fewer follow. *)
Theorem TLV_LENGTH_round_trip (n : Z) (rest : list byte) :
  0 <= n < ULONG_MOD ->
  TLV_LENGTH (der_length_octets n ++ rest) =
    if n >? derlen rest then Err GPG_ERR_INV_KEYINFO else Ok (n, rest).
Proof. apply TLV_LENGTH_der_length_octets_gen. Qed.

Lemma TLV_LENGTH_round_trip_witness :
  der_length_octets 300 = [x82; x01; x2c] /\
  TLV_LENGTH (der_length_octets 300 ++ repeat x00 300)
    = Ok (300, repeat x00 300).
Proof.
  split; [reflexivity|].
  apply (TLV_LENGTH_round_trip 300 (repeat x00 300)).
  unfold ULONG_MOD, ULONG_BITS. lia.
Defined.

Lemma is_suffix_refl (der : list byte) : is_suffix der der.
Proof. exists []. reflexivity. Qed.

Lemma is_suffix_trans (a b c : list byte) :
  is_suffix a b -> is_suffix b c -> is_suffix a c.
Proof.
  intros (p & ->) (q & ->). exists (q ++ p). apply app_assoc.
Qed.

Lemma is_suffix_cons (b : byte) (der : list byte) : is_suffix der (b :: der).
Proof. exists [b]. reflexivity. Qed.

Lemma is_suffix_advance (n : Z) (der : list byte) :
  is_suffix (advance n der) der.
Proof.
  exists (firstn (Z.to_nat n) der). unfold advance.
  symmetry. apply firstn_skipn.
Qed.

Lemma is_suffix_derlen (rest der : list byte) :
  is_suffix rest der -> derlen rest <= derlen der.
Proof.
  intros (pre & ->). rewrite derlen_app. pose proof (derlen_nonneg pre). lia.
Qed.

Lemma advance_ptrdiff (rest der : list byte) :
  is_suffix rest der -> advance (ptrdiff der rest) der = rest.
Proof.
  intros (pre & ->). unfold advance, ptrdiff. rewrite derlen_app.
  replace (Z.to_nat (derlen pre + derlen rest - derlen rest))
    with (List.length pre) by (unfold derlen; lia).
  rewrite skipn_app, Nat.sub_diag, skipn_all. reflexivity.
Qed.

Lemma TLV_LENGTH_suffix (der rest : list byte) (len : Z) :
  TLV_LENGTH der = Ok (len, rest) -> is_suffix rest der.
Proof.
  intros H. unfold TLV_LENGTH in H. destruct der as [|b der]; [discriminate|].
  destruct (byte_val b =? 128); [discriminate|].
  destruct (byte_val b =? 255); [discriminate|].
  apply rbind_ok in H. destruct H as ([len' der''] & Hl & H).
  destruct (len' >? derlen der''); [discriminate|]. injection H as _ <-.
  apply (is_suffix_trans _ der); [|apply is_suffix_cons].
  destruct (Z.land (byte_val b) 128 =? 0).
  - injection Hl as _ <-. apply is_suffix_refl.
  - apply tlv_length_long_suffix in Hl. destruct Hl as (octets & -> & _).
    exists octets. reflexivity.
Qed.

Lemma get_algorithm_seq_suffix (with_parm : bool) (start : list byte)
    (s : algo_seq) :
  get_algorithm_seq with_parm start = Ok s -> is_suffix (as_der s) start.
Proof.
  unfold get_algorithm_seq. intros H.
  apply rbind_ok in H. destruct H as ((c0 & der0) & Hc0 & H).
  apply next_octet_ok in Hc0. destruct Hc0 as (b0 & -> & ->).
  destruct (byte_val b0 =? 48); [|discriminate]. simpl in H.
  apply rbind_ok in H. destruct H as ((seqlen & startseq) & Hseq & H).
  apply rbind_ok in H. destruct H as ((c1 & der1) & Hc1 & H).
  apply next_octet_ok in Hc1. destruct Hc1 as (b1 & -> & ->).
  destruct (byte_val b1 =? 6); [|discriminate]. simpl in H.
  apply rbind_ok in H. destruct H as ((oidlen & der2) & Hoid & H).
  pose proof (TLV_LENGTH_bounds _ _ _ Hoid) as (Holen & Hder2).
  set (der3 := advance oidlen der2) in *.
  assert (Hsuf3 : is_suffix der3 (b0 :: der0)).
  { apply (is_suffix_trans _ der2); [apply is_suffix_advance|].
    apply (is_suffix_trans _ der1); [apply (TLV_LENGTH_suffix _ _ _ Hoid)|].
    apply (is_suffix_trans _ (b1 :: der1)); [apply is_suffix_cons|].
    apply (is_suffix_trans _ der0); [apply (TLV_LENGTH_suffix _ _ _ Hseq)|].
    apply is_suffix_cons. }
  destruct (wrap_ulong _ =? 0).
  - injection H as <-. exact Hsuf3.
  - apply rbind_ok in H. destruct H as ((c2 & der4) & Hc2 & H).
    apply next_octet_ok in Hc2. destruct Hc2 as (b2 & Hder34 & ->).
    assert (Hsuf4 : is_suffix der4 (b0 :: der0)).
    { apply (is_suffix_trans _ der3); [|exact Hsuf3].
      rewrite Hder34. apply is_suffix_cons. }
    assert (Htlv : forall seqlen' pos record,
      get_algorithm_parm_tlv (b0 :: der0) der3 der4 seqlen'
        pos oidlen record = Ok s ->
      is_suffix (as_der s) (b0 :: der0)).
    { intros seqlen' pos record Hrec.
      apply get_algorithm_parm_tlv_inv in Hrec;
        [|rewrite Hder34, derlen_cons; lia].
      destruct Hrec as (len & rest & Hl & -> & _).
      apply (is_suffix_trans _ rest); [apply is_suffix_advance|].
      apply (is_suffix_trans _ der4); [|exact Hsuf4].
      apply (TLV_LENGTH_suffix _ _ _ Hl). }
    destruct (byte_val b2 =? 5).
    + apply rbind_ok in H. destruct H as ((c3 & der5) & Hc3 & H).
      apply next_octet_ok in Hc3. destruct Hc3 as (b3 & -> & ->).
      destruct (negb (byte_val b3 =? 0)); [discriminate|].
      injection H as <-. cbn [as_der].
      apply (is_suffix_trans _ (b3 :: der5)); [apply is_suffix_cons|].
      exact Hsuf4.
    + destruct (with_parm && (byte_val b2 =? 4)); [now apply Htlv in H|].
      destruct (with_parm && (byte_val b2 =? 6)); [now apply Htlv in H|].
      destruct (with_parm && (byte_val b2 =? 48)); now apply Htlv in H.
Qed.

Lemma get_algorithm_seq_layout (with_parm : bool) (start : list byte)
    (s : algo_seq) :
  get_algorithm_seq with_parm start = Ok s ->
  4 <= as_pos s /\ 0 <= as_len s /\
  as_pos s + as_len s <= ptrdiff start (as_der s) /\
  parm_recorded with_parm (as_pos s) (as_len s) (as_parm_pos s)
    (as_parm_len s) (as_parm_type s) (ptrdiff start (as_der s)).
Proof.
  unfold get_algorithm_seq. intros H.
  apply rbind_ok in H. destruct H as ((c0 & der0) & Hc0 & H).
  apply next_octet_ok in Hc0. destruct Hc0 as (b0 & -> & ->).
  destruct (byte_val b0 =? 48); [|discriminate]. simpl in H.
  apply rbind_ok in H. destruct H as ((seqlen & startseq) & Hseq & H).
  apply rbind_ok in H. destruct H as ((c1 & der1) & Hc1 & H).
  apply next_octet_ok in Hc1. destruct Hc1 as (b1 & -> & ->).
  destruct (byte_val b1 =? 6); [|discriminate]. simpl in H.
  apply rbind_ok in H. destruct H as ((oidlen & der2) & Hoid & H).
  pose proof (TLV_LENGTH_bounds _ _ _ Hseq) as (_ & Hstartseq).
  pose proof (TLV_LENGTH_bounds _ _ _ Hoid) as (Holen & Hder2).
  set (der3 := advance oidlen der2) in *.
  assert (Hder3 : derlen der3 = derlen der2 - oidlen)
    by (apply derlen_advance; lia).
  rewrite !derlen_cons in *.
  pose proof (derlen_nonneg der2) as Hnn2.
  set (pos := ptrdiff (b0 :: der0) der2) in *.
  assert (Hpos : pos = derlen der0 + 1 - derlen der2)
    by (unfold pos, ptrdiff; rewrite derlen_cons; reflexivity).
  assert (Hend : forall d, ptrdiff (b0 :: der0) d = derlen der0 + 1 - derlen d)
    by (intros d; unfold ptrdiff; rewrite derlen_cons; reflexivity).
  destruct (wrap_ulong _ =? 0).
  - injection H as <-.
    cbn [as_pos as_len as_der as_parm_pos as_parm_len as_parm_type].
    rewrite Hend.
    repeat split; try lia. left. repeat split.
  - apply rbind_ok in H. destruct H as ((c2 & der4) & Hc2 & H).
    apply next_octet_ok in Hc2. destruct Hc2 as (b2 & Hder34 & ->).
    assert (Hder4 : derlen der3 = derlen der4 + 1)
      by (rewrite Hder34; apply derlen_cons).
    assert (Htlv : forall seqlen' record,
      get_algorithm_parm_tlv (b0 :: der0) der3 der4 seqlen'
        pos oidlen record = Ok s ->
      as_pos s = pos /\ as_len s = oidlen /\
      exists len rest,
        0 <= len <= derlen rest /\ derlen rest < derlen der4 /\
        derlen (as_der s) = derlen rest - len /\
        (as_parm_pos s, as_parm_len s, as_parm_type s) =
          record (derlen der0 + 1 - derlen rest)
                 (derlen der0 + 1 - derlen der3)
                 (derlen der3 - derlen rest) len).
    { intros seqlen' record Hrec.
      apply get_algorithm_parm_tlv_inv in Hrec; [|lia].
      destruct Hrec as (len & rest & Hl & Hder & _ & _ & -> & -> & Hp).
      split; [reflexivity|]. split; [reflexivity|].
      apply TLV_LENGTH_bounds in Hl. exists len, rest.
      split; [lia|]. split; [lia|].
      split; [rewrite Hder; apply derlen_advance; lia|].
      rewrite Hp, !Hend. reflexivity. }
    destruct (byte_val b2 =? 5).
    + apply rbind_ok in H. destruct H as ((c3 & der5) & Hc3 & H).
      apply next_octet_ok in Hc3. destruct Hc3 as (b3 & -> & ->).
      destruct (negb (byte_val b3 =? 0)); [discriminate|].
      injection H as <-.
    cbn [as_pos as_len as_der as_parm_pos as_parm_len as_parm_type].
    rewrite Hend. rewrite derlen_cons in Hder4.
      repeat split; try lia. left. repeat split.
    + unfold parm_recorded, TYPE_OCTET_STRING, TYPE_OBJECT_ID, TYPE_SEQUENCE.
      destruct (with_parm && (byte_val b2 =? 4)) eqn:H4.
      { apply Htlv in H.
        destruct H as (-> & -> & len & rest & Hl & Hrest & Hd & Hp).
        injection Hp as -> -> ->. rewrite Hend.
        apply andb_prop in H4. destruct H4 as [-> _].
        repeat split; try lia. right.
        cbv [TYPE_OCTET_STRING TYPE_OBJECT_ID TYPE_SEQUENCE].
        repeat split; try reflexivity; lia. }
      destruct (with_parm && (byte_val b2 =? 6)) eqn:H6.
      { apply Htlv in H.
        destruct H as (-> & -> & len & rest & Hl & Hrest & Hd & Hp).
        injection Hp as -> -> ->. rewrite Hend.
        apply andb_prop in H6. destruct H6 as [-> _].
        repeat split; try lia. right.
        cbv [TYPE_OCTET_STRING TYPE_OBJECT_ID TYPE_SEQUENCE].
        repeat split; try reflexivity; lia. }
      destruct (with_parm && (byte_val b2 =? 48)) eqn:H48.
      { apply Htlv in H.
        destruct H as (-> & -> & len & rest & Hl & Hrest & Hd & Hp).
        injection Hp as -> -> ->. rewrite Hend.
        apply andb_prop in H48. destruct H48 as [-> _].
        repeat split; try lia. right.
        cbv [TYPE_OCTET_STRING TYPE_OBJECT_ID TYPE_SEQUENCE].
        repeat split; try reflexivity; lia. }
      apply Htlv in H.
      destruct H as (-> & -> & len & rest & Hl & Hrest & Hd & Hp).
      injection Hp as -> -> ->. rewrite Hend.
      repeat split; lia.
Qed.

Lemma get_algorithm_tail_inv (mode : Z) (start : list byte) (s : algo_seq)
    (a : algo_pos) :
  is_suffix (as_der s) start ->
  get_algorithm_tail mode start s = Ok a ->
  as_seqlen s = 0 /\
  r_pos a = as_pos s /\ r_len a = as_len s /\
  r_parm_pos a = as_parm_pos s /\ r_parm_len a = as_parm_len s /\
  r_parm_type a = as_parm_type s /\
  ptrdiff start (as_der s) <= r_nread a <= derlen start /\
  is_suffix (advance (r_nread a) start) (as_der s) /\
  (mode = 0 -> r_nread a = ptrdiff start (as_der s) /\ r_bitstr a = false).
Proof.
  intros Hsuf H. unfold get_algorithm_tail in H.
  destruct (as_seqlen s =? 0) eqn:Hzero; [|discriminate]. cbn [negb] in H.
  apply Z.eqb_eq in Hzero. split; [exact Hzero|].
  apply rbind_ok in H. destruct H as ((der & bitstr) & Hd & H).
  injection H as <-.
  cbn [r_nread r_pos r_len r_bitstr r_parm_pos r_parm_len r_parm_type].
  do 5 (split; [reflexivity|]).
  pose proof (is_suffix_derlen _ _ Hsuf) as Hle.
  destruct (mode =? 0) eqn:Hmode.
  - injection Hd as <- <-. pose proof (derlen_nonneg (as_der s)).
    split; [unfold ptrdiff; lia|].
    split; [rewrite advance_ptrdiff by exact Hsuf; apply is_suffix_refl|].
    intros _. split; reflexivity.
  - apply rbind_ok in Hd. destruct Hd as ((c & der1) & Hc & Hd).
    apply next_octet_ok in Hc. destruct Hc as (b & Hs & ->).
    destruct (negb _); [discriminate|].
    apply rbind_ok in Hd. destruct Hd as ((len & der2) & Hl & Hd).
    injection Hd as <- <-.
    pose proof (TLV_LENGTH_bounds _ _ _ Hl) as (Hlen & Hlt).
    assert (Hsuf2 : is_suffix der2 (as_der s)).
    { apply (is_suffix_trans _ der1); [apply (TLV_LENGTH_suffix _ _ _ Hl)|].
      rewrite Hs. apply is_suffix_cons. }
    rewrite Hs, derlen_cons in Hle.
    split; [unfold ptrdiff; rewrite Hs, derlen_cons; lia|].
    split.
    + rewrite advance_ptrdiff; [exact Hsuf2|].
      apply (is_suffix_trans _ (as_der s)); assumption.
    + intros ->. discriminate.
Qed.

(** X4.  The offsets that an accepting [get_algorithm] reports lie in
    the buffer, in both modes: the OID starts at offset 4 or later and ends
    at or before [nread], [nread] is at most the length of the buffer, and
    the parameter is either reported as absent (0, 0, 0) or is an OCTET
    STRING, an OID or a SEQUENCE that starts at or behind the end of the
    OID and ends at or before [nread]; a parameter is only reported when
    the three out-pointers were given. *)
Theorem get_algorithm_ranges (mode : Z) (with_parm : bool) (der : list byte)
    (a : algo_pos) :
  get_algorithm mode with_parm der = Ok a ->
  4 <= r_pos a /\ 0 <= r_len a /\
  r_pos a + r_len a <= r_nread a <= derlen der /\
  ((r_parm_pos a = 0 /\ r_parm_len a = 0 /\ r_parm_type a = 0) \/
   (with_parm = true /\ r_pos a + r_len a <= r_parm_pos a /\
    0 <= r_parm_len a /\ r_parm_pos a + r_parm_len a <= r_nread a /\
    (r_parm_type a = TYPE_OCTET_STRING \/ r_parm_type a = TYPE_OBJECT_ID
     \/ (r_parm_type a = TYPE_SEQUENCE /\ 2 <= r_parm_len a)))).
Proof.
  unfold get_algorithm. intros H.
  apply rbind_ok in H. destruct H as (s & Hs & H).
  pose proof (get_algorithm_seq_suffix _ _ _ Hs) as Hsuf.
  apply get_algorithm_seq_layout in Hs.
  destruct Hs as (Hpos & Hlen & Hend & Hparm).
  apply get_algorithm_tail_inv in H; [|exact Hsuf].
  destruct H as (_ & -> & -> & -> & -> & -> & Hn & _).
  split; [exact Hpos|]. split; [exact Hlen|]. split; [lia|].
  destruct Hparm as [Hp|(Hw & Hp1 & Hp2 & Hp3 & Hp4)].
  - left. exact Hp.
  - right. repeat split; try assumption. lia.
Qed.

Lemma get_algorithm_ranges_witness :
  let a := {| r_nread := 24; r_pos := 4; r_len := 7; r_bitstr := false;
              r_parm_pos := 11; r_parm_len := 13; r_parm_type := 16 |} in
  4 <= r_pos a /\ 0 <= r_len a /\
  r_pos a + r_len a <= r_nread a <= derlen ecdsa_with_specified_sha256 /\
  ((r_parm_pos a = 0 /\ r_parm_len a = 0 /\ r_parm_type a = 0) \/
   (true = true /\ r_pos a + r_len a <= r_parm_pos a /\
    0 <= r_parm_len a /\ r_parm_pos a + r_parm_len a <= r_nread a /\
    (r_parm_type a = TYPE_OCTET_STRING \/ r_parm_type a = TYPE_OBJECT_ID
     \/ (r_parm_type a = TYPE_SEQUENCE /\ 2 <= r_parm_len a)))).
Proof.
  exact (get_algorithm_ranges 0 true ecdsa_with_specified_sha256 _ eq_refl).
Defined.

Lemma get_algorithm_string_header (mode : Z) (with_parm : bool)
    (der : list byte) :
  mode <> 0 ->
  get_algorithm mode with_parm der =
    (a <- get_algorithm 0 with_parm der ;; string_header der a).
Proof.
  intros Hmode. unfold get_algorithm.
  destruct (get_algorithm_seq with_parm der) as [s|e] eqn:Hs; [|reflexivity].
  cbn [rbind]. apply get_algorithm_seq_suffix in Hs.
  unfold get_algorithm_tail.
  destruct (as_seqlen s =? 0); [|reflexivity]. cbn [negb].
  rewrite (Zeqb_false mode 0 Hmode). cbn [Z.eqb rbind].
  unfold string_header. cbn [r_nread r_pos r_len r_parm_pos r_parm_len
    r_parm_type].
  rewrite advance_ptrdiff by exact Hs.
  destruct (next_octet (as_der s)) as [[c d]|e]; [|reflexivity].
  cbn [rbind]. destruct (negb _); [reflexivity|].
  destruct (TLV_LENGTH d) as [[len d']|e]; reflexivity.
Qed.

(** X5.  In a mode other than 0, [get_algorithm] is [get_algorithm] of
    mode 0 followed by the header of a BIT STRING or OCTET STRING at the
    place where mode 0 has stopped: an accepted buffer has an
    AlgorithmIdentifier that mode 0 accepts, then the tag 0x03 or 0x04
    ([r_bitstr] says which) and a length that [TLV_LENGTH] accepts;
    [nread] is the offset of the content of the string, and the announced
    content lies in the buffer. *)
Theorem get_algorithm_mode_1_composes (mode : Z) (with_parm : bool)
    (der : list byte) :
  mode <> 0 ->
  get_algorithm mode with_parm der =
    (a <- get_algorithm 0 with_parm der ;; string_header der a) /\
  (forall a,
     get_algorithm mode with_parm der = Ok a ->
     exists a0 b len rest,
       get_algorithm 0 with_parm der = Ok a0 /\
       advance (r_nread a0) der = b :: advance (r_nread a0 + 1) der /\
       (byte_val b = 3 \/ byte_val b = 4) /\
       r_bitstr a = (byte_val b =? 3) /\
       TLV_LENGTH (advance (r_nread a0 + 1) der) = Ok (len, rest) /\
       rest = advance (r_nread a) der /\
       r_nread a + len <= derlen der).
Proof.
  intros Hmode. split; [apply get_algorithm_string_header; exact Hmode|].
  intros a H. rewrite get_algorithm_string_header in H by exact Hmode.
  apply rbind_ok in H. destruct H as (a0 & Ha0 & H).
  unfold string_header in H.
  apply rbind_ok in H. destruct H as ((c & d) & Hc & H).
  apply next_octet_ok in Hc. destruct Hc as (b & Hd & ->).
  destruct (negb _) eqn:Htag; [discriminate|].
  apply rbind_ok in H. destruct H as ((len & rest) & Hl & H).
  injection H as <-. cbn [r_nread r_bitstr].
  assert (Hnn : 0 <= r_nread a0).
  { unfold get_algorithm in Ha0.
    apply rbind_ok in Ha0. destruct Ha0 as (s & Hs & Ht).
    pose proof (get_algorithm_seq_suffix _ _ _ Hs) as Hsuf.
    apply get_algorithm_tail_inv in Ht; [|exact Hsuf].
    destruct Ht as (_ & _ & _ & _ & _ & _ & Hn & _).
    apply is_suffix_derlen in Hsuf. unfold ptrdiff in Hn. lia. }
  assert (Hadv : advance (r_nread a0 + 1) der = d).
  { unfold advance in *. rewrite Z2Nat.inj_add by lia.
    rewrite Nat.add_comm, <- skipn_skipn, Hd. reflexivity. }
  pose proof (is_suffix_advance (r_nread a0) der) as Hsuf0.
  assert (Hsuf : is_suffix rest der).
  { apply (is_suffix_trans _ d); [apply (TLV_LENGTH_suffix _ _ _ Hl)|].
    apply (is_suffix_trans _ (b :: d)); [apply is_suffix_cons|].
    rewrite <- Hd. exact Hsuf0. }
  exists a0, b, len, rest. rewrite Hadv.
  split; [exact Ha0|]. split; [exact Hd|].
  split.
  { apply negb_false_iff, orb_true_iff in Htag.
    destruct Htag as [Ht|Ht]; apply Z.eqb_eq in Ht; lia. }
  split; [reflexivity|]. split; [exact Hl|].
  split; [symmetry; apply advance_ptrdiff; exact Hsuf|].
  apply TLV_LENGTH_bounds in Hl. unfold ptrdiff. lia.
Qed.

Lemma get_algorithm_parm_tlv_clear
    (start startparm der : list byte) (seqlen pos oidlen : Z)
    (record : Z -> Z -> Z -> Z -> Z * Z * Z) :
  get_algorithm_parm_tlv start startparm der seqlen pos oidlen
    (fun _ _ _ _ => (0, 0, 0))
  = match get_algorithm_parm_tlv start startparm der seqlen pos oidlen
            record with
    | Ok s => Ok (clear_seq_parm s)
    | Err e => Err e
    end.
Proof.
  unfold get_algorithm_parm_tlv.
  destruct (TLV_LENGTH der) as [[len d]|e]; [|reflexivity].
  cbn [rbind]. destruct (record _ _ _ _) as [[ppos plen] ptype]. reflexivity.
Qed.

Lemma get_algorithm_seq_without_parm (start : list byte) :
  get_algorithm_seq false start =
    match get_algorithm_seq true start with
    | Ok s => Ok (clear_seq_parm s)
    | Err e => Err e
    end.
Proof.
  unfold get_algorithm_seq.
  destruct (next_octet start) as [[c0 d0]|e]; [|reflexivity]. cbn [rbind].
  destruct (negb (c0 =? 48)); [reflexivity|].
  destruct (TLV_LENGTH d0) as [[seqlen d1]|e]; [|reflexivity]. cbn [rbind].
  destruct (next_octet d1) as [[c1 d2]|e]; [|reflexivity]. cbn [rbind].
  destruct (negb (c1 =? 6)); [reflexivity|].
  destruct (TLV_LENGTH d2) as [[oidlen d3]|e]; [|reflexivity]. cbn [rbind].
  destruct (wrap_ulong _ =? 0); [reflexivity|].
  destruct (next_octet (advance oidlen d3)) as [[c2 d4]|e]; [|reflexivity].
  cbn [rbind]. destruct (c2 =? 5).
  - destruct (next_octet d4) as [[c3 d5]|e]; [|reflexivity]. cbn [rbind].
    destruct (negb (c3 =? 0)); reflexivity.
  - cbn [andb].
    destruct (c2 =? 4); [apply get_algorithm_parm_tlv_clear|].
    destruct (c2 =? 6); [apply get_algorithm_parm_tlv_clear|].
    destruct (c2 =? 48); apply get_algorithm_parm_tlv_clear.
Qed.

(** X6.  Whether the out-pointers for the parameter are given makes no
    difference to what [get_algorithm] accepts nor to [nread], the OID
    range and [r_bitstr]: without them the result is the one with them,
    with the parameter fields 0. *)
Theorem get_algorithm_without_parm (mode : Z) (der : list byte) :
  get_algorithm mode false der =
    match get_algorithm mode true der with
    | Ok a => Ok (clear_parm a)
    | Err e => Err e
    end.
Proof.
  unfold get_algorithm. rewrite get_algorithm_seq_without_parm.
  destruct (get_algorithm_seq true der) as [s|e]; [|reflexivity].
  cbn [rbind]. unfold get_algorithm_tail. cbn [clear_seq_parm as_seqlen
    as_der as_pos as_len as_parm_pos as_parm_len as_parm_type].
  destruct (negb (as_seqlen s =? 0)); [reflexivity|].
  destruct (mode =? 0); [reflexivity|].
  destruct (next_octet (as_der s)) as [[c d]|e]; [|reflexivity].
  cbn [rbind]. destruct (negb _); [reflexivity|].
  destruct (TLV_LENGTH d) as [[len d']|e]; reflexivity.
Qed.

Lemma get_algorithm_mode_1_composes_witness :
  get_algorithm 1 true rsapss_sigval_malformed_parameters =
    (a <- get_algorithm 0 true rsapss_sigval_malformed_parameters ;;
     string_header rsapss_sigval_malformed_parameters a).
Proof.
  apply (get_algorithm_mode_1_composes 1 true
           rsapss_sigval_malformed_parameters).
  discriminate.
Defined.

Lemma derlen_sub_buffer (der : list byte) (off len : Z) :
  0 <= off -> 0 <= len -> off + len <= derlen der ->
  derlen (sub_buffer der off len) = len.
Proof.
  intros Hoff Hlen Hle. unfold sub_buffer, derlen in *.
  rewrite length_firstn, length_skipn. lia.
Qed.

Lemma get_algorithm_layout (mode : Z) (with_parm : bool) (der : list byte)
    (a : algo_pos) :
  get_algorithm mode with_parm der = Ok a ->
  4 <= r_pos a /\ 0 <= r_len a /\
  r_pos a + r_len a <= r_nread a <= derlen der /\
  ((r_parm_pos a = 0 /\ r_parm_len a = 0 /\ r_parm_type a = 0) \/
   (with_parm = true /\ r_pos a + r_len a <= r_parm_pos a /\
    0 <= r_parm_len a /\ r_parm_pos a + r_parm_len a <= r_nread a /\
    (r_parm_type a = TYPE_OCTET_STRING \/ r_parm_type a = TYPE_OBJECT_ID
     \/ (r_parm_type a = TYPE_SEQUENCE /\ 2 <= r_parm_len a)))).
Proof.
  unfold get_algorithm. intros H.
  apply rbind_ok in H. destruct H as (s & Hs & H).
  pose proof (get_algorithm_seq_suffix _ _ _ Hs) as Hsuf.
  apply get_algorithm_seq_layout in Hs.
  destruct Hs as (Hpos & Hlen & Hend & Hparm).
  apply get_algorithm_tail_inv in H; [|exact Hsuf].
  destruct H as (_ & -> & -> & -> & -> & -> & Hn & _).
  split; [exact Hpos|]. split; [exact Hlen|]. split; [lia|].
  destruct Hparm as [Hp|(Hw & Hp1 & Hp2 & Hp3 & Hp4)].
  - left. exact Hp.
  - right. repeat split; try assumption. lia.
Qed.

Section AlgorithmIdentifierProperties.
Context {oid_ops : OidOps}.

(** X7.  A successful [_ksba_parse_algorithm_identifier2] reports an
    [nread] from 4 to the length of the buffer (the callers in
    cms-parser.c assert that it is not above the length), and its
    parameter is consistent: either NULL with the length 0, or, only when
    it was asked for, a copy of [r_parmlen] > 0 bytes of the buffer that
    lie inside the [nread] bytes read. *)
Theorem parse_algorithm_identifier2_parameter (want_parm : bool)
    (der : list byte) (ai : algo_ident) :
  _ksba_parse_algorithm_identifier2 want_parm der = Ok ai ->
  4 <= ai_nread ai <= derlen der /\
  match ai_parm ai with
  | None => ai_parmlen ai = 0
  | Some parm =>
      want_parm = true /\ 0 < ai_parmlen ai /\
      derlen parm = ai_parmlen ai /\
      exists off,
        4 <= off /\ off + ai_parmlen ai <= ai_nread ai /\
        parm = sub_buffer der off (ai_parmlen ai)
  end.
Proof.
  unfold _ksba_parse_algorithm_identifier2. intros H.
  apply rbind_ok in H. destruct H as (a & Ha & H).
  apply get_algorithm_layout in Ha.
  destruct Ha as (Hpos & Hlen & Hn & Hparm).
  destruct (ksba_oid_to_str _) as [oid|]; [|discriminate].
  destruct (_ && String.eqb oid "1.2.840.10045.4.3").
  - apply rbind_ok in H. destruct H as (b & _ & H).
    destruct (ksba_oid_to_str _) as [oid'|]; [|discriminate].
    injection H as <-. unfold algorithm_identifier_result.
    destruct want_parm; cbn; (split; [lia|reflexivity]).
  - injection H as <-. unfold algorithm_identifier_result.
    destruct want_parm; cbn [andb]; [|cbn; split; [lia|reflexivity]].
    destruct (r_parm_pos a =? 0) eqn:Hp0;
      [cbn; split; [lia|reflexivity]|].
    destruct (r_parm_len a =? 0) eqn:Hl0;
      [cbn; split; [lia|reflexivity]|].
    cbn [negb andb ai_parm ai_parmlen ai_nread].
    apply Z.eqb_neq in Hp0. apply Z.eqb_neq in Hl0.
    destruct Hparm as [(Hz & _)|(_ & Hp1 & Hp2 & Hp3 & _)]; [contradiction|].
    split; [lia|].
    split; [reflexivity|]. split; [lia|].
    split; [apply derlen_sub_buffer; lia|].
    exists (r_parm_pos a). split; [lia|]. split; [lia|reflexivity].
Qed.

End AlgorithmIdentifierProperties.

Lemma parse_algorithm_identifier2_parameter_witness :
  4 <= 14 <= derlen [x30; x0c; x06; x03; x2a; x86; x48; x04; x05;
                     x01; x02; x03; x04; x05] /\
  0 < 5 /\ derlen [x01; x02; x03; x04; x05] = 5.
Proof.
  pose proof (@parse_algorithm_identifier2_parameter model_oid_ops true
    [x30; x0c; x06; x03; x2a; x86; x48; x04; x05; x01; x02; x03; x04; x05]
    _ eq_refl) as H.
  cbn [ai_nread ai_parm ai_parmlen] in H.
  destruct H as (Hn & _ & Hpos & Hlen & _).
  split; [exact Hn|]. split; [exact Hpos|exact Hlen].
Defined.

Lemma TLV_LENGTH_der (content rest : list byte) :
  derlen content < ULONG_MOD ->
  TLV_LENGTH (der_length_octets (derlen content) ++ content ++ rest)
    = Ok (derlen content, content ++ rest).
Proof.
  intros H. apply TLV_LENGTH_der_length_octets; [|exact H].
  rewrite derlen_app. pose proof (derlen_nonneg content).
  pose proof (derlen_nonneg rest). lia.
Qed.

Lemma advance_app (a b : list byte) : advance (derlen a) (a ++ b) = b.
Proof.
  unfold advance, derlen. rewrite Nat2Z.id.
  rewrite skipn_app, Nat.sub_diag, skipn_all. reflexivity.
Qed.

Lemma sub_buffer_app (pre v rest : list byte) :
  sub_buffer (pre ++ v ++ rest) (derlen pre) (derlen v) = v.
Proof.
  unfold sub_buffer. fold (advance (derlen pre) (pre ++ v ++ rest)).
  rewrite advance_app. unfold derlen. rewrite Nat2Z.id.
  rewrite firstn_app, Nat.sub_diag, firstn_all. cbn. apply app_nil_r.
Qed.

Lemma derlen_der_tlv (t : byte) (v : list byte) :
  derlen (der_tlv t v)
    = 1 + derlen (der_length_octets (derlen v)) + derlen v.
Proof.
  unfold der_tlv. rewrite derlen_cons, derlen_app. lia.
Qed.

Lemma der_tlv_app (t : byte) (v rest : list byte) :
  der_tlv t v ++ rest = t :: der_length_octets (derlen v) ++ v ++ rest.
Proof. unfold der_tlv. cbn [app]. rewrite <- app_assoc. reflexivity. Qed.

Lemma ptrdiff_app (pre cur : list byte) : ptrdiff (pre ++ cur) cur = derlen pre.
Proof. unfold ptrdiff. rewrite derlen_app. lia. Qed.

Lemma derlen_der_algorithm_identifier (oid parm : list byte) :
  derlen (der_algorithm_identifier oid parm)
    = oid_offset oid parm + derlen oid + derlen parm.
Proof.
  unfold der_algorithm_identifier, oid_offset.
  rewrite derlen_der_tlv, derlen_app, derlen_der_tlv. lia.
Qed.

(** The cursor behind the OID. *)
Lemma get_algorithm_seq_oid (with_parm : bool) (oid parm rest : list byte) :
  derlen (der_tlv x06 oid ++ parm) < ULONG_MOD ->
  get_algorithm_seq with_parm (der_algorithm_identifier oid parm ++ rest) =
    let start := der_algorithm_identifier oid parm ++ rest in
    let pos := oid_offset oid parm in
    let oidlen := derlen oid in
    let der := parm ++ rest in
    let seqlen := derlen parm in
    if seqlen =? 0 then
      Ok {| as_der := der; as_seqlen := seqlen; as_pos := pos;
            as_len := oidlen;
            as_parm_pos := 0; as_parm_len := 0; as_parm_type := 0 |}
    else
      let startparm := der in
      '(c, der) <- next_octet der ;;
      if c =? 5 then
        '(c, der) <- next_octet der ;;
        if negb (c =? 0) then Err GPG_ERR_BAD_BER else
        Ok {| as_der := der; as_seqlen := wrap_ulong (seqlen - 2);
              as_pos := pos; as_len := oidlen;
              as_parm_pos := 0; as_parm_len := 0; as_parm_type := 0 |}
      else if with_parm && (c =? 4) then
        get_algorithm_parm_tlv start startparm der seqlen pos oidlen
          (fun value_off _ _ len => (value_off, len, TYPE_OCTET_STRING))
      else if with_parm && (c =? 6) then
        get_algorithm_parm_tlv start startparm der seqlen pos oidlen
          (fun value_off _ _ len => (value_off, len, TYPE_OBJECT_ID))
      else if with_parm && (c =? 48) then
        get_algorithm_parm_tlv start startparm der seqlen pos oidlen
          (fun _ tag_off nhdr len => (tag_off, len + nhdr, TYPE_SEQUENCE))
      else
        get_algorithm_parm_tlv start startparm der seqlen pos oidlen
          (fun _ _ _ _ => (0, 0, 0)).
Proof.
  intros Hfit. cbv zeta.
  assert (Hlen : derlen (der_tlv x06 oid ++ parm)
                 = 1 + derlen (der_length_octets (derlen oid))
                   + derlen oid + derlen parm).
  { rewrite derlen_app, derlen_der_tlv. lia. }
  pose proof (derlen_nonneg oid) as Hoid.
  pose proof (derlen_nonneg parm) as Hparm.
  pose proof (derlen_nonneg (der_length_octets (derlen oid))) as Hlo.
  remember (der_algorithm_identifier oid parm ++ rest) as start eqn:Hstart.
  assert (Hstart' : start =
    x30 :: der_length_octets (derlen (der_tlv x06 oid ++ parm))
      ++ (der_tlv x06 oid ++ parm) ++ rest).
  { rewrite Hstart. unfold der_algorithm_identifier. apply der_tlv_app. }
  assert (Hdiff : forall d, ptrdiff start d
            = oid_offset oid parm + derlen oid + derlen parm + derlen rest
              - derlen d).
  { intros d. unfold ptrdiff. rewrite Hstart, derlen_app,
      derlen_der_algorithm_identifier. lia. }
  unfold get_algorithm_seq.
  replace (next_octet start)
    with (Ok (48, der_length_octets (derlen (der_tlv x06 oid ++ parm))
                    ++ (der_tlv x06 oid ++ parm) ++ rest))
    by (rewrite Hstart'; reflexivity).
  cbn [rbind Z.eqb Pos.eqb negb].
  rewrite TLV_LENGTH_der by exact Hfit. cbn [rbind].
  rewrite <- app_assoc, der_tlv_app.
  cbn [next_octet rbind]. change (byte_val x06 =? 6) with true.
  cbn [negb]. rewrite TLV_LENGTH_der by lia. cbn [rbind].
  rewrite advance_app.
  assert (Hpos : ptrdiff start (oid ++ parm ++ rest) = oid_offset oid parm).
  { rewrite Hdiff, !derlen_app. lia. }
  rewrite Hpos.
  assert (Hseq : wrap_ulong
            (derlen (der_tlv x06 oid ++ parm)
             - ptrdiff (x06 :: der_length_octets (derlen oid)
                          ++ oid ++ parm ++ rest) (parm ++ rest))
          = derlen parm).
  { unfold ptrdiff. rewrite derlen_cons, !derlen_app, derlen_der_tlv.
    rewrite wrap_ulong_small; lia. }
  rewrite Hseq. reflexivity.
Qed.

Lemma ptrdiff_identifier (oid parm rest d : list byte) :
  ptrdiff (der_algorithm_identifier oid parm ++ rest) d
    = oid_offset oid parm + derlen oid + derlen parm + derlen rest
      - derlen d.
Proof.
  unfold ptrdiff. rewrite derlen_app, derlen_der_algorithm_identifier. lia.
Qed.

Lemma get_algorithm_der_no_parameter (with_parm : bool)
    (oid rest : list byte) :
  derlen (der_tlv x06 oid) < ULONG_MOD ->
  get_algorithm 0 with_parm (der_algorithm_identifier oid [] ++ rest) =
    Ok {| r_nread := derlen (der_algorithm_identifier oid []);
          r_pos := oid_offset oid []; r_len := derlen oid;
          r_bitstr := false;
          r_parm_pos := 0; r_parm_len := 0; r_parm_type := 0 |}.
Proof.
  intros Hfit. unfold get_algorithm.
  rewrite get_algorithm_seq_oid by (rewrite app_nil_r; exact Hfit).
  cbn [derlen List.length Z.of_nat Z.eqb rbind app].
  unfold get_algorithm_tail. cbn [as_seqlen Z.eqb negb rbind as_der as_pos
    as_len as_parm_pos as_parm_len as_parm_type].
  rewrite ptrdiff_identifier, derlen_der_algorithm_identifier.
  f_equal. f_equal. cbn [derlen List.length Z.of_nat]. lia.
Qed.

Lemma get_algorithm_der_null_parameter (with_parm : bool)
    (oid rest : list byte) :
  derlen (der_tlv x06 oid) + 2 < ULONG_MOD ->
  get_algorithm 0 with_parm
    (der_algorithm_identifier oid [x05; x00] ++ rest) =
    Ok {| r_nread := derlen (der_algorithm_identifier oid [x05; x00]);
          r_pos := oid_offset oid [x05; x00]; r_len := derlen oid;
          r_bitstr := false;
          r_parm_pos := 0; r_parm_len := 0; r_parm_type := 0 |}.
Proof.
  intros Hfit. unfold get_algorithm.
  rewrite get_algorithm_seq_oid
    by (rewrite derlen_app; change (derlen [x05; x00]) with 2; exact Hfit).
  change (derlen [x05; x00]) with 2.
  cbn [Z.eqb Pos.eqb app next_octet rbind].
  change (byte_val x05 =? 5) with true. cbv iota.
  change (byte_val x00 =? 0) with true. cbn [negb rbind].
  unfold get_algorithm_tail. cbn [as_seqlen as_der as_pos
    as_len as_parm_pos as_parm_len as_parm_type].
  change (wrap_ulong (2 - 2) =? 0) with true. cbn [Z.eqb negb rbind].
  rewrite ptrdiff_identifier, derlen_der_algorithm_identifier.
  f_equal. f_equal. change (derlen [x05; x00]) with 2. lia.
Qed.

Lemma get_algorithm_der_parameter (with_parm : bool) (t : byte)
    (oid v rest : list byte) :
  byte_val t <> 5 ->
  derlen (der_tlv x06 oid ++ der_tlv t v) < ULONG_MOD ->
  get_algorithm 0 with_parm
    (der_algorithm_identifier oid (der_tlv t v) ++ rest) =
    let '(ppos, plen, ptype) :=
      recorded_parameter with_parm t
        (oid_offset oid (der_tlv t v) + derlen oid)
        (1 + derlen (der_length_octets (derlen v))) (derlen v) in
    Ok {| r_nread := derlen (der_algorithm_identifier oid (der_tlv t v));
          r_pos := oid_offset oid (der_tlv t v); r_len := derlen oid;
          r_bitstr := false;
          r_parm_pos := ppos; r_parm_len := plen; r_parm_type := ptype |}.
Proof.
  intros Htag Hfit. unfold get_algorithm.
  rewrite get_algorithm_seq_oid by exact Hfit.
  pose proof (derlen_nonneg oid) as Hoid.
  pose proof (derlen_nonneg v) as Hv.
  pose proof (derlen_nonneg (der_length_octets (derlen v))) as Hlv.
  pose proof (derlen_nonneg (der_length_octets (derlen oid))) as Hlo.
  assert (Hfit' : 1 + derlen (der_length_octets (derlen oid)) + derlen oid
                  + (1 + derlen (der_length_octets (derlen v)) + derlen v)
                  < ULONG_MOD).
  { rewrite derlen_app, !derlen_der_tlv in Hfit. lia. }
  cbv zeta.
  rewrite Zeqb_false by (rewrite derlen_der_tlv; lia).
  rewrite (der_tlv_app t v rest). cbn [next_octet rbind].
  rewrite (Zeqb_false (byte_val t) 5) by exact Htag.
  assert (Htlv : forall record,
    get_algorithm_parm_tlv
      (der_algorithm_identifier oid (der_tlv t v) ++ rest)
      (t :: der_length_octets (derlen v) ++ v ++ rest)
      (der_length_octets (derlen v) ++ v ++ rest)
      (derlen (der_tlv t v)) (oid_offset oid (der_tlv t v)) (derlen oid)
      record
    = let '(ppos, plen, ptype) :=
        record (oid_offset oid (der_tlv t v) + derlen oid
                + (1 + derlen (der_length_octets (derlen v))))
               (oid_offset oid (der_tlv t v) + derlen oid)
               (1 + derlen (der_length_octets (derlen v))) (derlen v) in
      Ok {| as_der := rest; as_seqlen := 0;
            as_pos := oid_offset oid (der_tlv t v); as_len := derlen oid;
            as_parm_pos := ppos; as_parm_len := plen;
            as_parm_type := ptype |}).
  { intros record. unfold get_algorithm_parm_tlv.
    rewrite TLV_LENGTH_der by lia. cbn [rbind].
    rewrite advance_app, !ptrdiff_identifier.
    assert (Hnhdr : ptrdiff (t :: der_length_octets (derlen v) ++ v ++ rest)
                      (v ++ rest)
                    = 1 + derlen (der_length_octets (derlen v))).
    { unfold ptrdiff. rewrite derlen_cons, !derlen_app. lia. }
    rewrite Hnhdr.
    replace (oid_offset oid (der_tlv t v) + derlen oid
             + derlen (der_tlv t v) + derlen rest - derlen (v ++ rest))
      with (oid_offset oid (der_tlv t v) + derlen oid
            + (1 + derlen (der_length_octets (derlen v))))
      by (rewrite derlen_der_tlv, derlen_app; lia).
    replace (oid_offset oid (der_tlv t v) + derlen oid
             + derlen (der_tlv t v) + derlen rest
             - derlen (t :: der_length_octets (derlen v) ++ v ++ rest))
      with (oid_offset oid (der_tlv t v) + derlen oid)
      by (rewrite derlen_der_tlv, derlen_cons, !derlen_app; lia).
    destruct (record _ _ _ _) as [[ppos plen] ptype].
    f_equal. f_equal.
    rewrite wrap_ulong_sub, derlen_der_tlv.
    replace (_ - _) with 0 by lia. reflexivity. }
  assert (Htail : forall ppos plen ptype,
    get_algorithm_tail 0
      (der_algorithm_identifier oid (der_tlv t v) ++ rest)
      {| as_der := rest; as_seqlen := 0;
         as_pos := oid_offset oid (der_tlv t v); as_len := derlen oid;
         as_parm_pos := ppos; as_parm_len := plen; as_parm_type := ptype |}
    = Ok {| r_nread := derlen (der_algorithm_identifier oid (der_tlv t v));
            r_pos := oid_offset oid (der_tlv t v); r_len := derlen oid;
            r_bitstr := false;
            r_parm_pos := ppos; r_parm_len := plen; r_parm_type := ptype |}).
  { intros ppos plen ptype. unfold get_algorithm_tail.
    cbn [as_seqlen Z.eqb negb rbind as_der as_pos as_len as_parm_pos
         as_parm_len as_parm_type].
    rewrite ptrdiff_identifier, derlen_der_algorithm_identifier.
    f_equal. f_equal. lia. }
  unfold recorded_parameter.
  destruct (with_parm && (byte_val t =? 4));
    [rewrite Htlv; cbn [rbind]; apply Htail|].
  destruct (with_parm && (byte_val t =? 6));
    [rewrite Htlv; cbn [rbind]; apply Htail|].
  destruct (with_parm && (byte_val t =? 48));
    [rewrite Htlv; cbn [rbind]; rewrite Htail; do 2 f_equal; lia|].
  rewrite Htlv. cbn [rbind]. apply Htail.
Qed.

Lemma sub_buffer_at (pre v rest : list byte) (off len : Z) :
  off = derlen pre -> len = derlen v ->
  sub_buffer (pre ++ v ++ rest) off len = v.
Proof. intros -> ->. apply sub_buffer_app. Qed.

Lemma identifier_oid_split (oid parm rest : list byte) :
  der_algorithm_identifier oid parm ++ rest =
    (x30 :: der_length_octets (derlen (der_tlv x06 oid ++ parm))
       ++ x06 :: der_length_octets (derlen oid))
    ++ oid ++ parm ++ rest.
Proof.
  unfold der_algorithm_identifier, der_tlv. cbn [app]. f_equal.
  repeat (rewrite <- app_assoc; cbn [app]). reflexivity.
Qed.

Lemma sub_buffer_identifier_oid (oid parm rest : list byte) :
  sub_buffer (der_algorithm_identifier oid parm ++ rest)
    (oid_offset oid parm) (derlen oid) = oid.
Proof.
  rewrite identifier_oid_split. apply sub_buffer_at; [|reflexivity].
  unfold oid_offset. repeat (rewrite derlen_cons || rewrite derlen_app). lia.
Qed.

Lemma sub_buffer_identifier_value (t : byte) (oid v rest : list byte) :
  sub_buffer (der_algorithm_identifier oid (der_tlv t v) ++ rest)
    (oid_offset oid (der_tlv t v) + derlen oid
     + (1 + derlen (der_length_octets (derlen v))))
    (derlen v) = v.
Proof.
  rewrite identifier_oid_split, (der_tlv_app t v rest).
  replace ((x30 :: der_length_octets
                     (derlen (der_tlv x06 oid ++ der_tlv t v))
              ++ x06 :: der_length_octets (derlen oid))
           ++ oid ++ t :: der_length_octets (derlen v) ++ v ++ rest)
    with (((x30 :: der_length_octets
                     (derlen (der_tlv x06 oid ++ der_tlv t v))
              ++ x06 :: der_length_octets (derlen oid))
           ++ oid ++ t :: der_length_octets (derlen v)) ++ v ++ rest).
  - apply sub_buffer_at; [|reflexivity].
    unfold oid_offset.
    repeat (rewrite derlen_cons || rewrite derlen_app). lia.
  - rewrite <- !app_assoc. cbn [app]. rewrite <- !app_assoc. reflexivity.
Qed.

Lemma sub_buffer_identifier_parameter (oid parm rest : list byte) :
  sub_buffer (der_algorithm_identifier oid parm ++ rest)
    (oid_offset oid parm + derlen oid) (derlen parm) = parm.
Proof.
  rewrite identifier_oid_split.
  rewrite (app_assoc _ oid (parm ++ rest)).
  apply sub_buffer_at; [|reflexivity].
  unfold oid_offset.
  repeat (rewrite derlen_cons || rewrite derlen_app). lia.
Qed.

Lemma der_length_octets_pos (n : Z) : 1 <= derlen (der_length_octets n).
Proof.
  unfold der_length_octets. destruct (n <? 128).
  - cbn. lia.
  - rewrite derlen_cons. pose proof (derlen_nonneg (be_octets (octet_count n) n)).
    lia.
Qed.

Section AlgorithmIdentifierRoundTrip.
Context {oid_ops : OidOps}.

(** X8.  [_ksba_parse_algorithm_identifier2] on the DER encoding of an
    AlgorithmIdentifier, followed by any bytes: it reads exactly the
    encoding and returns the string of the OID; without parameters or
    with NULL parameters it returns no parameter; for an OCTET STRING or
    OID parameter that is not empty it returns the content octets of the
    parameter (the IV of a content encryption algorithm); for a SEQUENCE
    parameter of an OID other than 1.2.840.10045.4.3 it returns the whole
    encoding of the SEQUENCE. *)
Theorem parse_algorithm_identifier2_der (oid v rest : list byte)
    (name : string) :
  ksba_oid_to_str oid = Some name ->
  derlen (der_tlv x06 oid) + derlen (der_tlv x04 v) < ULONG_MOD ->
  (forall want_parm,
     _ksba_parse_algorithm_identifier2 want_parm
       (der_algorithm_identifier oid [] ++ rest) =
       Ok {| ai_nread := derlen (der_algorithm_identifier oid []);
             ai_oid := name; ai_parm := None; ai_parmlen := 0 |} /\
     _ksba_parse_algorithm_identifier2 want_parm
       (der_algorithm_identifier oid [x05; x00] ++ rest) =
       Ok {| ai_nread := derlen (der_algorithm_identifier oid [x05; x00]);
             ai_oid := name; ai_parm := None; ai_parmlen := 0 |}) /\
  (forall t,
     t = x04 \/ t = x06 ->
     v <> [] ->
     _ksba_parse_algorithm_identifier2 true
       (der_algorithm_identifier oid (der_tlv t v) ++ rest) =
       Ok {| ai_nread := derlen (der_algorithm_identifier oid (der_tlv t v));
             ai_oid := name; ai_parm := Some v;
             ai_parmlen := derlen v |}) /\
  (name <> "1.2.840.10045.4.3"%string ->
   _ksba_parse_algorithm_identifier2 true
     (der_algorithm_identifier oid (der_tlv x30 v) ++ rest) =
     Ok {| ai_nread := derlen (der_algorithm_identifier oid (der_tlv x30 v));
           ai_oid := name; ai_parm := Some (der_tlv x30 v);
           ai_parmlen := derlen (der_tlv x30 v) |}).
Proof.
  intros Hname Hfit.
  pose proof (derlen_nonneg v) as Hv.
  pose proof (derlen_nonneg oid) as Hoid.
  pose proof (der_length_octets_pos (derlen v)) as Hlv.
  pose proof (der_length_octets_pos (derlen oid)) as Hlo.
  rewrite !derlen_der_tlv in Hfit.
  split; [|split].
  - intros want_parm. split.
    + unfold _ksba_parse_algorithm_identifier2.
      rewrite get_algorithm_der_no_parameter by (rewrite derlen_der_tlv; lia).
      cbn [rbind r_pos r_len r_nread r_parm_pos r_parm_len r_parm_type].
      rewrite sub_buffer_identifier_oid, Hname.
      cbn [Z.eqb negb andb]. unfold algorithm_identifier_result.
      cbn [Z.eqb negb andb]. rewrite andb_false_r. reflexivity.
    + unfold _ksba_parse_algorithm_identifier2.
      rewrite get_algorithm_der_null_parameter
        by (rewrite derlen_der_tlv; lia).
      cbn [rbind r_pos r_len r_nread r_parm_pos r_parm_len r_parm_type].
      rewrite sub_buffer_identifier_oid, Hname.
      cbn [Z.eqb negb andb]. unfold algorithm_identifier_result.
      cbn [Z.eqb negb andb]. rewrite andb_false_r. reflexivity.
  - intros t Ht Hne.
    assert (Hlen : derlen v <> 0).
    { destruct v; [contradiction|]. rewrite derlen_cons.
      pose proof (derlen_nonneg v). lia. }
    unfold _ksba_parse_algorithm_identifier2.
    rewrite get_algorithm_der_parameter;
      [|destruct Ht as [-> | ->]; discriminate
       |rewrite derlen_app, !derlen_der_tlv; lia].
    assert (Hrec : exists ty,
      recorded_parameter true t
        (oid_offset oid (der_tlv t v) + derlen oid)
        (1 + derlen (der_length_octets (derlen v))) (derlen v)
      = (oid_offset oid (der_tlv t v) + derlen oid
         + (1 + derlen (der_length_octets (derlen v))), derlen v, ty)
      /\ ty <> TYPE_SEQUENCE).
    { destruct Ht as [-> | ->].
      - exists TYPE_OCTET_STRING. split; [reflexivity|discriminate].
      - exists TYPE_OBJECT_ID. split; [reflexivity|discriminate]. }
    destruct Hrec as (ty & -> & Hty).
    cbn [rbind r_pos r_len r_nread r_parm_pos r_parm_len r_parm_type].
    rewrite sub_buffer_identifier_oid, Hname.
    rewrite (Zeqb_false ty TYPE_SEQUENCE Hty).
    rewrite andb_false_r. cbn [andb].
    unfold algorithm_identifier_result.
    assert (Hoff : oid_offset oid (der_tlv t v) + derlen oid
                   + (1 + derlen (der_length_octets (derlen v))) <> 0).
    { unfold oid_offset.
      pose proof (derlen_nonneg
        (der_length_octets (derlen (der_tlv x06 oid ++ der_tlv t v)))).
      lia. }
    rewrite (Zeqb_false _ 0 Hoff), (Zeqb_false _ 0 Hlen). cbn [negb andb].
    rewrite sub_buffer_identifier_value. reflexivity.
  - intros Hneq.
    unfold _ksba_parse_algorithm_identifier2.
    rewrite get_algorithm_der_parameter;
      [|discriminate|rewrite derlen_app, !derlen_der_tlv; lia].
    change (recorded_parameter true x30
              (oid_offset oid (der_tlv x30 v) + derlen oid)
              (1 + derlen (der_length_octets (derlen v))) (derlen v))
      with (oid_offset oid (der_tlv x30 v) + derlen oid,
            derlen v + (1 + derlen (der_length_octets (derlen v))),
            TYPE_SEQUENCE).
    cbn [rbind r_pos r_len r_nread r_parm_pos r_parm_len r_parm_type].
    rewrite sub_buffer_identifier_oid, Hname.
    apply String.eqb_neq in Hneq. rewrite Hneq, andb_false_r.
    unfold algorithm_identifier_result.
    assert (Hoff : oid_offset oid (der_tlv x30 v) + derlen oid <> 0).
    { unfold oid_offset.
      pose proof (derlen_nonneg
        (der_length_octets (derlen (der_tlv x06 oid ++ der_tlv x30 v)))).
      lia. }
    assert (Hlen : derlen v + (1 + derlen (der_length_octets (derlen v)))
                   <> 0) by lia.
    rewrite (Zeqb_false _ 0 Hoff), (Zeqb_false _ 0 Hlen). cbn [negb andb].
    replace (derlen v + (1 + derlen (der_length_octets (derlen v))))
      with (derlen (der_tlv x30 v)) by (rewrite derlen_der_tlv; lia).
    rewrite sub_buffer_identifier_parameter. reflexivity.
Qed.

End AlgorithmIdentifierRoundTrip.

Lemma string_header_der (alg : list byte) (a : algo_pos) (t : byte)
    (content rest : list byte) :
  r_nread a = derlen alg ->
  t = x03 \/ t = x04 ->
  derlen content < ULONG_MOD ->
  string_header (alg ++ der_tlv t content ++ rest) a =
    Ok {| r_nread :=
            derlen alg + 1 + derlen (der_length_octets (derlen content));
          r_pos := r_pos a; r_len := r_len a;
          r_bitstr := byte_val t =? 3;
          r_parm_pos := r_parm_pos a; r_parm_len := r_parm_len a;
          r_parm_type := r_parm_type a |}.
Proof.
  intros Hn Ht Hfit. unfold string_header.
  rewrite Hn, advance_app, der_tlv_app. cbn [next_octet rbind].
  assert (Htag : negb ((byte_val t =? 3) || (byte_val t =? 4)) = false)
    by (destruct Ht as [-> | ->]; reflexivity).
  rewrite Htag. rewrite TLV_LENGTH_der by exact Hfit. cbn [rbind].
  f_equal. f_equal. unfold ptrdiff.
  repeat (rewrite derlen_cons || rewrite derlen_app). lia.
Qed.

Lemma advance_string_header (alg : list byte) (t : byte)
    (content rest : list byte) :
  advance (derlen alg + 1 + derlen (der_length_octets (derlen content)))
    (alg ++ der_tlv t content ++ rest) = content ++ rest.
Proof.
  rewrite der_tlv_app.
  replace (alg ++ t :: der_length_octets (derlen content) ++ content ++ rest)
    with ((alg ++ t :: der_length_octets (derlen content))
          ++ content ++ rest)
    by (rewrite <- app_assoc; reflexivity).
  replace (derlen alg + 1 + derlen (der_length_octets (derlen content)))
    with (derlen (alg ++ t :: der_length_octets (derlen content)))
    by (rewrite derlen_app, derlen_cons; lia).
  apply advance_app.
Qed.

(** One step of the element loop at an encoded element. *)
Lemma walk_elements_der (e : ascii) (elem : string) (t : byte)
    (ctrl v rest : list byte) (sb : stringbuf) :
  Z.land (byte_val t) 128 = 0 \/ elem <> EmptyString ->
  derlen v < ULONG_MOD ->
  walk_elements (String e elem) (t :: ctrl) (der_tlv t v ++ rest) sb =
    if (byte_val t =? 2) && negb (Ascii.eqb e "-")
    then walk_elements elem ctrl rest
           (sb ++ canonical (SList [Atom (list_byte_of_string
                                            (String e EmptyString));
                                    Atom v]))
    else walk_elements elem ctrl (v ++ rest) sb.
Proof.
  intros Hraw Hfit. cbn [walk_elements hd tl].
  assert (Hnot : negb (Z.land (byte_val t) 128 =? 0)
                 && (String.length elem =? 0)%nat = false).
  { destruct Hraw as [-> | Hne]; [reflexivity|].
    destruct elem; [contradiction|]. apply andb_false_r. }
  rewrite Hnot, der_tlv_app. cbn [next_octet rbind].
  rewrite Z.eqb_refl. cbn [negb].
  rewrite TLV_LENGTH_der by exact Hfit. cbn [rbind].
  destruct ((byte_val t =? 2) && negb (Ascii.eqb e "-")); [|reflexivity].
  rewrite advance_app.
  replace (sub_buffer (v ++ rest) 0 (derlen v)) with v
    by (symmetry; apply (sub_buffer_app [] v rest)).
  f_equal. unfold put_stringbuf, put_stringbuf_sexp, put_stringbuf_mem_sexp.
  cbn [canonical]. repeat rewrite <- app_assoc. reflexivity.
Qed.

(** The last element of a control string with bit 8 set is the raw rest
    of the buffer. *)
Lemma walk_elements_raw (e : ascii) (t : byte) (ctrl der : list byte)
    (sb : stringbuf) :
  Z.land (byte_val t) 128 <> 0 ->
  walk_elements (String e EmptyString) (t :: ctrl) der sb =
    if negb (Ascii.eqb e "-")
    then Ok ([], sb ++ canonical (SList [Atom (list_byte_of_string
                                                (String e EmptyString));
                                         Atom der]))
    else Ok (der, sb).
Proof.
  intros Hraw. cbn [walk_elements hd tl String.length Nat.eqb].
  rewrite (Zeqb_false _ 0 Hraw). cbn [negb andb rbind].
  destruct (negb (Ascii.eqb e "-")); [|reflexivity].
  f_equal. f_equal.
  - unfold advance, derlen. rewrite Nat2Z.id. apply skipn_all.
  - unfold sub_buffer, derlen. rewrite Nat2Z.id. cbn [Z.to_nat skipn].
    rewrite firstn_all.
    unfold put_stringbuf, put_stringbuf_sexp, put_stringbuf_mem_sexp.
    cbn [canonical]. repeat rewrite <- app_assoc. reflexivity.
Qed.

Lemma get_algorithm_1_der (a : algo_pos) (alg : list byte) (t : byte)
    (content rest : list byte) :
  get_algorithm 0 true (alg ++ der_tlv t content ++ rest) = Ok a ->
  r_nread a = derlen alg ->
  t = x03 \/ t = x04 ->
  derlen content < ULONG_MOD ->
  get_algorithm 1 true (alg ++ der_tlv t content ++ rest) =
    Ok {| r_nread :=
            derlen alg + 1 + derlen (der_length_octets (derlen content));
          r_pos := r_pos a; r_len := r_len a;
          r_bitstr := byte_val t =? 3;
          r_parm_pos := r_parm_pos a; r_parm_len := r_parm_len a;
          r_parm_type := r_parm_type a |}.
Proof.
  intros Ha Hn Ht Hfit.
  rewrite get_algorithm_string_header by discriminate.
  rewrite Ha. cbn [rbind]. apply string_header_der; assumption.
Qed.

Ltac derlen_facts :=
  repeat match goal with
  | |- context [derlen ?t] =>
      lazymatch goal with
      | _ : 0 <= derlen t |- _ => fail
      | _ => pose proof (derlen_nonneg t)
      end
  | _ : context [derlen ?t] |- _ =>
      lazymatch goal with
      | _ : 0 <= derlen t |- _ => fail
      | _ => pose proof (derlen_nonneg t)
      end
  end.

Ltac derlen_lia :=
  repeat (rewrite derlen_cons in * || rewrite derlen_app in *
          || rewrite derlen_der_tlv in *);
  derlen_facts; lia.

Section KeyInfoRoundTrip.
Context {oid_ops : OidOps}.

Lemma keyinfo_to_sexp_rsa_value (n e rest : list byte) (unused : byte) :
  derlen (der_subject_public_key_info
            (der_algorithm_identifier rsaEncryption_oid [x05; x00])
            unused (der_rsa_public_key n e)) < ULONG_MOD ->
  _ksba_keyinfo_to_sexp
    (der_subject_public_key_info
       (der_algorithm_identifier rsaEncryption_oid [x05; x00])
       unused (der_rsa_public_key n e) ++ rest) =
    Ok (canonical
          (SList [Token "public-key";
                  SList [Token "rsa";
                         SList [Token "n"; Atom n];
                         SList [Token "e"; Atom e]]])).
Proof.
  intros Hfit.
  assert (Halg : derlen (der_algorithm_identifier rsaEncryption_oid
                           [x05; x00]) = 15) by reflexivity.
  set (alg := der_algorithm_identifier rsaEncryption_oid [x05; x00]) in *.
  unfold _ksba_keyinfo_to_sexp, der_subject_public_key_info,
    der_rsa_public_key in *.
  rewrite der_tlv_app. cbn [next_octet rbind].
  change (byte_val x30 =? 48) with true. cbn [negb].
  rewrite TLV_LENGTH_der by derlen_lia.
  cbn [rbind]. rewrite <- app_assoc.
  set (key := der_tlv x30 (der_tlv x02 n ++ der_tlv x02 e)) in *.
  assert (Ha0 : get_algorithm 0 true
                  (alg ++ der_tlv x03 (unused :: key) ++ rest)
                = Ok {| r_nread := 15; r_pos := 4; r_len := 9;
                        r_bitstr := false;
                        r_parm_pos := 0; r_parm_len := 0;
                        r_parm_type := 0 |}).
  { unfold alg. rewrite get_algorithm_der_null_parameter; [reflexivity|].
    vm_compute. reflexivity. }
  rewrite (get_algorithm_1_der _ _ _ _ _ Ha0 Halg (or_introl eq_refl))
    by (subst key; derlen_lia).
  cbn [rbind r_pos r_len r_nread r_bitstr r_parm_pos r_parm_len r_parm_type].
  replace (sub_buffer (alg ++ der_tlv x03 (unused :: key) ++ rest) 4 9)
    with rsaEncryption_oid
    by (symmetry;
        apply (sub_buffer_identifier_oid rsaEncryption_oid [x05; x00])).
  set (entry := lookup_algo pk_algo_table rsaEncryption_oid 9).
  vm_compute in entry. subst entry. cbv iota.
  cbn [supported Z.eqb Pos.eqb negb andb pkalgo algo_string elem_string
       ctrl_string parmelem_string parmctrl_string rbind].
  rewrite advance_string_header. cbn [app].
  change (byte_val x03 =? 3) with true.
  cbn [skip_unused_bits next_octet rbind].
  subst key.
  rewrite walk_elements_der; [|left; reflexivity|derlen_lia].
  change ((byte_val x30 =? 2) && negb (Ascii.eqb "-" "-")) with false.
  cbv iota. rewrite <- app_assoc.
  rewrite walk_elements_der; [|left; reflexivity|derlen_lia].
  change ((byte_val x02 =? 2) && negb (Ascii.eqb "n" "-")) with true.
  cbv iota.
  rewrite walk_elements_der; [|left; reflexivity|derlen_lia].
  change ((byte_val x02 =? 2) && negb (Ascii.eqb "e" "-")) with true.
  cbv iota. cbn [walk_elements rbind].
  f_equal. unfold put_stringbuf, put_stringbuf_sexp, put_stringbuf_mem_sexp,
    Token.
  cbn [canonical]. repeat rewrite <- app_assoc. reflexivity.
Qed.

(** X9.  [_ksba_keyinfo_to_sexp] on the SubjectPublicKeyInfo of an RSA
    key (rsaEncryption with NULL parameters, a BIT STRING with
    RSAPublicKey) returns the canonical form of
    (public-key (rsa (n <modulus>) (e <exponent>))) with the content octets
    of the two INTEGERs as they are; the octet with the number of unused
    bits and bytes that follow the SubjectPublicKeyInfo have no
    influence. *)
Theorem keyinfo_to_sexp_rsa (n e rest : list byte) (unused : byte) :
  derlen (der_subject_public_key_info
            (der_algorithm_identifier rsaEncryption_oid [x05; x00])
            unused (der_rsa_public_key n e)) < ULONG_MOD ->
  _ksba_keyinfo_to_sexp
    (der_subject_public_key_info
       (der_algorithm_identifier rsaEncryption_oid [x05; x00])
       unused (der_rsa_public_key n e) ++ rest) =
    Ok (canonical
          (SList [Token "public-key";
                  SList [Token "rsa";
                         SList [Token "n"; Atom n];
                         SList [Token "e"; Atom e]]])).
Proof. apply keyinfo_to_sexp_rsa_value. Qed.

End KeyInfoRoundTrip.

Lemma oid_offset_pos (oid parm : list byte) : 4 <= oid_offset oid parm.
Proof.
  unfold oid_offset.
  pose proof (der_length_octets_pos (derlen (der_tlv x06 oid ++ parm))).
  pose proof (der_length_octets_pos (derlen oid)). lia.
Qed.

Lemma derlen_ne_0 (v : list byte) : v <> [] -> derlen v <> 0.
Proof.
  destruct v; [contradiction|]. intros _. rewrite derlen_cons.
  pose proof (derlen_nonneg v). lia.
Qed.

Section EccKeyInfo.
Context {oid_ops : OidOps}.

(** X10.  [_ksba_keyinfo_to_sexp] on the SubjectPublicKeyInfo of an ECC
    key (ecPublicKey with the OID of a curve as parameter) returns
    (public-key (ecc (curve <dotted OID>) (q <point>))); the point is
    everything from behind the octet with the unused bits to the end of the
    buffer, so bytes that follow the SubjectPublicKeyInfo become part of
    it. *)
Theorem keyinfo_to_sexp_ecc (curve q rest : list byte) (unused : byte)
    (name : string) :
  curve <> [] ->
  ksba_oid_to_str curve = Some name ->
  derlen (der_subject_public_key_info
            (der_algorithm_identifier ecPublicKey_oid (der_tlv x06 curve))
            unused q) < ULONG_MOD ->
  _ksba_keyinfo_to_sexp
    (der_subject_public_key_info
       (der_algorithm_identifier ecPublicKey_oid (der_tlv x06 curve))
       unused q ++ rest) =
    Ok (canonical
          (SList [Token "public-key";
                  SList [Token "ecc";
                         SList [Token "curve"; Token name];
                         SList [Token "q"; Atom (q ++ rest)]]])).
Proof.
  intros Hcurve Hname Hfit.
  set (alg := der_algorithm_identifier ecPublicKey_oid (der_tlv x06 curve))
    in *.
  unfold _ksba_keyinfo_to_sexp, der_subject_public_key_info in *.
  rewrite der_tlv_app. cbn [next_octet rbind].
  change (byte_val x30 =? 48) with true. cbn [negb].
  rewrite TLV_LENGTH_der by derlen_lia.
  cbn [rbind]. rewrite <- app_assoc.
  pose proof (get_algorithm_der_parameter true x06 ecPublicKey_oid curve
                (der_tlv x03 (unused :: q) ++ rest)) as Ha0.
  fold alg in Ha0.
  change (recorded_parameter true x06
            (oid_offset ecPublicKey_oid (der_tlv x06 curve)
             + derlen ecPublicKey_oid)
            (1 + derlen (der_length_octets (derlen curve))) (derlen curve))
    with (oid_offset ecPublicKey_oid (der_tlv x06 curve)
          + derlen ecPublicKey_oid
          + (1 + derlen (der_length_octets (derlen curve))),
          derlen curve, TYPE_OBJECT_ID) in Ha0.
  cbv beta iota in Ha0.
  assert (Halgfit : derlen (der_tlv x06 ecPublicKey_oid ++ der_tlv x06 curve)
                    < ULONG_MOD).
  { unfold alg, der_algorithm_identifier in Hfit. derlen_lia. }
  specialize (Ha0 ltac:(discriminate) Halgfit).
  rewrite (get_algorithm_1_der _ _ _ _ _ Ha0 eq_refl (or_introl eq_refl))
    by derlen_lia.
  cbn [rbind r_pos r_len r_nread r_bitstr r_parm_pos r_parm_len r_parm_type].
  subst alg. rewrite sub_buffer_identifier_oid.
  set (entry := lookup_algo pk_algo_table ecPublicKey_oid
                  (derlen ecPublicKey_oid)).
  vm_compute in entry. subst entry. cbv iota.
  cbn [supported Z.eqb Pos.eqb negb andb pkalgo algo_string elem_string
       ctrl_string parmelem_string parmctrl_string rbind].
  pose proof (oid_offset_pos ecPublicKey_oid (der_tlv x06 curve)) as Hoff.
  pose proof (der_length_octets_pos (derlen curve)) as Hlc.
  pose proof (derlen_nonneg ecPublicKey_oid) as Hoid.
  rewrite (Zeqb_false (_ + _ + _) 0) by lia.
  rewrite (Zeqb_false (derlen curve) 0) by (apply derlen_ne_0; exact Hcurve).
  change (TYPE_OBJECT_ID =? TYPE_OBJECT_ID) with true.
  cbn [negb andb].
  rewrite sub_buffer_identifier_value, Hname.
  rewrite advance_string_header. cbn [app].
  change (byte_val x03 =? 3) with true.
  cbn [skip_unused_bits next_octet rbind pkalgo_is_ecc].
  rewrite walk_elements_raw by discriminate.
  change (negb (Ascii.eqb "q" "-")) with true. cbv iota. cbn [rbind].
  f_equal. unfold put_stringbuf, put_stringbuf_sexp, put_stringbuf_mem_sexp,
    Token.
  cbn [canonical]. repeat rewrite <- app_assoc. reflexivity.
Qed.

End EccKeyInfo.

Section EdwardsKeyInfo.
Context {oid_ops : OidOps}.

(** X11.  [_ksba_keyinfo_to_sexp] on a SubjectPublicKeyInfo with one of
    the OIDs 1.3.101.110 to 1.3.101.113 (X25519, X448, Ed25519, Ed448) and
    no parameters returns (public-key (ecc (q <key>))), without a curve
    item; the key is everything up to the end of the buffer. *)
Theorem keyinfo_to_sexp_edwards (last unused : byte) (q rest : list byte) :
  In last [x6e; x6f; x70; x71] ->
  derlen (der_subject_public_key_info
            (der_algorithm_identifier [x2b; x65; last] []) unused q)
    < ULONG_MOD ->
  _ksba_keyinfo_to_sexp
    (der_subject_public_key_info
       (der_algorithm_identifier [x2b; x65; last] []) unused q ++ rest) =
    Ok (canonical
          (SList [Token "public-key";
                  SList [Token "ecc";
                         SList [Token "q"; Atom (q ++ rest)]]])).
Proof.
  intros Hlast Hfit.
  assert (Halg : derlen (der_algorithm_identifier [x2b; x65; last] []) = 7)
    by reflexivity.
  set (alg := der_algorithm_identifier [x2b; x65; last] []) in *.
  unfold _ksba_keyinfo_to_sexp, der_subject_public_key_info in *.
  rewrite der_tlv_app. cbn [next_octet rbind].
  change (byte_val x30 =? 48) with true. cbn [negb].
  rewrite TLV_LENGTH_der by derlen_lia.
  cbn [rbind]. rewrite <- app_assoc.
  assert (Ha0 : get_algorithm 0 true
                  (alg ++ der_tlv x03 (unused :: q) ++ rest)
                = Ok {| r_nread := 7; r_pos := 4; r_len := 3;
                        r_bitstr := false;
                        r_parm_pos := 0; r_parm_len := 0;
                        r_parm_type := 0 |}).
  { unfold alg. rewrite get_algorithm_der_no_parameter; [reflexivity|].
    vm_compute. reflexivity. }
  rewrite (get_algorithm_1_der _ _ _ _ _ Ha0 Halg (or_introl eq_refl))
    by derlen_lia.
  cbn [rbind r_pos r_len r_nread r_bitstr r_parm_pos r_parm_len r_parm_type].
  replace (sub_buffer (alg ++ der_tlv x03 (unused :: q) ++ rest) 4 3)
    with [x2b; x65; last]
    by (symmetry; apply (sub_buffer_identifier_oid [x2b; x65; last] [])).
  assert (Hentry : exists entry,
    lookup_algo pk_algo_table [x2b; x65; last] 3 = Some entry /\
    supported entry = 1 /\ pkalgo_is_ecc (pkalgo entry) = false /\
    algo_string entry = "ecc"%string /\ elem_string entry = "q"%string /\
    ctrl_string entry = [x80]).
  { cbn [In] in Hlast.
    destruct Hlast as [<- | [<- | [<- | [<- | []]]]];
      (eexists; split; [vm_compute; reflexivity|]; repeat split). }
  destruct Hentry as (entry & -> & Hs & Hecc & Hname & Helem & Hctrl).
  rewrite Hs, Hname, Helem, Hctrl.
  cbn [Z.eqb Pos.eqb negb andb rbind].
  rewrite advance_string_header. cbn [app].
  change (byte_val x03 =? 3) with true.
  cbn [skip_unused_bits next_octet rbind].
  rewrite walk_elements_raw by discriminate.
  change (negb (Ascii.eqb "q" "-")) with true. cbv iota. cbn [rbind].
  f_equal. unfold put_stringbuf, put_stringbuf_sexp, put_stringbuf_mem_sexp,
    Token.
  cbn [canonical]. repeat rewrite <- app_assoc. reflexivity.
Qed.

End EdwardsKeyInfo.

Section RsaSigVal.
Context {ber_ops : BerHelpOps}.

Lemma cryptval_to_sexp_der (mode : Z) (entry : algo_table_s) (a : algo_pos)
    (alg : list byte) (t : byte) (content rest : list byte)
    (keyencralgo keywrapalgo : string) (encrkey : list byte) :
  get_algorithm 0 true (alg ++ der_tlv t content ++ rest) = Ok a ->
  r_nread a = derlen alg ->
  t = x03 \/ t = x04 ->
  derlen content < ULONG_MOD ->
  lookup_algo (if mode =? 0 then sig_algo_table else enc_algo_table)
    (sub_buffer (alg ++ der_tlv t content ++ rest) (r_pos a) (r_len a))
    (r_len a) = Some entry ->
  supported entry = 1 ->
  cryptval_to_sexp mode (alg ++ der_tlv t content ++ rest)
    keyencralgo keywrapalgo encrkey =
  cryptval_emit mode entry (alg ++ der_tlv t content ++ rest)
    {| r_nread :=
         derlen alg + 1 + derlen (der_length_octets (derlen content));
       r_pos := r_pos a; r_len := r_len a;
       r_bitstr := byte_val t =? 3;
       r_parm_pos := r_parm_pos a; r_parm_len := r_parm_len a;
       r_parm_type := r_parm_type a |} None 0
    keyencralgo keywrapalgo encrkey.
Proof.
  intros Ha Hn Ht Hfit Hentry Hs. unfold cryptval_to_sexp.
  rewrite (get_algorithm_1_der _ _ _ _ _ Ha Hn Ht Hfit).
  cbn [rbind r_pos r_len]. rewrite Hentry, Hs. cbn [Z.eqb Pos.eqb].
  unfold cryptval_pss. rewrite Hs.
  change (1 =? SUPPORTED_RSAPSS) with false. rewrite andb_false_r.
  reflexivity.
Qed.

Lemma sigval_to_sexp_rsa_value (entry : algo_table_s) (unused : byte)
    (sig rest : list byte) :
  lookup_algo sig_algo_table (oid entry) (derlen (oid entry)) = Some entry ->
  supported entry = 1 ->
  elem_string entry = "s"%string ->
  ctrl_string entry = [x82] ->
  derlen (der_algorithm_identifier (oid entry) [x05; x00]) < ULONG_MOD ->
  derlen sig + 1 < ULONG_MOD ->
  _ksba_sigval_to_sexp
    (der_algorithm_identifier (oid entry) [x05; x00]
     ++ der_tlv x03 (unused :: sig) ++ rest) =
    Ok (canonical
          (SList ([Token "sig-val";
                   SList [Token (algo_string entry);
                          SList [Token "s"; Atom (sig ++ rest)]]]
                  ++ hash_item entry))) /\
  _ksba_sigval_to_sexp
    (der_algorithm_identifier (oid entry) [x05; x00]
     ++ der_tlv x04 sig ++ rest) =
    Ok (canonical
          (SList ([Token "sig-val";
                   SList [Token (algo_string entry);
                          SList [Token "s"; Atom (sig ++ rest)]]]
                  ++ hash_item entry))).
Proof.
  intros Hentry Hs Helem Hctrl Hfit Hsig.
  assert (Ha0 : forall tail,
    get_algorithm 0 true
      (der_algorithm_identifier (oid entry) [x05; x00] ++ tail)
    = Ok {| r_nread := derlen (der_algorithm_identifier (oid entry)
                                 [x05; x00]);
            r_pos := oid_offset (oid entry) [x05; x00];
            r_len := derlen (oid entry); r_bitstr := false;
            r_parm_pos := 0; r_parm_len := 0; r_parm_type := 0 |}).
  { intros tail. apply get_algorithm_der_null_parameter.
    unfold der_algorithm_identifier in Hfit. derlen_lia. }
  assert (Hemit : forall sb0 : stringbuf,
    Ok (put_stringbuf
          (match digest_string entry with
           | Some digest =>
               put_stringbuf
                 (put_stringbuf_sexp (put_stringbuf
                    (put_stringbuf
                       (sb0 ++ canonical (SList [Atom (list_byte_of_string
                                                         "s");
                                                 Atom (sig ++ rest)]))
                       ")") "(4:hash") digest) ")"
           | None =>
               put_stringbuf
                 (sb0 ++ canonical (SList [Atom (list_byte_of_string "s");
                                           Atom (sig ++ rest)])) ")"
           end) ")")
    = Ok (sb0 ++ canonical (SList [Token "s"; Atom (sig ++ rest)])
          ++ list_byte_of_string ")"
          ++ (fix all (items : list sexp) : list byte :=
                match items with
                | [] => []
                | item :: items' => canonical item ++ all items'
                end) (hash_item entry)
          ++ list_byte_of_string ")") :> result stringbuf).
  { intros sb0. unfold hash_item.
    destruct (digest_string entry) as [digest|];
      unfold put_stringbuf, put_stringbuf_sexp, put_stringbuf_mem_sexp, Token;
      cbn [canonical]; repeat rewrite <- app_assoc; reflexivity. }
  split.
  - unfold _ksba_sigval_to_sexp.
    rewrite (cryptval_to_sexp_der 0 entry _ _ _ _ _ _ _ _ (Ha0 _) eq_refl
               (or_introl eq_refl));
      [|derlen_lia
       |cbn [r_pos r_len]; rewrite sub_buffer_identifier_oid; exact Hentry
       |exact Hs].
    unfold cryptval_emit. cbn [r_nread r_bitstr].
    rewrite advance_string_header. cbn [app].
    change (byte_val x03 =? 3) with true.
    cbn [skip_unused_bits next_octet rbind Z.eqb].
    rewrite Helem, Hctrl, walk_elements_raw by discriminate.
    change (negb (Ascii.eqb "s" "-")) with true. cbv iota. cbn [rbind].
    rewrite Hemit. f_equal.
    unfold put_stringbuf, put_stringbuf_sexp, put_stringbuf_mem_sexp, Token.
    cbn [canonical app]. repeat rewrite <- app_assoc. reflexivity.
  - unfold _ksba_sigval_to_sexp.
    rewrite (cryptval_to_sexp_der 0 entry _ _ _ _ _ _ _ _ (Ha0 _) eq_refl
               (or_intror eq_refl));
      [|derlen_lia
       |cbn [r_pos r_len]; rewrite sub_buffer_identifier_oid; exact Hentry
       |exact Hs].
    unfold cryptval_emit. cbn [r_nread r_bitstr].
    rewrite advance_string_header.
    change (byte_val x04 =? 3) with false.
    cbn [skip_unused_bits next_octet rbind Z.eqb].
    rewrite Helem, Hctrl, walk_elements_raw by discriminate.
    change (negb (Ascii.eqb "s" "-")) with true. cbv iota. cbn [rbind].
    rewrite Hemit. f_equal.
    unfold put_stringbuf, put_stringbuf_sexp, put_stringbuf_mem_sexp, Token.
    cbn [canonical app]. repeat rewrite <- app_assoc. reflexivity.
Qed.

(** X14.  [_ksba_sigval_to_sexp] on an RSA signature value (an algorithm
    of the signature table with the raw element s and NULL parameters,
    then the signature as BIT STRING or as OCTET STRING) returns
    (sig-val (rsa (s <signature>)) (hash <digest>)), the hash item only for
    an entry with a digest; the signature is everything up to the end of
    the buffer, behind the octet with the unused bits in the case of a BIT
    STRING. *)
Theorem sigval_to_sexp_rsa (entry : algo_table_s) (unused : byte)
    (sig rest : list byte) :
  lookup_algo sig_algo_table (oid entry) (derlen (oid entry)) = Some entry ->
  supported entry = 1 ->
  elem_string entry = "s"%string ->
  ctrl_string entry = [x82] ->
  derlen (der_algorithm_identifier (oid entry) [x05; x00]) < ULONG_MOD ->
  derlen sig + 1 < ULONG_MOD ->
  _ksba_sigval_to_sexp
    (der_algorithm_identifier (oid entry) [x05; x00]
     ++ der_tlv x03 (unused :: sig) ++ rest) =
    Ok (canonical
          (SList ([Token "sig-val";
                   SList [Token (algo_string entry);
                          SList [Token "s"; Atom (sig ++ rest)]]]
                  ++ hash_item entry))) /\
  _ksba_sigval_to_sexp
    (der_algorithm_identifier (oid entry) [x05; x00]
     ++ der_tlv x04 sig ++ rest) =
    Ok (canonical
          (SList ([Token "sig-val";
                   SList [Token (algo_string entry);
                          SList [Token "s"; Atom (sig ++ rest)]]]
                  ++ hash_item entry))).
Proof. apply sigval_to_sexp_rsa_value. Qed.

End RsaSigVal.

Section DsaSigVal.
Context {ber_ops : BerHelpOps}.

Lemma get_algorithm_0_no_parameter (oid tail : list byte) :
  derlen (der_algorithm_identifier oid []) < ULONG_MOD ->
  get_algorithm 0 true (der_algorithm_identifier oid [] ++ tail)
    = Ok {| r_nread := derlen (der_algorithm_identifier oid []);
            r_pos := oid_offset oid [];
            r_len := derlen oid; r_bitstr := false;
            r_parm_pos := 0; r_parm_len := 0; r_parm_type := 0 |}.
Proof.
  intros Hfit. apply get_algorithm_der_no_parameter.
  unfold der_algorithm_identifier in Hfit. derlen_lia.
Qed.

(** X15.  [_ksba_sigval_to_sexp] on a DSA or ECDSA signature value (an
    algorithm of the signature table with the elements r and s, without
    parameters, and a BIT STRING with SEQUENCE { r, s }) returns
    (sig-val (<algo> (r ..) (s ..)) (hash <digest>)) with the content
    octets of the two INTEGERs. *)
Theorem sigval_to_sexp_dsa (entry : algo_table_s) (unused : byte)
    (r s rest : list byte) :
  lookup_algo sig_algo_table (oid entry) (derlen (oid entry)) = Some entry ->
  supported entry = 1 ->
  elem_string entry = "-rs"%string ->
  ctrl_string entry = [x30; x02; x02] ->
  derlen (der_algorithm_identifier (oid entry) []) < ULONG_MOD ->
  derlen (der_dsa_signature r s) + 1 < ULONG_MOD ->
  _ksba_sigval_to_sexp
    (der_algorithm_identifier (oid entry) []
     ++ der_tlv x03 (unused :: der_dsa_signature r s) ++ rest) =
    Ok (canonical
          (SList ([Token "sig-val";
                   SList [Token (algo_string entry);
                          SList [Token "r"; Atom r];
                          SList [Token "s"; Atom s]]]
                  ++ hash_item entry))).
Proof.
  intros Hentry Hs Helem Hctrl Hfit Hsig.
  unfold _ksba_sigval_to_sexp.
  rewrite (cryptval_to_sexp_der 0 entry _ _ _ _ _ _ _ _
             (get_algorithm_0_no_parameter _ _ Hfit) eq_refl
             (or_introl eq_refl));
    [|derlen_lia
     |cbn [r_pos r_len]; rewrite sub_buffer_identifier_oid; exact Hentry
     |exact Hs].
  unfold cryptval_emit. cbn [r_nread r_bitstr].
  rewrite advance_string_header. cbn [app].
  change (byte_val x03 =? 3) with true.
  cbn [skip_unused_bits next_octet rbind Z.eqb].
  rewrite Helem, Hctrl. unfold der_dsa_signature in *.
  rewrite walk_elements_der; [|left; reflexivity|derlen_lia].
  change ((byte_val x30 =? 2) && negb (Ascii.eqb "-" "-")) with false.
  cbv iota. rewrite <- app_assoc.
  rewrite walk_elements_der; [|left; reflexivity|derlen_lia].
  change ((byte_val x02 =? 2) && negb (Ascii.eqb "r" "-")) with true.
  cbv iota.
  rewrite walk_elements_der; [|left; reflexivity|derlen_lia].
  change ((byte_val x02 =? 2) && negb (Ascii.eqb "s" "-")) with true.
  cbv iota. cbn [walk_elements rbind].
  f_equal. unfold hash_item.
  destruct (digest_string entry) as [digest|];
    unfold put_stringbuf, put_stringbuf_sexp, put_stringbuf_mem_sexp, Token;
    cbn [canonical app]; repeat rewrite <- app_assoc; reflexivity.
Qed.

(** X16.  [_ksba_sigval_to_sexp] on a signature value of Ed25519 or
    Ed448 (1.3.101.112, 1.3.101.113): the table has the elements "-rs" with
    the one control octet 0x80, so the first octet of the signature is
    compared with 0x80; a signature that starts with another octet is
    refused with GPG_ERR_UNEXPECTED_TAG, an empty one with
    GPG_ERR_INV_KEYINFO. *)
Theorem sigval_to_sexp_eddsa_refused (last unused : byte)
    (sig rest : list byte) :
  last = x70 \/ last = x71 ->
  derlen sig + 1 < ULONG_MOD ->
  (sig ++ rest = [] ->
   _ksba_sigval_to_sexp
     (der_algorithm_identifier [x2b; x65; last] []
      ++ der_tlv x03 (unused :: sig) ++ rest) = Err GPG_ERR_INV_KEYINFO) /\
  (forall b tail,
     sig ++ rest = b :: tail ->
     byte_val b <> 128 ->
     _ksba_sigval_to_sexp
       (der_algorithm_identifier [x2b; x65; last] []
        ++ der_tlv x03 (unused :: sig) ++ rest)
       = Err GPG_ERR_UNEXPECTED_TAG).
Proof.
  intros Hlast Hsig.
  assert (Hentry : exists entry,
    lookup_algo sig_algo_table [x2b; x65; last] 3 = Some entry /\
    supported entry = 1 /\ elem_string entry = "-rs"%string /\
    ctrl_string entry = [x80]).
  { destruct Hlast as [-> | ->];
      (eexists; split; [vm_compute; reflexivity|]; repeat split). }
  destruct Hentry as (entry & Hentry & Hs & Helem & Hctrl).
  assert (Hfit : derlen (der_algorithm_identifier [x2b; x65; last] [])
                 < ULONG_MOD) by reflexivity.
  assert (Hstart :
    _ksba_sigval_to_sexp
      (der_algorithm_identifier [x2b; x65; last] []
       ++ der_tlv x03 (unused :: sig) ++ rest) =
    ('(_, sb) <-
       walk_elements "-rs" [x80] (sig ++ rest)
         (put_stringbuf_sexp (put_stringbuf [] "(7:sig-val(")
            (algo_string entry)) ;;
     Ok (put_stringbuf
           (match digest_string entry with
            | Some digest =>
                put_stringbuf
                  (put_stringbuf_sexp
                     (put_stringbuf (put_stringbuf sb ")") "(4:hash")
                     digest) ")"
            | None => put_stringbuf sb ")"
            end) ")"))).
  { unfold _ksba_sigval_to_sexp.
    rewrite (cryptval_to_sexp_der 0 entry _ _ _ _ _ _ _ _
               (get_algorithm_0_no_parameter _ _ Hfit) eq_refl
               (or_introl eq_refl));
      [|derlen_lia
       |cbn [r_pos r_len]; rewrite sub_buffer_identifier_oid; exact Hentry
       |exact Hs].
    unfold cryptval_emit. cbn [r_nread r_bitstr].
    rewrite advance_string_header. cbn [app].
    change (byte_val x03 =? 3) with true.
    cbn [skip_unused_bits next_octet rbind Z.eqb].
    rewrite Helem, Hctrl. reflexivity. }
  split.
  - intros Hcontent. rewrite Hstart, Hcontent. reflexivity.
  - intros b tail Hcontent Hb. rewrite Hstart, Hcontent.
    cbn [walk_elements hd tl String.length Nat.eqb andb next_octet rbind].
    rewrite andb_false_r. cbn [next_octet rbind].
    change (byte_val x80) with 128.
    rewrite (Zeqb_false _ _ Hb). reflexivity.
Qed.

End DsaSigVal.

Lemma sub_buffer_all (der : list byte) : sub_buffer der 0 (derlen der) = der.
Proof.
  unfold sub_buffer, derlen. rewrite Nat2Z.id. cbn [Z.to_nat skipn].
  apply firstn_all.
Qed.

Section EncVal.
Context {ber_ops : BerHelpOps}.

(** X17.  [_ksba_encval_to_sexp] on rsaEncryption with NULL parameters
    and the encrypted key as OCTET STRING returns
    (enc-val (rsa (a <encrypted key>))); the value is everything up to the
    end of the buffer. *)
Theorem encval_to_sexp_rsa (key rest : list byte) :
  derlen key < ULONG_MOD ->
  _ksba_encval_to_sexp
    (der_algorithm_identifier rsaEncryption_oid [x05; x00]
     ++ der_tlv x04 key ++ rest) =
    Ok (canonical
          (SList [Token "enc-val";
                  SList [Token "rsa";
                         SList [Token "a"; Atom (key ++ rest)]]])).
Proof.
  intros Hfit. unfold _ksba_encval_to_sexp.
  assert (Ha0 : get_algorithm 0 true
                  (der_algorithm_identifier rsaEncryption_oid [x05; x00]
                   ++ der_tlv x04 key ++ rest)
                = Ok {| r_nread := 15; r_pos := 4; r_len := 9;
                        r_bitstr := false;
                        r_parm_pos := 0; r_parm_len := 0;
                        r_parm_type := 0 |}).
  { rewrite get_algorithm_der_null_parameter; [reflexivity|].
    vm_compute. reflexivity. }
  rewrite (cryptval_to_sexp_der 1
             (mk_algo "1.2.840.113549.1.1.1"%string rsaEncryption_oid 9
                1 PKALGO_RSA "rsa"%string "a"%string [x82] None None None)
             _ _ _ _ _ _ _ _ Ha0 eq_refl (or_intror eq_refl) Hfit);
    [|cbn [r_pos r_len];
      replace (sub_buffer _ 4 9) with rsaEncryption_oid
        by (symmetry;
            apply (sub_buffer_identifier_oid rsaEncryption_oid [x05; x00]));
      reflexivity
     |reflexivity].
  unfold cryptval_emit. cbn [r_nread r_bitstr].
  rewrite advance_string_header.
  change (byte_val x04 =? 3) with false.
  cbn [skip_unused_bits rbind Z.eqb Pos.eqb elem_string ctrl_string
       algo_string digest_string].
  rewrite walk_elements_raw by discriminate.
  change (negb (Ascii.eqb "a" "-")) with true. cbv iota. cbn [rbind].
  f_equal. unfold put_stringbuf, put_stringbuf_sexp, put_stringbuf_mem_sexp,
    Token.
  cbn [canonical app]. repeat rewrite <- app_assoc. reflexivity.
Qed.

(** X18.  [_ksba_encval_kari_to_sexp] returns an error of the helper
    that reads the [[1]] as it is, and GPG_ERR_INV_BER when the header is
    longer than the buffer; for an originator key with ecPublicKey and a
    BIT STRING behind the header it returns
    (enc-val (ecdh (e <key>) (s <encrypted key>)) (encr-algo ..)
    (wrap-algo ..)) with the three values of the caller. *)
Theorem encval_kari_to_sexp_ecdh (der : list byte)
    (keyencralgo keywrapalgo : string) (enckey : list byte) :
  (forall e,
     parse_context_tag der 1 = Err e ->
     _ksba_encval_kari_to_sexp der keyencralgo keywrapalgo enckey = Err e) /\
  (forall ti body,
     parse_context_tag der 1 = Ok (ti, body) ->
     derlen der < ti_nhdr ti ->
     _ksba_encval_kari_to_sexp der keyencralgo keywrapalgo enckey
       = Err GPG_ERR_INV_BER) /\
  (forall ti unused key,
     parse_context_tag der 1
       = Ok (ti, der_algorithm_identifier ecPublicKey_oid []
                 ++ der_tlv x03 (unused :: key)) ->
     derlen der - ti_nhdr ti
       = derlen (der_algorithm_identifier ecPublicKey_oid []
                 ++ der_tlv x03 (unused :: key)) ->
     derlen key + 1 < ULONG_MOD ->
     _ksba_encval_kari_to_sexp der keyencralgo keywrapalgo enckey =
       Ok (canonical
             (SList [Token "enc-val";
                     SList [Token "ecdh";
                            SList [Token "e"; Atom key];
                            SList [Token "s"; Atom enckey]];
                     SList [Token "encr-algo"; Token keyencralgo];
                     SList [Token "wrap-algo"; Token keywrapalgo]]))).
Proof.
  split; [|split].
  - intros e He. unfold _ksba_encval_kari_to_sexp. rewrite He. reflexivity.
  - intros ti body Hti Hlt. unfold _ksba_encval_kari_to_sexp.
    rewrite Hti. cbn [rbind]. apply Z.ltb_lt in Hlt. rewrite Hlt.
    reflexivity.
  - intros ti unused key Hti Hlen Hfit. unfold _ksba_encval_kari_to_sexp.
    rewrite Hti. cbn [rbind].
    assert (Hge : (derlen der <? ti_nhdr ti) = false).
    { apply Z.ltb_ge.
      pose proof (derlen_nonneg
        (der_algorithm_identifier ecPublicKey_oid []
         ++ der_tlv x03 (unused :: key))). lia. }
    rewrite Hge, Hlen, sub_buffer_all.
    rewrite <- (app_nil_r (der_tlv x03 (unused :: key))).
    assert (Ha0 : get_algorithm 0 true
                    (der_algorithm_identifier ecPublicKey_oid []
                     ++ der_tlv x03 (unused :: key) ++ [])
                  = Ok {| r_nread := 11; r_pos := 4; r_len := 7;
                          r_bitstr := false;
                          r_parm_pos := 0; r_parm_len := 0;
                          r_parm_type := 0 |}).
    { rewrite get_algorithm_der_no_parameter; [reflexivity|].
      vm_compute. reflexivity. }
    rewrite (cryptval_to_sexp_der 2
               (mk_algo "1.2.840.10045.2.1"%string ecPublicKey_oid 7
                  1 PKALGO_ECC "ecdh"%string "e"%string [x80]
                  None None None)
               _ _ _ _ _ _ _ _ Ha0 eq_refl (or_introl eq_refl));
      [|derlen_lia
       |cbn [r_pos r_len];
        replace (sub_buffer _ 4 7) with ecPublicKey_oid
          by (symmetry;
              apply (sub_buffer_identifier_oid ecPublicKey_oid []));
        reflexivity
       |reflexivity].
    unfold cryptval_emit. cbn [r_nread r_bitstr].
    rewrite advance_string_header. cbn [app].
    change (byte_val x03 =? 3) with true.
    cbn [skip_unused_bits next_octet rbind Z.eqb Pos.eqb elem_string
         ctrl_string algo_string digest_string].
    rewrite walk_elements_raw by discriminate.
    change (negb (Ascii.eqb "e" "-")) with true. cbv iota. cbn [rbind].
    rewrite app_nil_r.
    f_equal. unfold put_stringbuf, put_stringbuf_sexp,
      put_stringbuf_mem_sexp, Token.
    cbn [canonical app]. repeat rewrite <- app_assoc. reflexivity.
Qed.

End EncVal.

Lemma bytes_eqb_eq (a b : list byte) : bytes_eqb a b = true <-> a = b.
Proof.
  unfold bytes_eqb. destruct (list_eq_dec Byte.byte_eq_dec a b).
  - split; auto.
  - split; [discriminate|contradiction].
Qed.

Lemma lookup_algo_some (table : list algo_table_s) (oid_der : list byte)
    (len : Z) (entry : algo_table_s) :
  lookup_algo table oid_der len = Some entry ->
  exists before after,
    table = before ++ entry :: after /\
    algo_matches oid_der len entry /\
    Forall (fun e => ~ algo_matches oid_der len e) before.
Proof.
  induction table as [|e table IH]; intros H; [discriminate|].
  cbn [lookup_algo] in H.
  destruct ((len =? oidlen e) && bytes_eqb oid_der (oid e)) eqn:Hm.
  - injection H as <-. exists [], table.
    apply andb_prop in Hm. destruct Hm as [Hl Hb].
    apply Z.eqb_eq in Hl. apply bytes_eqb_eq in Hb.
    split; [reflexivity|]. split; [split; congruence|constructor].
  - apply IH in H. destruct H as (before & after & -> & Hmatch & Hall).
    exists (e :: before), after. split; [reflexivity|].
    split; [exact Hmatch|]. constructor; [|exact Hall].
    intros [Hl Hb]. apply andb_false_iff in Hm.
    destruct Hm as [Hm|Hm].
    + apply Z.eqb_neq in Hm. congruence.
    + assert (bytes_eqb oid_der (oid e) = true)
        by (apply bytes_eqb_eq; congruence).
      congruence.
Qed.

Lemma lookup_algo_none (table : list algo_table_s) (oid_der : list byte)
    (len : Z) :
  lookup_algo table oid_der len = None <->
  Forall (fun e => ~ algo_matches oid_der len e) table.
Proof.
  induction table as [|e table IH]; cbn [lookup_algo].
  - split; [constructor|reflexivity].
  - destruct ((len =? oidlen e) && bytes_eqb oid_der (oid e)) eqn:Hm.
    + split; [discriminate|]. intros H. inversion H as [|? ? Hne _]; subst.
      exfalso. apply Hne. apply andb_prop in Hm. destruct Hm as [Hl Hb].
      apply Z.eqb_eq in Hl. apply bytes_eqb_eq in Hb. split; congruence.
    + rewrite IH. split.
      * intros H. constructor; [|exact H]. intros [Hl Hb].
        apply andb_false_iff in Hm. destruct Hm as [Hm|Hm].
        -- apply Z.eqb_neq in Hm. congruence.
        -- assert (bytes_eqb oid_der (oid e) = true)
             by (apply bytes_eqb_eq; congruence).
           congruence.
      * intros H. inversion H; assumption.
Qed.

(** X19.  The table lookup of the converters stops at the first entry
    whose [oidlen] and OID bytes are those looked for, and finds nothing
    exactly when no entry has them.  In the signature table the entry
    2.16.840.1.101.3.4.3.2 (dsaWithSha256) has the same bytes as the entry
    before it, so no lookup returns it. *)
Theorem lookup_algo_first_match (table : list algo_table_s)
    (oid_der : list byte) (len : Z) :
  (forall entry,
     lookup_algo table oid_der len = Some entry ->
     exists before after,
       table = before ++ entry :: after /\
       algo_matches oid_der len entry /\
       Forall (fun e => ~ algo_matches oid_der len e) before) /\
  (lookup_algo table oid_der len = None <->
   Forall (fun e => ~ algo_matches oid_der len e) table) /\
  (forall entry,
     lookup_algo sig_algo_table oid_der len = Some entry ->
     oidstring entry <> "2.16.840.1.101.3.4.3.2"%string).
Proof.
  split; [|split].
  - intros entry. apply lookup_algo_some.
  - apply lookup_algo_none.
  - intros entry H Hname.
    assert (Hself : lookup_algo sig_algo_table (oid entry) (oidlen entry)
                    = Some entry).
    { pose proof (lookup_algo_some _ _ _ _ H) as (_ & _ & _ & (Hl & Ho) & _).
      rewrite Hl, Ho. exact H. }
    assert (Hin : In entry sig_algo_table).
    { apply lookup_algo_some in H. destruct H as (b & a & -> & _).
      apply in_or_app. right. left. reflexivity. }
    unfold sig_algo_table in Hin. cbn [In] in Hin.
    repeat (destruct Hin as [<- | Hin];
            [first [discriminate Hname | discriminate Hself]|]).
    exact Hin.
Qed.

(** The salt length loop reads an unsigned big-endian number into an
    [unsigned int]. *)
Lemma pss_saltlen_loop_value (octets : list byte) :
  forall saltlen rest,
    0 <= saltlen < 2 ^ 32 ->
    pss_saltlen_loop (List.length octets) saltlen (octets ++ rest) =
      match octets with
      | [] => saltlen
      | _ => wrap_uint (fold_left (fun a b => a * 256 + byte_val b)
                          octets saltlen)
      end.
Proof.
  assert (Hstep : forall s c, 0 <= c < 256 ->
    Z.lor (wrap_uint (Z.shiftl s 8)) (Z.land c 255) = wrap_uint (s * 256 + c)).
  { intros s c Hc. rewrite land_255 by exact Hc.
    rewrite Z.shiftl_mul_pow2 by lia. change (2 ^ 8) with 256.
    unfold wrap_uint.
    assert (Hm : (s * 256) mod 2 ^ 32 = 256 * (s mod 2 ^ 24)).
    { change (2 ^ 32) with (256 * 2 ^ 24). rewrite (Z.mul_comm s 256).
      rewrite Z.mul_mod_distr_l by lia. reflexivity. }
    rewrite lor_low_octet.
    - rewrite Hm.
      assert (0 <= s mod 2 ^ 24 < 2 ^ 24) by (apply Z.mod_pos_bound; lia).
      symmetry.
      rewrite <- (Z.mod_small (256 * (s mod 2 ^ 24) + c) (2 ^ 32)) by lia.
      rewrite <- Hm. rewrite <- Z.add_mod_idemp_l by lia. reflexivity.
    - exact Hc.
    - rewrite Hm. rewrite Z.mul_comm. apply Z.mod_mul. lia. }
  assert (Hfold : forall os acc,
    wrap_uint (fold_left (fun a b => a * 256 + byte_val b) os (wrap_uint acc))
    = wrap_uint (fold_left (fun a b => a * 256 + byte_val b) os acc)).
  { induction os as [|b os IH]; intros acc; cbn [fold_left].
    - unfold wrap_uint. apply Z.mod_mod. lia.
    - rewrite <- (IH (wrap_uint acc * 256 + byte_val b)).
      rewrite <- (IH (acc * 256 + byte_val b)).
      f_equal. f_equal. unfold wrap_uint.
      rewrite Z.add_mod by lia. rewrite Z.mul_mod_idemp_l by lia.
      rewrite <- Z.add_mod by lia. reflexivity. }
  induction octets as [|b octets IH]; intros saltlen rest Hs.
  - reflexivity.
  - cbn [List.length pss_saltlen_loop app hd tl].
    rewrite Hstep by apply byte_val_range.
    rewrite IH by (apply Z.mod_pos_bound; lia).
    cbn [fold_left]. destruct octets as [|b' octets]; [reflexivity|].
    apply Hfold.
Qed.

Section PssSalt.
Context {ber_ops : BerHelpOps}.

(** X20.  When rsaPSS parameters of the expected shape have a [[2]] with
    an INTEGER, [_ksba_keyinfo_get_pss_info] succeeds and the salt length
    is the unsigned number that the content octets of the INTEGER give, the
    most significant first, reduced modulo the size of [unsigned int]. *)
Theorem pss_info_explicit_salt (der rest d2 octets tail : list byte)
    (hash : string) (ti2 ti : tag_info) :
  pss_shape der hash rest ->
  parse_context_tag rest 2 = Ok (ti2, d2) ->
  parse_integer d2 = Ok (ti, octets ++ tail) ->
  ti_length ti = derlen octets ->
  _ksba_keyinfo_get_pss_info der =
    {| pss_err := None; r_psshash := Some hash;
       r_saltlen := wrap_uint (be_value octets) |}.
Proof.
  intros Hshape H12 H13 Hlen.
  destruct Hshape as
    (ti1 & d1 & ti2' & d2' & ti3 & d3 & d4 & d5 & ti6 & d6 & ti7 & d7
     & d8 & ti9 & d9 & d10
     & H1 & H2 & H3 & H4 & H5 & H6 & H7 & H8 & H9 & H10 & H11).
  unfold _ksba_keyinfo_get_pss_info, pss_info_body.
  rewrite H1. cbn [rbind]. rewrite H2. cbn [rbind unknown_parms].
  rewrite H3. cbn [rbind unknown_parms].
  rewrite H4. cbn [rbind unknown_parms].
  rewrite H5. cbn [rbind unknown_parms].
  rewrite H6. cbn [rbind unknown_parms].
  rewrite H7. cbn [rbind].
  rewrite H8. cbn [rbind unknown_parms].
  rewrite String.eqb_refl. cbn [negb].
  rewrite H9. cbn [rbind].
  rewrite H10. cbn [rbind unknown_parms].
  rewrite String.eqb_refl. cbn [negb].
  rewrite H11. cbn [rbind unknown_parms].
  rewrite H12, H13. cbn [rbind]. rewrite Hlen.
  unfold derlen. rewrite Nat2Z.id.
  rewrite pss_saltlen_loop_value by lia.
  destruct octets; reflexivity.
Qed.

End PssSalt.

Section ReadBuffer.
Context {KsbaReader : Type} {reader_ops : ReaderOps KsbaReader}.

Lemma derlen_sub_buffer_le (der : list byte) (len : Z) :
  0 <= len -> derlen (sub_buffer der 0 len) <= len.
Proof.
  intros H. unfold sub_buffer, derlen. cbn [Z.to_nat skipn].
  rewrite length_firstn. lia.
Qed.

Lemma read_buffer_loop_result (fuel : nat) :
  forall buffer count r res r',
    0 <= count ->
    read_buffer_loop fuel buffer count r = Some (res, r') ->
    exists err out,
      res = Ok (err, out) /\
      ((err = 0 /\ derlen out = derlen buffer + count) \/
       (err = -1 /\ derlen buffer <= derlen out < derlen buffer + count)).
Proof.
  induction fuel as [|fuel IH]; intros buffer count r res r' Hc H;
    cbn [read_buffer_loop] in H; destruct (count =? 0) eqn:Hzero.
  - injection H as <- _. apply Z.eqb_eq in Hzero.
    exists 0, buffer. split; [reflexivity|]. left. lia.
  - discriminate.
  - injection H as <- _. apply Z.eqb_eq in Hzero.
    exists 0, buffer. split; [reflexivity|]. left. lia.
  - apply Z.eqb_neq in Hzero.
    destruct (ksba_reader_read r count) as ((rc & bytes) & r1).
    destruct rc.
    + injection H as <- _. exists (-1), buffer.
      split; [reflexivity|]. right. lia.
    + pose proof (derlen_sub_buffer_le bytes count Hc) as Hle.
      pose proof (derlen_nonneg (sub_buffer bytes 0 count)) as Hnn.
      apply IH in H; [|lia].
      destruct H as (err & out & -> & Hcases).
      exists err, out. split; [reflexivity|].
      rewrite derlen_app in Hcases. lia.
Qed.

(** X23.  [read_buffer] returns 0 or -1 and nothing else; when it returns
    0 it has stored exactly [count] bytes, when it returns -1 fewer than
    [count]; for [count] 0 it returns 0 without reading. *)
Theorem read_buffer_exact (count : Z) (fuel : nat) (r : KsbaReader) :
  0 <= count ->
  (forall res r',
     read_buffer count fuel r = Some (res, r') ->
     exists err out,
       res = Ok (err, out) /\
       ((err = 0 /\ derlen out = count) \/
        (err = -1 /\ derlen out < count))) /\
  (count = 0 -> read_buffer count fuel r = Some (Ok (0, []), r)).
Proof.
  intros Hc. split.
  - intros res r' H. unfold read_buffer in H.
    apply read_buffer_loop_result in H; [|exact Hc].
    destruct H as (err & out & -> & Hcases).
    exists err, out. split; [reflexivity|].
    change (derlen []) with 0 in Hcases. lia.
  - intros ->. unfold read_buffer. destruct fuel; reflexivity.
Qed.

End ReadBuffer.

Section ContentInfoSuccess.
Context {KsbaReader : Type} {reader_ops : ReaderOps KsbaReader}.
Context {oid_ops : OidOps}.


(** X25.  After a successful [_ksba_cms_parse_signed_data_part_1] the
    handle has the version that [parse_cms_version] has read, the OID of
    the encapsulated ContentInfo as inner content type, and
    [detached_data] set exactly when that ContentInfo has no content; the
    reader is where [parse_content_info] has left it, and the length, the
    ndef flag and the OID of the outer content are as before. *)
Theorem signed_data_part_1_fields (fuel : nat) (cms cms' : KsbaCMS) :
  _ksba_cms_parse_signed_data_part_1 fuel cms = Some (Ok tt, cms') ->
  exists version len ndef r1 r len' ndef' oid has_content,
    parse_cms_version fuel (reader cms) = Some (Ok (version, len, ndef), r1) /\
    parse_content_info fuel r
      = Some (Ok (len', ndef', oid, has_content), reader cms') /\
    cms_version cms' = version /\
    inner_cont_oid cms' = Some oid /\
    detached_data cms' = negb has_content /\
    content_length cms' = content_length cms /\
    content_ndef cms' = content_ndef cms /\
    content_oid cms' = content_oid cms.
Proof.
  intros H. unfold _ksba_cms_parse_signed_data_part_1 in H.
  apply pbind_ok in H. destruct H as (((v & l) & n) & s1 & Hv & H).
  unfold on_reader in Hv.
  destruct (parse_cms_version fuel (reader cms)) as [(res & r1)|] eqn:Hver;
    [|discriminate].
  injection Hv as -> <-.
  apply pbind_ok in H. destruct H as ([] & s2 & Hs2 & H).
  injection Hs2 as <-.
  apply pbind_ok in H. destruct H as (ti & s3 & Hti & H).
  unfold on_reader, read_tl in Hti.
  cbn [reader set_reader set_cms_version] in Hti.
  destruct (_ksba_ber_read_tl r1) as (rti & r2) eqn:Htl.
  injection Hti as -> <-.
  destruct (negb (is_tag ti CLASS_UNIVERSAL TYPE_SET true)); [discriminate|].
  apply pbind_ok in H. destruct H as (sd_len' & s4 & Hlen & H).
  set (base := set_reader (set_cms_version (set_reader cms r1) v) r2) in *.
  assert (Hs4 : s4 = base).
  { destruct n; cbn [negb] in Hlen.
    - injection Hlen as _ <-. reflexivity.
    - apply pbind_ok in Hlen. destruct Hlen as (x & s5 & Hx & Hlen).
      unfold take_header in Hx.
      destruct (l <? ti_nhdr ti); [discriminate|].
      injection Hx as _ <-.
      destruct (negb (ti_ndef ti) && _); [discriminate|].
      injection Hlen as _ <-. reflexivity. }
  subst s4.
  apply pbind_ok in H. destruct H as ([] & s5 & Hread & H).
  assert (Hs5 : cms_version s5 = v /\ content_length s5 = content_length cms
                /\ content_ndef s5 = content_ndef cms
                /\ content_oid s5 = content_oid cms).
  { unfold read_digest_algorithms in Hread. cbv zeta in Hread.
    destruct (ti_ndef ti); [discriminate|].
    apply pbind_ok in Hread.
    destruct Hread as ((err & buffer) & s6 & Hbuf & Hloop).
    destruct (negb (err =? 0)); [discriminate|].
    unfold on_reader in Hbuf.
    destruct (read_buffer (ti_length ti) fuel (reader base))
      as [(res & r3)|]; [|discriminate].
    injection Hbuf as _ <-.
    clear - Hloop.
    set (s := set_reader base r3) in *.
    assert (Hinv : cms_version s = v
                   /\ content_length s = content_length cms
                   /\ content_ndef s = content_ndef cms
                   /\ content_oid s = content_oid cms)
      by (repeat split).
    clearbody s. clear base.
    revert buffer s Hloop Hinv.
    induction fuel as [|fuel IH]; intros buffer s Hloop Hinv;
      cbn [parse_digest_algos] in Hloop;
      destruct (derlen buffer =? 0);
      try (injection Hloop as <-; exact Hinv); try discriminate.
    destruct (_ksba_parse_algorithm_identifier buffer) as [ai|e];
      [|discriminate].
    apply IH in Hloop; [exact Hloop|exact Hinv]. }
  destruct Hs5 as (Hv5 & Hl5 & Hn5 & Ho5).
  unfold parse_encap_content_info in H.
  apply pbind_ok in H. destruct H as (off & s7 & Hoff & H).
  injection Hoff as _ <-.
  apply pbind_ok in H.
  destruct H as ((((elen & endef) & oid) & has) & s8 & Hpci & H).
  unfold on_reader in Hpci.
  destruct (parse_content_info fuel (reader s5)) as [(res & r4)|] eqn:Hci;
    [|discriminate].
  injection Hpci as -> <-.
  apply pbind_ok in H. destruct H as ([] & s9 & Hupd & H).
  injection Hupd as <-.
  assert (Hfinal : cms' = set_inner_content (set_reader s5 r4) oid (negb has)).
  { destruct n; cbn [negb] in H.
    - injection H as <-. reflexivity.
    - apply pbind_ok in H. destruct H as (now & s10 & Hnow & H).
      injection Hnow as _ <-.
      destruct (sd_len' <? _); [discriminate|].
      destruct (negb endef && _); [discriminate|].
      injection H as <-. reflexivity. }
  subst cms'.
  exists v, l, n, r1, (reader s5), elen, endef, oid, has.
  split; [reflexivity|]. split; [exact Hci|].
  cbn [cms_version inner_cont_oid detached_data content_length content_ndef
       content_oid set_inner_content set_reader].
  repeat split; assumption.
Qed.

End ContentInfoSuccess.

Section EccCurveOidProperties.
Context {oid_from_buf_ops : OidFromBufOps}.

(** X21.  For every name of the curve table, [get_ecc_curve_oid] gives
    for the name what it gives for the dotted OID of the name, and the same
    for the OID with the prefix "oid." or "OID."; this holds for every
    implementation of [_ksba_oid_from_buf]. *)
Theorem get_ecc_curve_oid_alias (oid name : string) :
  In (oid, name) curve_names ->
  get_ecc_curve_oid (list_byte_of_string name)
    = get_ecc_curve_oid (list_byte_of_string oid) /\
  get_ecc_curve_oid (list_byte_of_string ("oid." ++ oid))
    = get_ecc_curve_oid (list_byte_of_string oid) /\
  get_ecc_curve_oid (list_byte_of_string ("OID." ++ oid))
    = get_ecc_curve_oid (list_byte_of_string oid).
Proof.
  intros Hin. unfold curve_names in Hin. cbn [In] in Hin.
  repeat (destruct Hin as [Hin | Hin];
          [injection Hin as <- <-; repeat split; reflexivity|]).
  contradiction.
Qed.

End EccCurveOidProperties.

Lemma scan_algo_table_some (table : list algo_table_s) (buf : list byte)
    (entry : algo_table_s) :
  scan_algo_table table buf = Some entry ->
  In entry table /\ supported entry <> 0 /\
  (buf = list_byte_of_string (oidstring entry)
   \/ buf = list_byte_of_string (algo_string entry)).
Proof.
  induction table as [|e table IH]; intros H; [discriminate|].
  cbn [scan_algo_table] in H.
  destruct (supported e =? 0) eqn:Hs.
  - apply IH in H. destruct H as (Hin & H). split; [right; exact Hin|exact H].
  - apply Z.eqb_neq in Hs.
    destruct (bytes_eqb buf (list_byte_of_string (oidstring e))) eqn:Ho.
    + injection H as <-. apply bytes_eqb_eq in Ho.
      split; [left; reflexivity|]. split; [exact Hs|left; exact Ho].
    + destruct (bytes_eqb buf (list_byte_of_string (algo_string e)))
        eqn:Ha.
      * injection H as <-. apply bytes_eqb_eq in Ha.
        split; [left; reflexivity|]. split; [exact Hs|right; exact Ha].
      * apply IH in H. destruct H as (Hin & H).
        split; [right; exact Hin|exact H].
Qed.

(** X22.  What [oid_from_buffer] returns is the OID, length and key
    algorithm of an entry that is supported and whose [oidstring] or
    [algo_string] is the text without an "oid." prefix; without the
    signature table the OID is one that the lookup of
    [_ksba_keyinfo_to_sexp] finds in the public key table, at a supported
    entry with that text and that key algorithm. *)
Theorem oid_from_buffer_supported (buf : list byte) (with_sig : bool)
    (oid_der : list byte) (len : Z) (algo : pkalgo_t) :
  oid_from_buffer buf with_sig = Some (oid_der, len, algo) ->
  (exists entry,
     (In entry pk_algo_table \/ (with_sig = true /\ In entry sig_algo_table))
     /\ supported entry <> 0 /\
     oid entry = oid_der /\ oidlen entry = len /\ pkalgo entry = algo /\
     (skip_oid_prefix buf = list_byte_of_string (oidstring entry)
      \/ skip_oid_prefix buf = list_byte_of_string (algo_string entry))) /\
  (with_sig = false ->
   exists entry,
     lookup_algo pk_algo_table oid_der len = Some entry /\
     supported entry <> 0 /\ pkalgo entry = algo /\
     (skip_oid_prefix buf = list_byte_of_string (oidstring entry)
      \/ skip_oid_prefix buf = list_byte_of_string (algo_string entry))).
Proof.
  unfold oid_from_buffer. cbv zeta. intros H. split.
  - destruct with_sig.
    + destruct (scan_algo_table sig_algo_table (skip_oid_prefix buf))
        as [e|] eqn:Hsig.
      * injection H as <- <- <-. apply scan_algo_table_some in Hsig.
        destruct Hsig as (Hin & Hs & Hname).
        exists e. split; [right; split; [reflexivity|exact Hin]|].
        repeat split; assumption.
      * destruct (scan_algo_table pk_algo_table (skip_oid_prefix buf))
          as [e|] eqn:Hpk; [|discriminate].
        injection H as <- <- <-. apply scan_algo_table_some in Hpk.
        destruct Hpk as (Hin & Hs & Hname).
        exists e. split; [left; exact Hin|]. repeat split; assumption.
    + destruct (scan_algo_table pk_algo_table (skip_oid_prefix buf))
        as [e|] eqn:Hpk; [|discriminate].
      injection H as <- <- <-. apply scan_algo_table_some in Hpk.
      destruct Hpk as (Hin & Hs & Hname).
      exists e. split; [left; exact Hin|]. repeat split; assumption.
  - intros ->.
    destruct (scan_algo_table pk_algo_table (skip_oid_prefix buf))
      as [e|] eqn:Hpk; [|discriminate].
    injection H as <- <- <-. apply scan_algo_table_some in Hpk.
    destruct Hpk as (Hin & Hs & Hname).
    exists e. split; [|repeat split; assumption].
    clear - Hin. unfold pk_algo_table in Hin. cbn [In] in Hin.
    repeat (destruct Hin as [<- | Hin]; [reflexivity|]).
    contradiction.
Qed.

Section CertAccessorProperties.
Context {cert_ops : CertOps} {oid_ops : OidOps} {ber_ops : BerHelpOps}.

(** X26.  For a serialNumber node that lies in the image and is shorter
    than 2^32 bytes, [ksba_cert_get_serial] returns four bytes that are the
    length of the value as an unsigned number, the most significant byte
    first, followed by exactly the value bytes of the node. *)
Theorem cert_get_serial_length_prefix (cert : KsbaCert) (n : AsnNode) :
  initialized cert = true ->
  _ksba_asn_find_node (root cert) "Certificate.tbsCertificate.serialNumber"
    = Some n ->
  0 <= node_off n ->
  0 <= node_nhdr n ->
  0 <= node_len n < 2 ^ 32 ->
  node_off n + node_nhdr n + node_len n <= derlen (image cert) ->
  exists prefix,
    ksba_cert_get_serial (Some cert)
      = Some (prefix ++ node_value (image cert) n) /\
    derlen prefix = 4 /\
    be_value prefix = node_len n /\
    derlen (node_value (image cert) n) = node_len n.
Proof.
  intros Hinit Hnode Hoff Hnhdr Hlen Hfit.
  unfold ksba_cert_get_serial. rewrite Hinit, Hnode. cbn [negb].
  rewrite (Zeqb_false (node_off n) (-1)) by lia.
  eexists. split; [reflexivity|]. split; [reflexivity|].
  split.
  - unfold be_value. cbn [fold_left].
    rewrite !byte_val_of_Z by (apply Z.mod_pos_bound; lia).
    rewrite !Z.shiftr_div_pow2 by lia.
    change (2 ^ 24) with 16777216. change (2 ^ 16) with 65536.
    change (2 ^ 8) with 256. change (2 ^ 32) with 4294967296 in Hlen.
    pose proof (Z.div_mod (node_len n) 256 ltac:(lia)).
    pose proof (Z.div_mod (node_len n / 256) 256 ltac:(lia)).
    pose proof (Z.div_mod (node_len n / 256 / 256) 256 ltac:(lia)).
    rewrite !Z.div_div in * by lia.
    change (256 * 256) with 65536 in *.
    change (65536 * 256) with 16777216 in *.
    assert (node_len n / 16777216 < 256)
      by (apply Z.div_lt_upper_bound; lia).
    assert (0 <= node_len n / 16777216) by (apply Z.div_pos; lia).
    rewrite (Z.mod_small (node_len n / 16777216) 256) by lia.
    lia.
  - unfold node_value. apply derlen_sub_buffer; lia.
Qed.

(** X27.  [ksba_cert_get_public_key] hands the encoding of the
    subjectPublicKeyInfo node to [_ksba_keyinfo_to_sexp]: for a certificate
    whose node covers the SubjectPublicKeyInfo of an RSA key it returns
    (public-key (rsa (n ..) (e ..))). *)
Theorem cert_get_public_key_rsa (cert : KsbaCert) (node : AsnNode)
    (unused : byte) (n e : list byte) :
  initialized cert = true ->
  _ksba_asn_find_node (root cert)
    "Certificate.tbsCertificate.subjectPublicKeyInfo" = Some node ->
  node_encoding (image cert) node 0 =
    der_subject_public_key_info
      (der_algorithm_identifier rsaEncryption_oid [x05; x00])
      unused (der_rsa_public_key n e) ->
  derlen (image cert) < ULONG_MOD ->
  ksba_cert_get_public_key (Some cert) =
    Value (canonical
             (SList [Token "public-key";
                     SList [Token "rsa";
                            SList [Token "n"; Atom n];
                            SList [Token "e"; Atom e]]])).
Proof.
  intros Hinit Hnode Henc Hfit.
  unfold ksba_cert_get_public_key. rewrite Hinit, Hnode. cbn [negb].
  rewrite Henc.
  rewrite <- (app_nil_r (der_subject_public_key_info _ _ _)).
  rewrite keyinfo_to_sexp_rsa_value; [reflexivity|].
  rewrite <- Henc. unfold node_encoding, sub_buffer.
  unfold derlen in *. rewrite length_firstn, length_skipn. lia.
Qed.

(** X28.  [ksba_cert_get_sig_val] hands the signatureAlgorithm node and
    its right neighbour to [_ksba_sigval_to_sexp] as one buffer: for an RSA
    signature it returns (sig-val (rsa (s <signature>)) (hash <digest>))
    with exactly the bits of the signature; when the neighbour is missing
    or has no encoding, only the algorithm is handed on, and the result is
    NULL with GPG_ERR_INV_KEYINFO in [last_error]. *)
Theorem cert_get_sig_val_rsa (cert : KsbaCert) (node : AsnNode)
    (entry : algo_table_s) (unused : byte) (sig : list byte) :
  initialized cert = true ->
  _ksba_asn_find_node (root cert) "Certificate.signatureAlgorithm"
    = Some node ->
  node_off node <> -1 ->
  lookup_algo sig_algo_table (oid entry) (derlen (oid entry)) = Some entry ->
  supported entry = 1 ->
  elem_string entry = "s"%string ->
  ctrl_string entry = [x82] ->
  derlen (image cert) < ULONG_MOD ->
  (forall value,
     node_right node = Some value ->
     node_off value <> -1 ->
     node_encoding (image cert) node (node_nhdr value + node_len value) =
       der_algorithm_identifier (oid entry) [x05; x00]
       ++ der_tlv x03 (unused :: sig) ->
     ksba_cert_get_sig_val (Some cert) =
       Value (canonical
                (SList ([Token "sig-val";
                         SList [Token (algo_string entry);
                                SList [Token "s"; Atom sig]]]
                        ++ hash_item entry)))) /\
  (node_right node = None \/
   (exists value, node_right node = Some value /\ node_off value = -1) ->
   node_encoding (image cert) node 0 =
     der_algorithm_identifier (oid entry) [x05; x00] ->
   ksba_cert_get_sig_val (Some cert) = Null (Some GPG_ERR_INV_KEYINFO)).
Proof.
  intros Hinit Hnode Hoff Hentry Hs Helem Hctrl Hfit.
  assert (Hsub : forall off len,
    derlen (sub_buffer (image cert) off len) < ULONG_MOD).
  { intros off len. unfold sub_buffer, derlen in *.
    rewrite length_firstn, length_skipn. lia. }
  split.
  - intros value Hright Hvoff Henc.
    unfold ksba_cert_get_sig_val. rewrite Hinit, Hnode. cbn [negb].
    rewrite (Zeqb_false _ _ Hoff), Hright, (Zeqb_false _ _ Hvoff).
    rewrite Henc.
    rewrite <- (app_nil_r (der_tlv x03 (unused :: sig))).
    assert (Hlen : derlen (der_algorithm_identifier (oid entry) [x05; x00]
                           ++ der_tlv x03 (unused :: sig)) < ULONG_MOD).
    { rewrite <- Henc. apply Hsub. }
    rewrite (proj1 (sigval_to_sexp_rsa_value entry unused sig []
                      Hentry Hs Helem Hctrl
                      ltac:(derlen_lia) ltac:(derlen_lia))).
    rewrite app_nil_r. reflexivity.
  - intros Hright Henc.
    unfold ksba_cert_get_sig_val. rewrite Hinit, Hnode. cbn [negb].
    rewrite (Zeqb_false _ _ Hoff).
    assert (Hmore : match node_right node with
                    | None => 0
                    | Some n2 =>
                        if node_off n2 =? -1 then 0
                        else node_nhdr n2 + node_len n2
                    end = 0).
    { destruct Hright as [-> | (value & -> & ->)]; reflexivity. }
    rewrite Hmore, Henc.
    assert (Hlen : derlen (der_algorithm_identifier (oid entry) [x05; x00])
                   < ULONG_MOD).
    { rewrite <- Henc. apply Hsub. }
    unfold _ksba_sigval_to_sexp, cryptval_to_sexp.
    rewrite get_algorithm_string_header by discriminate.
    rewrite <- (app_nil_r (der_algorithm_identifier _ _)).
    rewrite get_algorithm_der_null_parameter
      by (unfold der_algorithm_identifier in Hlen; derlen_lia).
    cbn [rbind]. unfold string_header. cbn [r_nread].
    rewrite advance_app. reflexivity.
Qed.

End CertAccessorProperties.

Lemma walk_elements_nil (ctrl der : list byte) (sb : stringbuf) :
  walk_elements EmptyString ctrl der sb = Ok (der, sb).
Proof. reflexivity. Qed.

Section DsaKeyInfo.
Context {oid_ops : OidOps}.

(** X12.  [_ksba_keyinfo_to_sexp] on the SubjectPublicKeyInfo of a DSA
    key, with the parameters SEQUENCE { p, q, g } and the key INTEGER y,
    returns (public-key (dsa (p ..) (q ..) (g ..) (y ..))): the parameters
    are walked with the parameter description of the table before the
    key. *)
Theorem keyinfo_to_sexp_dsa (p q g y rest : list byte) (unused : byte) :
  derlen (der_subject_public_key_info
            (der_algorithm_identifier dsa_oid (der_dsa_parameters p q g))
            unused (der_tlv x02 y)) < ULONG_MOD ->
  _ksba_keyinfo_to_sexp
    (der_subject_public_key_info
       (der_algorithm_identifier dsa_oid (der_dsa_parameters p q g))
       unused (der_tlv x02 y) ++ rest) =
    Ok (canonical
          (SList [Token "public-key";
                  SList [Token "dsa";
                         SList [Token "p"; Atom p];
                         SList [Token "q"; Atom q];
                         SList [Token "g"; Atom g];
                         SList [Token "y"; Atom y]]])).
Proof.
  intros Hfit. unfold der_dsa_parameters in *.
  set (v := der_tlv x02 p ++ der_tlv x02 q ++ der_tlv x02 g) in *.
  set (alg := der_algorithm_identifier dsa_oid (der_tlv x30 v)) in *.
  unfold _ksba_keyinfo_to_sexp, der_subject_public_key_info in *.
  rewrite der_tlv_app. cbn [next_octet rbind].
  change (byte_val x30 =? 48) with true. cbn [negb].
  rewrite TLV_LENGTH_der by derlen_lia.
  cbn [rbind]. rewrite <- app_assoc.
  pose proof (get_algorithm_der_parameter true x30 dsa_oid v
                (der_tlv x03 (unused :: der_tlv x02 y) ++ rest)) as Ha0.
  fold alg in Ha0.
  change (recorded_parameter true x30
            (oid_offset dsa_oid (der_tlv x30 v) + derlen dsa_oid)
            (1 + derlen (der_length_octets (derlen v))) (derlen v))
    with (oid_offset dsa_oid (der_tlv x30 v) + derlen dsa_oid,
          derlen v + (1 + derlen (der_length_octets (derlen v))),
          TYPE_SEQUENCE) in Ha0.
  cbv beta iota in Ha0.
  assert (Halgfit : derlen (der_tlv x06 dsa_oid ++ der_tlv x30 v)
                    < ULONG_MOD).
  { unfold alg, der_algorithm_identifier in Hfit. derlen_lia. }
  specialize (Ha0 ltac:(discriminate) Halgfit).
  rewrite (get_algorithm_1_der _ _ _ _ _ Ha0 eq_refl (or_introl eq_refl))
    by derlen_lia.
  cbn [rbind r_pos r_len r_nread r_bitstr r_parm_pos r_parm_len r_parm_type].
  subst alg. rewrite sub_buffer_identifier_oid.
  set (entry := lookup_algo pk_algo_table dsa_oid (derlen dsa_oid)).
  vm_compute in entry. subst entry. cbv iota.
  cbn [supported Z.eqb Pos.eqb negb andb pkalgo algo_string elem_string
       ctrl_string parmelem_string parmctrl_string rbind].
  pose proof (oid_offset_pos dsa_oid (der_tlv x30 v)) as Hoff.
  pose proof (der_length_octets_pos (derlen v)) as Hlv.
  pose proof (derlen_nonneg dsa_oid) as Hoid.
  pose proof (derlen_nonneg v) as Hv.
  rewrite (Zeqb_false (_ + _) 0) by lia.
  rewrite (Zeqb_false (derlen v + _) 0) by lia.
  change (TYPE_SEQUENCE =? TYPE_OBJECT_ID) with false.
  cbn [negb andb pkalgo_is_ecc].
  replace (derlen v + (1 + derlen (der_length_octets (derlen v))))
    with (derlen (der_tlv x30 v)) by (rewrite derlen_der_tlv; lia).
  rewrite sub_buffer_identifier_parameter.
  rewrite advance_string_header. cbn [app].
  change (byte_val x03 =? 3) with true.
  cbn [skip_unused_bits next_octet rbind].
  assert (Hparts : derlen v < ULONG_MOD /\ derlen p < ULONG_MOD
                   /\ derlen q < ULONG_MOD /\ derlen g < ULONG_MOD
                   /\ derlen y < ULONG_MOD).
  { unfold der_algorithm_identifier in Hfit. subst v. derlen_lia. }
  destruct Hparts as (Hfv & Hfp & Hfq & Hfg & Hfy).
  rewrite <- (app_nil_r (der_tlv x30 v)). subst v.
  rewrite walk_elements_der; [|left; reflexivity|exact Hfv].
  change ((byte_val x30 =? 2) && negb (Ascii.eqb "-" "-")) with false.
  cbv iota. rewrite app_nil_r.
  rewrite walk_elements_der; [|left; reflexivity|exact Hfp].
  change ((byte_val x02 =? 2) && negb (Ascii.eqb "p" "-")) with true.
  cbv iota.
  rewrite walk_elements_der; [|left; reflexivity|exact Hfq].
  change ((byte_val x02 =? 2) && negb (Ascii.eqb "q" "-")) with true.
  cbv iota.
  rewrite <- (app_nil_r (der_tlv x02 g)).
  rewrite walk_elements_der; [|left; reflexivity|exact Hfg].
  change ((byte_val x02 =? 2) && negb (Ascii.eqb "g" "-")) with true.
  cbv iota. rewrite walk_elements_nil. cbn [rbind].
  rewrite walk_elements_der; [|left; reflexivity|exact Hfy].
  change ((byte_val x02 =? 2) && negb (Ascii.eqb "y" "-")) with true.
  cbv iota. cbn [walk_elements rbind].
  f_equal. unfold put_stringbuf, put_stringbuf_sexp, put_stringbuf_mem_sexp,
    Token.
  cbn [canonical]. repeat rewrite <- app_assoc. reflexivity.
Qed.

End DsaKeyInfo.

Section AlgorithmErrors.
Context {oid_ops : OidOps} {ber_ops : BerHelpOps}.

(** X13.  For an OID that the table of the conversion does not have,
    [_ksba_keyinfo_to_sexp] and [cryptval_to_sexp] return
    GPG_ERR_UNKNOWN_ALGORITHM, and for an OID whose entry is marked as not
    supported they return GPG_ERR_UNSUPPORTED_ALGORITHM, whatever the key
    or the value is; [cryptval_to_sexp] uses the signature table in mode 0
    and the encryption table in the other modes. *)
Theorem unknown_and_unsupported_algorithms (oid content rest : list byte)
    (unused : byte) :
  derlen (der_subject_public_key_info
            (der_algorithm_identifier oid [x05; x00]) unused content)
    < ULONG_MOD ->
  (lookup_algo pk_algo_table oid (derlen oid) = None ->
   _ksba_keyinfo_to_sexp
     (der_subject_public_key_info
        (der_algorithm_identifier oid [x05; x00]) unused content ++ rest)
     = Err GPG_ERR_UNKNOWN_ALGORITHM) /\
  (forall entry,
     lookup_algo pk_algo_table oid (derlen oid) = Some entry ->
     supported entry = 0 ->
     _ksba_keyinfo_to_sexp
       (der_subject_public_key_info
          (der_algorithm_identifier oid [x05; x00]) unused content ++ rest)
       = Err GPG_ERR_UNSUPPORTED_ALGORITHM) /\
  (forall mode keyencralgo keywrapalgo encrkey,
     lookup_algo (if mode =? 0 then sig_algo_table else enc_algo_table)
       oid (derlen oid) = None ->
     cryptval_to_sexp mode
       (der_algorithm_identifier oid [x05; x00]
        ++ der_tlv x03 (unused :: content) ++ rest)
       keyencralgo keywrapalgo encrkey
       = Err GPG_ERR_UNKNOWN_ALGORITHM) /\
  (forall mode keyencralgo keywrapalgo encrkey entry,
     lookup_algo (if mode =? 0 then sig_algo_table else enc_algo_table)
       oid (derlen oid) = Some entry ->
     supported entry = 0 ->
     cryptval_to_sexp mode
       (der_algorithm_identifier oid [x05; x00]
        ++ der_tlv x03 (unused :: content) ++ rest)
       keyencralgo keywrapalgo encrkey
       = Err GPG_ERR_UNSUPPORTED_ALGORITHM).
Proof.
  intros Hfit.
  set (alg := der_algorithm_identifier oid [x05; x00]) in *.
  unfold der_subject_public_key_info in *.
  assert (Halg : derlen (der_tlv x06 oid) + 2 < ULONG_MOD).
  { unfold alg, der_algorithm_identifier in Hfit. derlen_lia. }
  pose proof (get_algorithm_der_null_parameter true oid
                (der_tlv x03 (unused :: content) ++ rest) Halg) as Ha0.
  fold alg in Ha0.
  assert (Ha1 := get_algorithm_1_der _ _ _ _ _ Ha0 eq_refl
                   (or_introl eq_refl) ltac:(derlen_lia)).
  cbn [r_pos r_len r_parm_pos r_parm_len r_parm_type] in Ha1.
  assert (Hoid : sub_buffer
                   (alg ++ der_tlv x03 (unused :: content) ++ rest)
                   (oid_offset oid [x05; x00]) (derlen oid) = oid)
    by apply sub_buffer_identifier_oid.
  assert (Hkey : forall k,
    _ksba_keyinfo_to_sexp
      (der_tlv x30 (alg ++ der_tlv x03 (unused :: content)) ++ rest) = k ->
    (lookup_algo pk_algo_table oid (derlen oid) = None ->
     k = Err GPG_ERR_UNKNOWN_ALGORITHM) /\
    (forall entry,
       lookup_algo pk_algo_table oid (derlen oid) = Some entry ->
       supported entry = 0 -> k = Err GPG_ERR_UNSUPPORTED_ALGORITHM)).
  { intros k <-. unfold _ksba_keyinfo_to_sexp.
    rewrite der_tlv_app. cbn [next_octet rbind].
    change (byte_val x30 =? 48) with true. cbn [negb].
    rewrite TLV_LENGTH_der by derlen_lia.
    cbn [rbind]. rewrite <- app_assoc, Ha1. cbn [rbind r_pos r_len].
    rewrite Hoid. split.
    - intros ->. reflexivity.
    - intros entry -> ->. reflexivity. }
  destruct (Hkey _ eq_refl) as (Hk1 & Hk2).
  split; [exact Hk1|]. split; [exact Hk2|]. split.
  - intros mode keyencralgo keywrapalgo encrkey Hnone.
    unfold cryptval_to_sexp. rewrite Ha1. cbn [rbind r_pos r_len].
    rewrite Hoid, Hnone. reflexivity.
  - intros mode keyencralgo keywrapalgo encrkey entry Hsome Hs.
    unfold cryptval_to_sexp. rewrite Ha1. cbn [rbind r_pos r_len].
    rewrite Hoid, Hsome, Hs. reflexivity.
Qed.

End AlgorithmErrors.

Lemma parse_algorithm_identifier2_der_witness :
  @_ksba_parse_algorithm_identifier2 model_oid_ops true aes128_cbc_identifier
    = Ok {| ai_nread := 19; ai_oid := "2.16.840.1.101.3.4.1.2";
            ai_parm := Some [x01; x02; x03; x04]; ai_parmlen := 4 |}.
Proof.
  exact (proj1 (proj2 (@parse_algorithm_identifier2_der model_oid_ops
           [x60; x86; x48; x01; x65; x03; x04; x01; x02]
           [x01; x02; x03; x04] [] "2.16.840.1.101.3.4.1.2"%string
           eq_refl eq_refl))
         x04 (or_introl eq_refl) ltac:(discriminate)).
Defined.

Lemma keyinfo_to_sexp_rsa_witness :
  @_ksba_keyinfo_to_sexp model_oid_ops rsa_key_info =
    Ok (list_byte_of_string "(10:public-key(3:rsa(1:n3:"
        ++ [x00; xc3; x5a] ++ list_byte_of_string ")(1:e3:"
        ++ [x01; x00; x01] ++ list_byte_of_string ")))").
Proof.
  exact (@keyinfo_to_sexp_rsa model_oid_ops [x00; xc3; x5a] [x01; x00; x01]
           [] x00 eq_refl).
Defined.

Lemma keyinfo_to_sexp_ecc_witness :
  @_ksba_keyinfo_to_sexp model_oid_ops ecc_key_info =
    Ok (list_byte_of_string
          "(10:public-key(3:ecc(5:curve19:1.2.840.10045.3.1.7)(1:q3:"
        ++ [x04; xaa; xbb] ++ list_byte_of_string ")))").
Proof.
  exact (@keyinfo_to_sexp_ecc model_oid_ops nistp256_oid [x04; xaa; xbb] []
           x00 "1.2.840.10045.3.1.7"%string ltac:(discriminate) eq_refl
           eq_refl).
Defined.

Lemma keyinfo_to_sexp_edwards_witness :
  @_ksba_keyinfo_to_sexp model_oid_ops ed25519_key_info =
    Ok (list_byte_of_string "(10:public-key(3:ecc(1:q2:"
        ++ [xaa; xbb] ++ list_byte_of_string ")))").
Proof.
  exact (@keyinfo_to_sexp_edwards model_oid_ops x70 x00 [xaa; xbb] []
           (or_intror (or_intror (or_introl eq_refl))) eq_refl).
Defined.

Lemma keyinfo_to_sexp_dsa_witness :
  @_ksba_keyinfo_to_sexp model_oid_ops dsa_key_info =
    Ok (list_byte_of_string "(10:public-key(3:dsa(1:p1:" ++ [x07]
        ++ list_byte_of_string ")(1:q1:" ++ [x03]
        ++ list_byte_of_string ")(1:g1:" ++ [x02]
        ++ list_byte_of_string ")(1:y1:" ++ [x05]
        ++ list_byte_of_string ")))").
Proof.
  exact (@keyinfo_to_sexp_dsa model_oid_ops [x07] [x03] [x02] [x05] [] x00
           eq_refl).
Defined.

Lemma unknown_and_unsupported_algorithms_witness :
  @_ksba_keyinfo_to_sexp model_oid_ops oaep_key_info
    = Err GPG_ERR_UNSUPPORTED_ALGORITHM.
Proof.
  exact (proj1 (proj2 (@unknown_and_unsupported_algorithms model_oid_ops
           model_ber_ops [x2a; x86; x48; x86; xf7; x0d; x01; x01; x07]
           [xaa] [] x00 eq_refl)) _ eq_refl eq_refl).
Defined.

Lemma sigval_to_sexp_rsa_witness :
  @_ksba_sigval_to_sexp model_ber_ops rsa_signature_value =
    Ok (list_byte_of_string "(7:sig-val(3:rsa(1:s2:" ++ [xaa; xbb]
        ++ list_byte_of_string "))(4:hash6:sha256))").
Proof.
  exact (proj1 (@sigval_to_sexp_rsa model_ber_ops sha256WithRSAEncryption
           x00 [xaa; xbb] [] eq_refl eq_refl eq_refl eq_refl eq_refl
           eq_refl)).
Defined.

Lemma sigval_to_sexp_dsa_witness :
  @_ksba_sigval_to_sexp model_ber_ops ecdsa_signature_value =
    Ok (list_byte_of_string "(7:sig-val(5:ecdsa(1:r1:" ++ [x11]
        ++ list_byte_of_string ")(1:s1:" ++ [x22]
        ++ list_byte_of_string "))(4:hash6:sha256))").
Proof.
  exact (@sigval_to_sexp_dsa model_ber_ops ecdsa_with_sha256 x00 [x11] [x22]
           [] eq_refl eq_refl eq_refl eq_refl eq_refl eq_refl).
Defined.

Lemma sigval_to_sexp_eddsa_refused_witness :
  @_ksba_sigval_to_sexp model_ber_ops ed25519_signature_value
    = Err GPG_ERR_UNEXPECTED_TAG.
Proof.
  exact (proj2 (@sigval_to_sexp_eddsa_refused model_ber_ops x70 x00
           [xaa; xbb] [] (or_introl eq_refl) eq_refl)
         xaa [xbb] eq_refl ltac:(discriminate)).
Defined.

Lemma encval_to_sexp_rsa_witness :
  @_ksba_encval_to_sexp model_ber_ops rsa_encrypted_value =
    Ok (list_byte_of_string "(7:enc-val(3:rsa(1:a2:" ++ [xaa; xbb]
        ++ list_byte_of_string ")))").
Proof.
  exact (@encval_to_sexp_rsa model_ber_ops [xaa; xbb] [] eq_refl).
Defined.

Lemma encval_kari_to_sexp_ecdh_witness :
  @_ksba_encval_kari_to_sexp model_ber_ops kari_originator_key
     "1.3.132.1.11.1" "2.16.840.1.101.3.4.1.5" [x0e; x0f] =
    Ok (list_byte_of_string "(7:enc-val(4:ecdh(1:e2:" ++ [x04; xaa]
        ++ list_byte_of_string ")(1:s2:" ++ [x0e; x0f]
        ++ list_byte_of_string
             "))(9:encr-algo14:1.3.132.1.11.1)(9:wrap-algo22:2.16.840.1.101.3.4.1.5))").
Proof.
  exact (proj2 (proj2 (@encval_kari_to_sexp_ecdh model_ber_ops
           kari_originator_key "1.3.132.1.11.1" "2.16.840.1.101.3.4.1.5"
           [x0e; x0f]))
         {| ti_class := CLASS_CONTEXT; ti_tag := 1;
            ti_is_constructed := true; ti_length := 16; ti_ndef := false;
            ti_nhdr := 2; ti_buf := [xa1; x10] |}
         x00 [x04; xaa] eq_refl eq_refl eq_refl).
Defined.

Lemma lookup_algo_first_match_witness :
  oidstring
    (mk_algo "2.16.840.1.101.3.4.3.1"%string
       [x06; x09; x60; x86; x48; x01; x65; x03; x04; x03; x01] 11
       1 PKALGO_DSA "dsa"%string "-rs"%string [x30; x02; x02]
       None None (Some "sha224"%string))
    <> "2.16.840.1.101.3.4.3.2"%string.
Proof.
  exact (proj2 (proj2 (lookup_algo_first_match sig_algo_table
           [x06; x09; x60; x86; x48; x01; x65; x03; x04; x03; x01] 11))
         _ eq_refl).
Defined.

Lemma pss_info_explicit_salt_witness :
  @_ksba_keyinfo_get_pss_info model_ber_ops pss_parameters_salt_64 =
    {| pss_err := None; r_psshash := Some "2.16.840.1.101.3.4.2.3"%string;
       r_saltlen := 64 |}.
Proof.
  refine (@pss_info_explicit_salt model_ber_ops pss_parameters_salt_64
            [xa2; x03; x02; x01; x40] [x02; x01; x40] [x40] []
            "2.16.840.1.101.3.4.2.3"%string
            {| ti_class := CLASS_CONTEXT; ti_tag := 2;
               ti_is_constructed := true; ti_length := 3; ti_ndef := false;
               ti_nhdr := 2; ti_buf := [xa2; x03] |}
            {| ti_class := CLASS_UNIVERSAL; ti_tag := 2;
               ti_is_constructed := false; ti_length := 1; ti_ndef := false;
               ti_nhdr := 2; ti_buf := [x02; x01] |}
            _ eq_refl eq_refl eq_refl).
  unfold pss_shape. repeat eexists; vm_compute; reflexivity.
Defined.

Lemma get_ecc_curve_oid_alias_witness :
  @get_ecc_curve_oid model_oid_from_buf_ops
     (list_byte_of_string "NIST P-256") = Some nistp256_oid /\
  @get_ecc_curve_oid model_oid_from_buf_ops
     (list_byte_of_string "NIST P-256")
    = @get_ecc_curve_oid model_oid_from_buf_ops
        (list_byte_of_string "1.2.840.10045.3.1.7").
Proof.
  split; [reflexivity|].
  apply (@get_ecc_curve_oid_alias model_oid_from_buf_ops
           "1.2.840.10045.3.1.7" "NIST P-256").
  do 9 right. left. reflexivity.
Defined.

Lemma oid_from_buffer_supported_witness :
  oid_from_buffer (list_byte_of_string "oid.1.2.840.113549.1.1.1") false
    = Some (rsaEncryption_oid, 9, PKALGO_RSA) /\
  exists entry,
    lookup_algo pk_algo_table rsaEncryption_oid 9 = Some entry /\
    supported entry <> 0 /\ pkalgo entry = PKALGO_RSA /\
    (skip_oid_prefix (list_byte_of_string "oid.1.2.840.113549.1.1.1")
       = list_byte_of_string (oidstring entry)
     \/ skip_oid_prefix (list_byte_of_string "oid.1.2.840.113549.1.1.1")
        = list_byte_of_string (algo_string entry)).
Proof.
  split; [reflexivity|].
  exact (proj2 (oid_from_buffer_supported
                  (list_byte_of_string "oid.1.2.840.113549.1.1.1") false
                  rsaEncryption_oid 9 PKALGO_RSA eq_refl) eq_refl).
Defined.

Lemma read_buffer_exact_witness :
  exists err out,
    Ok (0, [x01; x02]) = Ok (err, out) /\
    ((err = 0 /\ derlen out = 2) \/ (err = -1 /\ derlen out < 2)).
Proof.
  refine (proj1 (@read_buffer_exact _ model_reader_ops 2 1%nat
                   (mem_reader_of [x01; x02; x03]) _)
            (Ok (0, [x01; x02])) {| mr_data := [x03]; mr_nread := 2 |}
            eq_refl).
  lia.
Defined.


Lemma signed_data_part_1_fields_witness :
  exists cms',
    @_ksba_cms_parse_signed_data_part_1 _ model_reader_ops model_oid_ops
       3%nat (mem_cms signed_data_two_digests) = Some (Ok tt, cms') /\
    cms_version cms' = 1 /\
    inner_cont_oid cms' = Some "1.2"%string /\
    detached_data cms' = false /\
    exists version len ndef r1 r len' ndef' oid has_content,
      @parse_cms_version _ model_reader_ops 3%nat
         (reader (mem_cms signed_data_two_digests))
        = Some (Ok (version, len, ndef), r1) /\
      @parse_content_info _ model_reader_ops model_oid_ops 3%nat r
        = Some (Ok (len', ndef', oid, has_content), reader cms') /\
      cms_version cms' = version /\
      inner_cont_oid cms' = Some oid /\
      detached_data cms' = negb has_content /\
      content_length cms'
        = content_length (mem_cms signed_data_two_digests) /\
      content_ndef cms' = content_ndef (mem_cms signed_data_two_digests) /\
      content_oid cms' = content_oid (mem_cms signed_data_two_digests).
Proof.
  eexists. split; [vm_compute; reflexivity|].
  split; [reflexivity|]. split; [reflexivity|]. split; [reflexivity|].
  apply (@signed_data_part_1_fields _ model_reader_ops model_oid_ops 3%nat
           (mem_cms signed_data_two_digests)).
  vm_compute. reflexivity.
Defined.

Lemma cert_get_serial_length_prefix_witness :
  exists prefix,
    @ksba_cert_get_serial model_cert_ops (Some serial_certificate)
      = Some (prefix ++ [x01; x00]) /\
    derlen prefix = 4 /\ be_value prefix = 2 /\ derlen [x01; x00] = 2.
Proof.
  refine (@cert_get_serial_length_prefix model_cert_ops serial_certificate
            (Build_AsnNode "serialNumber" TYPE_INTEGER 0 2 2 None None)
            eq_refl eq_refl _ _ _ _); cbn; lia.
Defined.

Lemma cert_get_public_key_rsa_witness :
  @ksba_cert_get_public_key model_cert_ops model_oid_ops
     (Some rsa_certificate) =
    Value (list_byte_of_string "(10:public-key(3:rsa(1:n3:"
           ++ [x00; xc3; x5a] ++ list_byte_of_string ")(1:e3:"
           ++ [x01; x00; x01] ++ list_byte_of_string ")))").
Proof.
  exact (@cert_get_public_key_rsa model_cert_ops model_oid_ops
           rsa_certificate
           (Build_AsnNode "subjectPublicKeyInfo" TYPE_SEQUENCE 0 2 30
              None None)
           x00 [x00; xc3; x5a] [x01; x00; x01] eq_refl eq_refl eq_refl
           eq_refl).
Defined.

Lemma cert_get_sig_val_rsa_witness :
  @ksba_cert_get_sig_val model_cert_ops model_ber_ops
     (Some signed_certificate) =
    Value (list_byte_of_string "(7:sig-val(3:rsa(1:s2:" ++ [xaa; xbb]
           ++ list_byte_of_string "))(4:hash6:sha256))").
Proof.
  exact (proj1 (@cert_get_sig_val_rsa model_cert_ops model_ber_ops
           signed_certificate
           (Build_AsnNode "signatureAlgorithm" TYPE_SEQUENCE 0 2 13 None
              (Some (Build_AsnNode "signatureValue" 3 15 2 3 None None)))
           sha256WithRSAEncryption x00 [xaa; xbb]
           eq_refl eq_refl ltac:(discriminate) eq_refl eq_refl eq_refl
           eq_refl eq_refl)
         (Build_AsnNode "signatureValue" 3 15 2 3 None None)
         eq_refl ltac:(discriminate) eq_refl).
Defined.
